(** * Order / inventory consistency protocol of the e-commerce microservices

    A shallow embedding of the parts of the repository that carry the
    order/inventory protocol:

    - [Inventory]       : the Sequelize model of the product service
                          (counters, [reserveStock], [reduceStock], [addStock]);
    - [ProductConsumer] : the RabbitMQ consumer of the product service
                          ([handleMessage] and the per-event handlers);
    - [OrderModel]      : the Mongoose order aggregate
                          ([calculateTotals], [addItem], [updateStatus], ...);
    - [OrderController] : the HTTP controllers that guard the aggregate
                          ([cancelOrder], [addOrderItem], ...);
    - [Breaker]         : the shared circuit breaker.

    Conventions.  A JavaScript [throw] is the left injection of a sum, a
    normal return the right one.  [async] functions are run to completion
    (the consumer has prefetch 1 and awaits every call).  Integer columns are
    [Z]; money, a JavaScript Number, is an exact rational [Q], so that
    rounding is not part of the model.  [new Date()] / [Date.now()] read a
    clock that is passed in as a [Z] argument. *)

From Stdlib Require Import ZArith QArith Lia Bool Ascii.
From stdpp Require Import gmap strings list.

Local Open Scope Z_scope.

(** ** JavaScript exceptions *)

Module Js.

(** The classes of the exceptions that occur in the modelled code. *)
Inductive ErrorClass : Type :=
| Error          (* new Error(msg) *)
| SyntaxError    (* thrown by JSON.parse *)
| TypeError      (* property access on undefined/null, non-iterable *)
| ServiceError   (* shared-lib ServiceError *)
| AppError (statusCode : Z).  (* utils/AppError: message + HTTP status *)

Record Exn : Type := mkExn { cls : ErrorClass; message : string }.

(** [error instanceof SyntaxError] *)
Definition instanceofSyntaxError (e : Exn) : bool :=
  match cls e with SyntaxError => true | _ => false end.

(** Either an exception was thrown, or a value was returned. *)
Definition Result (A : Type) : Type := (Exn + A)%type.
Definition throw {A} (e : Exn) : Result A := inl e.
Definition ret {A} (a : A) : Result A := inr a.

End Js.

(** ** Inventory ledger (product service, Sequelize model [Inventory]) *)

Module Inventory.
Import Js.

(** The columns that the instance methods and the [beforeSave] hook read or
    write.  [productId] is the unique key of the table and is the key of
    the store in [ProductConsumer]; the descriptive columns (sku, barcode,
    notes, ...) are never touched by the methods below. *)
Record t : Type := mk {
  quantity : Z;
  reservedQuantity : Z;
  inStock : bool;
  lowStockThreshold : Z;
  lastRestockDate : option Z
}.

(** hooks.beforeSave *)
Definition beforeSave (inv : t) : t :=
  if quantity inv <=? 0
  then mk (quantity inv) (reservedQuantity inv) false
          (lowStockThreshold inv) (lastRestockDate inv)
  else mk (quantity inv) (reservedQuantity inv) true
          (lowStockThreshold inv) (lastRestockDate inv).

(** [this.save()]: runs the hook and writes the row; the instance keeps
    the written values. *)
Definition save (inv : t) : t := beforeSave inv.

(** The [validate: { min: 0 }] constraints of the schema. *)
Definition valid (inv : t) : Prop :=
  0 <= quantity inv /\ 0 <= reservedQuantity inv.

#[global] Instance valid_dec (inv : t) : Decision (valid inv).
Proof. unfold valid. apply _. Defined.

Definition getAvailableStock (inv : t) : Z :=
  Z.max 0 (quantity inv - reservedQuantity inv).

Definition isLowStock (inv : t) : bool :=
  quantity inv <=? lowStockThreshold inv.

Definition errReduceAmount : Exn :=
  mkExn Error "La cantidad a reducir debe ser mayor que cero".
(** the spec's InvalidState *)
Definition errReservedTooSmall : Exn :=
  mkExn Error "No hay suficiente cantidad reservada para reducir".
(** the spec's InsufficientStock, on a real reduction *)
Definition errStockTooSmall : Exn :=
  mkExn Error "No hay suficiente stock para reducir".
Definition errReserveAmount : Exn :=
  mkExn Error "La cantidad a reservar debe ser mayor que cero".
(** the spec's InsufficientStock, on a reservation *)
Definition errInsufficientStock : Exn :=
  mkExn Error "No hay suficiente stock disponible para reservar".
Definition errAddAmount : Exn :=
  mkExn Error "La cantidad a agregar debe ser mayor que cero".

(** [reduceStock(amount, isReserved = false)].  On a throw the instance is
    as it was: every check precedes the assignment. *)
Definition reduceStock (inv : t) (amount : Z) (isReserved : bool) : Result t :=
  if amount <=? 0 then throw errReduceAmount
  else if isReserved then
    if reservedQuantity inv <? amount then throw errReservedTooSmall
    else ret (save (mk (quantity inv) (reservedQuantity inv - amount)
                       (inStock inv) (lowStockThreshold inv)
                       (lastRestockDate inv)))
  else
    if quantity inv <? amount then throw errStockTooSmall
    else ret (save (mk (quantity inv - amount) (reservedQuantity inv)
                       (inStock inv) (lowStockThreshold inv)
                       (lastRestockDate inv))).

(** [reserveStock(amount)] *)
Definition reserveStock (inv : t) (amount : Z) : Result t :=
  if amount <=? 0 then throw errReserveAmount
  else if getAvailableStock inv <? amount then throw errInsufficientStock
  else ret (save (mk (quantity inv) (reservedQuantity inv + amount)
                     (inStock inv) (lowStockThreshold inv)
                     (lastRestockDate inv))).

(** [addStock(amount)]; [now] is the value of [new Date()]. *)
Definition addStock (now : Z) (inv : t) (amount : Z) : Result t :=
  if amount <=? 0 then throw errAddAmount
  else ret (save (mk (quantity inv + amount) (reservedQuantity inv)
                     (inStock inv) (lowStockThreshold inv) (Some now))).

(** One call of an instance method, for statements about arbitrary
    sequences of calls. *)
Inductive Call : Type :=
| CReserve (amount : Z)
| CReduce (amount : Z) (isReserved : bool)
| CAdd (now : Z) (amount : Z).

Definition call (inv : t) (c : Call) : Result t :=
  match c with
  | CReserve a => reserveStock inv a
  | CReduce a r => reduceStock inv a r
  | CAdd now a => addStock now inv a
  end.

(** The row after a call: the written instance, or the old row when the
    method threw before writing. *)
Definition after (inv : t) (c : Call) : t :=
  match call inv c with inl _ => inv | inr inv' => inv' end.

Definition run (inv : t) (cs : list Call) : t := fold_left after cs inv.

End Inventory.

(** ** Product-service consumer of order events (RabbitMQ) *)

Module ProductConsumer.
Import Js.

(** An element of [data.items]: [{ productId, quantity }]. *)
Record Item : Type := mkItem { productId : string; quantity : Z }.

(** The [data] object of an event.  Order-level events carry [items];
    the item-level events carry [productId] and [quantity] at top level.
    [items] may be missing from a malformed payload. *)
Record Data : Type := mkData {
  items : option (list Item);
  dataProductId : string;
  dataQuantity : Z
}.

(** The parsed message body [{ event, data }]. *)
Record Content : Type := mkContent {
  event : option string;
  data : option Data
}.

(** What [JSON.parse] can return for the destructuring that follows it:
    [null], on which [const { event, data } = content] throws, or a value
    with (possibly missing) properties. *)
Inductive Parsed : Type :=
| PNull
| PObject (c : Content).

(** The table, keyed by the unique [productId];
    [Inventory.findOne({ where: { productId } })] is a lookup. *)
Abbreviation Store := (gmap string Inventory.t).

(** Every row of the table meets the schema constraints. *)
Definition store_valid (st : Store) : Prop :=
  map_Forall (fun _ inv => Inventory.valid inv) st.

(** Calls on the channel. *)
Inductive ChannelOp : Type :=
| Ack
| Nack (allUpTo : bool) (requeue : bool).

Definition errItemsUndefined : Exn :=
  mkExn TypeError "Cannot read properties of undefined (reading 'length')".
Definition errDataUndefined : Exn :=
  mkExn TypeError "Cannot destructure property of 'data' as it is undefined.".
Definition errContentNull : Exn :=
  mkExn TypeError "Cannot destructure property 'event' of 'content' as it is null.".
Definition errJsonSyntax : Exn :=
  mkExn SyntaxError "Unexpected token in JSON".

(** Body of the loop of [handleOrderCreated] (and of [handleOrderItemAdded]):
    look the row up, reserve; an exception is caught and logged. *)
Definition reserveItem (st : Store) (it : Item) : Store :=
  match st !! productId it with
  | None => st
  | Some inventory =>
      match Inventory.reserveStock inventory (quantity it) with
      | inl _ => st
      | inr inventory' => <[productId it := inventory']> st
      end
  end.

(** Body of the loop of [handleOrderPaid]: release the reservation, then
    reduce the real stock, on the same instance.  Each call saves on
    success; the first exception ends the [try] block. *)
Definition payItem (st : Store) (it : Item) : Store :=
  match st !! productId it with
  | None => st
  | Some inventory =>
      match Inventory.reduceStock inventory (quantity it) true with
      | inl _ => st
      | inr inventory1 =>
          let st1 := <[productId it := inventory1]> st in
          match Inventory.reduceStock inventory1 (quantity it) false with
          | inl _ => st1
          | inr inventory2 => <[productId it := inventory2]> st1
          end
      end
  end.

(** Body of the loop of [handleOrderCancelled] (and of
    [handleOrderItemRemoved]). *)
Definition releaseItem (st : Store) (it : Item) : Store :=
  match st !! productId it with
  | None => st
  | Some inventory =>
      match Inventory.reduceStock inventory (quantity it) true with
      | inl _ => st
      | inr inventory' => <[productId it := inventory']> st
      end
  end.

(** Body of the loop of [handleOrderRefunded]. *)
Definition restockItem (now : Z) (st : Store) (it : Item) : Store :=
  match st !! productId it with
  | None => st
  | Some inventory =>
      match Inventory.addStock now inventory (quantity it) with
      | inl _ => st
      | inr inventory' => <[productId it := inventory']> st
      end
  end.

(** [const { items } = data; ... items.length ...; for (const item of items)]:
    the only statements of a handler outside a [try]. *)
Definition forItems (body : Store -> Item -> Store) (st : Store)
  (d : option Data) : Result Store :=
  match d with
  | None => throw errDataUndefined
  | Some d =>
      match items d with
      | None => throw errItemsUndefined
      | Some l => ret (fold_left body l st)
      end
  end.

Definition handleOrderCreated := forItems reserveItem.
Definition handleOrderPaid := forItems payItem.
Definition handleOrderCancelled := forItems releaseItem.
Definition handleOrderRefunded (now : Z) := forItems (restockItem now).

Definition handleOrderItemAdded (st : Store) (d : option Data) : Result Store :=
  match d with
  | None => throw errDataUndefined
  | Some d => ret (reserveItem st (mkItem (dataProductId d) (dataQuantity d)))
  end.

Definition handleOrderItemRemoved (st : Store) (d : option Data) : Result Store :=
  match d with
  | None => throw errDataUndefined
  | Some d => ret (releaseItem st (mkItem (dataProductId d) (dataQuantity d)))
  end.

(** The [switch (event)] of [handleMessage]. *)
Definition dispatch (now : Z) (st : Store) (c : Content) : Result Store :=
  match event c with
  | None => ret st
  | Some ev =>
      if String.eqb ev "order.created" then handleOrderCreated st (data c)
      else if String.eqb ev "order.paid" then handleOrderPaid st (data c)
      else if String.eqb ev "order.cancelled" then handleOrderCancelled st (data c)
      else if String.eqb ev "order.refunded" then handleOrderRefunded now st (data c)
      else if String.eqb ev "order.item.added" then handleOrderItemAdded st (data c)
      else if String.eqb ev "order.item.removed" then handleOrderItemRemoved st (data c)
      else ret st
  end.

Section HandleMessage.

(** [JSON.parse(msg.content.toString())]: [None] when it throws its
    [SyntaxError]. *)
Variable JSON_parse : string -> option Parsed.

(** The [try] block of [handleMessage] up to, not including, [channel.ack]. *)
Definition process (now : Z) (st : Store) (content : string) : Result Store :=
  match JSON_parse content with
  | None => throw errJsonSyntax
  | Some PNull => throw errContentNull
  | Some (PObject c) => dispatch now st c
  end.

(** [handleMessage(msg)]: the table afterwards and the calls made on the
    channel.  On items that are objects a handler can throw only before its
    loop (everything inside the loop is in a [try]), so the table is
    untouched whenever the [catch] block runs. *)
Definition handleMessage (now : Z) (st : Store) (msg : option string)
  : Store * list ChannelOp :=
  match msg with
  | None => (st, [])
  | Some content =>
      match process now st content with
      | inr st' => (st', [Ack])
      | inl error =>
          if instanceofSyntaxError error
          then (st, [Nack false false])
          else (st, [Nack false true])
      end
  end.

(** Messages are consumed one at a time (prefetch 1); each comes with the
    clock reading of its handling. *)
Definition consume (st : Store) (msgs : list (Z * string)) : Store :=
  fold_left (fun st m => fst (handleMessage (fst m) st (Some (snd m)))) msgs st.

End HandleMessage.

End ProductConsumer.

(** ** Order aggregate (order service, Mongoose model [Order]) *)

Module OrderModel.
Import Js.

(** The [enum] of [status]. *)
Inductive Status : Type :=
| pending | processing | payment_pending | paid | shipped | delivered
| completed | cancelled | refunded | failed | on_hold.

Definition statusName (s : Status) : string :=
  match s with
  | pending => "pending" | processing => "processing"
  | payment_pending => "payment_pending" | paid => "paid"
  | shipped => "shipped" | delivered => "delivered"
  | completed => "completed" | cancelled => "cancelled"
  | refunded => "refunded" | failed => "failed" | on_hold => "on_hold"
  end.

Definition status_eqb (a b : Status) : bool :=
  String.eqb (statusName a) (statusName b).

(** [list.includes(order.status)] *)
Definition includes (l : list Status) (s : Status) : bool :=
  existsb (status_eqb s) l.

Inductive PaymentStatus : Type :=
| pay_pending | pay_processing | pay_completed | pay_failed | pay_refunded
| pay_cancelled.

Inductive ShippingStatus : Type :=
| ship_pending | ship_processing | ship_shipped | ship_delivered
| ship_returned | ship_cancelled.

Inductive DiscountType : Type :=
| percentage | fixed_amount | free_shipping.

(** [a > b] on numbers. *)
Definition Qgtb (a b : Q) : bool := negb (Qle_bool a b).

(** [x || 0] on a number: [0] is the only falsy rational. *)
Definition orZero (x : Q) : Q := if Qeq_bool x 0 then 0%Q else x.

Module Item.
(** [orderItemSchema]; [salePrice] has no default and may be absent. *)
Record t : Type := mk {
  productId : string;
  sku : string;
  name : string;
  price : Q;
  salePrice : option Q;
  quantity : Z;
  subtotal : Q;
  taxes : Q;
  discount : Q;
  total : Q;
  isDigital : bool;
  weight : Q
}.
Definition set_quantity (q : Z) (i : t) : t :=
  mk (productId i) (sku i) (name i) (price i) (salePrice i) q (subtotal i)
     (taxes i) (discount i) (total i) (isDigital i) (weight i).
Definition set_subtotal (x : Q) (i : t) : t :=
  mk (productId i) (sku i) (name i) (price i) (salePrice i) (quantity i) x
     (taxes i) (discount i) (total i) (isDigital i) (weight i).
Definition set_total (x : Q) (i : t) : t :=
  mk (productId i) (sku i) (name i) (price i) (salePrice i) (quantity i)
     (subtotal i) (taxes i) (discount i) x (isDigital i) (weight i).
End Item.

Module Payment.
(** [paymentSchema] *)
Record t : Type := mk {
  method : string;
  transactionId : option string;
  amount : Q;
  status : PaymentStatus;
  paidAt : option Z
}.
(** A request body: every property may be absent. *)
Record info : Type := mkInfo {
  i_method : option string;
  i_transactionId : option string;
  i_amount : option Q;
  i_status : option PaymentStatus;
  i_paidAt : option Z
}.
Definition set_paidAt (d : option Z) (p : t) : t :=
  mk (method p) (transactionId p) (amount p) (status p) d.
End Payment.

Module Shipping.
(** [shippingSchema] *)
Record t : Type := mk {
  method : string;
  carrier : option string;
  trackingNumber : option string;
  cost : Q;
  status : ShippingStatus;
  shippedAt : option Z;
  deliveredAt : option Z
}.
Record info : Type := mkInfo {
  i_method : option string;
  i_carrier : option string;
  i_trackingNumber : option string;
  i_cost : option Q;
  i_status : option ShippingStatus;
  i_shippedAt : option Z;
  i_deliveredAt : option Z
}.
Definition set_shippedAt (d : option Z) (s : t) : t :=
  mk (method s) (carrier s) (trackingNumber s) (cost s) (status s) d
     (deliveredAt s).
Definition set_deliveredAt (d : option Z) (s : t) : t :=
  mk (method s) (carrier s) (trackingNumber s) (cost s) (status s)
     (shippedAt s) d.
End Shipping.

(** [discountSchema]; [dtype] is [None] when [type] is missing. *)
Record Discount : Type := mkDiscount {
  code : string;
  dtype : option DiscountType;
  damount : Q;
  description : string
}.

(** [orderSchema].  Addresses, e-mail, free notes, metadata, IP and user
    agent are kept out: no method of the aggregate reads or writes them. *)
Record Order : Type := mkOrder {
  orderNumber : option string;
  userId : string;
  status : Status;
  items : list Item.t;
  subtotal : Q;
  taxAmount : Q;
  discountAmount : Q;
  shippingAmount : Q;
  total : Q;
  payment : Payment.t;
  shipping : Shipping.t;
  discounts : list Discount;
  adminNotes : option string;
  completedAt : option Z;
  cancelledAt : option Z
}.

Definition set_status (s : Status) (o : Order) : Order :=
  mkOrder (orderNumber o) (userId o) s (items o) (subtotal o) (taxAmount o)
    (discountAmount o) (shippingAmount o) (total o) (payment o) (shipping o)
    (discounts o) (adminNotes o) (completedAt o) (cancelledAt o).
Definition set_items (l : list Item.t) (o : Order) : Order :=
  mkOrder (orderNumber o) (userId o) (status o) l (subtotal o) (taxAmount o)
    (discountAmount o) (shippingAmount o) (total o) (payment o) (shipping o)
    (discounts o) (adminNotes o) (completedAt o) (cancelledAt o).
Definition set_subtotal (x : Q) (o : Order) : Order :=
  mkOrder (orderNumber o) (userId o) (status o) (items o) x (taxAmount o)
    (discountAmount o) (shippingAmount o) (total o) (payment o) (shipping o)
    (discounts o) (adminNotes o) (completedAt o) (cancelledAt o).
Definition set_taxAmount (x : Q) (o : Order) : Order :=
  mkOrder (orderNumber o) (userId o) (status o) (items o) (subtotal o) x
    (discountAmount o) (shippingAmount o) (total o) (payment o) (shipping o)
    (discounts o) (adminNotes o) (completedAt o) (cancelledAt o).
Definition set_discountAmount (x : Q) (o : Order) : Order :=
  mkOrder (orderNumber o) (userId o) (status o) (items o) (subtotal o)
    (taxAmount o) x (shippingAmount o) (total o) (payment o) (shipping o)
    (discounts o) (adminNotes o) (completedAt o) (cancelledAt o).
Definition set_shippingAmount (x : Q) (o : Order) : Order :=
  mkOrder (orderNumber o) (userId o) (status o) (items o) (subtotal o)
    (taxAmount o) (discountAmount o) x (total o) (payment o) (shipping o)
    (discounts o) (adminNotes o) (completedAt o) (cancelledAt o).
Definition set_total (x : Q) (o : Order) : Order :=
  mkOrder (orderNumber o) (userId o) (status o) (items o) (subtotal o)
    (taxAmount o) (discountAmount o) (shippingAmount o) x (payment o)
    (shipping o) (discounts o) (adminNotes o) (completedAt o) (cancelledAt o).
Definition set_payment (p : Payment.t) (o : Order) : Order :=
  mkOrder (orderNumber o) (userId o) (status o) (items o) (subtotal o)
    (taxAmount o) (discountAmount o) (shippingAmount o) (total o) p
    (shipping o) (discounts o) (adminNotes o) (completedAt o) (cancelledAt o).
Definition set_shipping (s : Shipping.t) (o : Order) : Order :=
  mkOrder (orderNumber o) (userId o) (status o) (items o) (subtotal o)
    (taxAmount o) (discountAmount o) (shippingAmount o) (total o) (payment o)
    s (discounts o) (adminNotes o) (completedAt o) (cancelledAt o).
Definition set_discounts (l : list Discount) (o : Order) : Order :=
  mkOrder (orderNumber o) (userId o) (status o) (items o) (subtotal o)
    (taxAmount o) (discountAmount o) (shippingAmount o) (total o) (payment o)
    (shipping o) l (adminNotes o) (completedAt o) (cancelledAt o).
Definition set_adminNotes (n : option string) (o : Order) : Order :=
  mkOrder (orderNumber o) (userId o) (status o) (items o) (subtotal o)
    (taxAmount o) (discountAmount o) (shippingAmount o) (total o) (payment o)
    (shipping o) (discounts o) n (completedAt o) (cancelledAt o).
Definition set_completedAt (d : option Z) (o : Order) : Order :=
  mkOrder (orderNumber o) (userId o) (status o) (items o) (subtotal o)
    (taxAmount o) (discountAmount o) (shippingAmount o) (total o) (payment o)
    (shipping o) (discounts o) (adminNotes o) d (cancelledAt o).
Definition set_cancelledAt (d : option Z) (o : Order) : Order :=
  mkOrder (orderNumber o) (userId o) (status o) (items o) (subtotal o)
    (taxAmount o) (discountAmount o) (shippingAmount o) (total o) (payment o)
    (shipping o) (discounts o) (adminNotes o) (completedAt o) d.

(** [array.findIndex(p)]: the first index at which [p] holds, [-1] if none. *)
Fixpoint findIndexFrom {A} (p : A -> bool) (l : list A) (i : Z) : Z :=
  match l with
  | [] => -1
  | x :: r => if p x then i else findIndexFrom p r (i + 1)
  end.
Definition findIndex {A} (p : A -> bool) (l : list A) : Z :=
  findIndexFrom p l 0.

(** [i => i.productId === productId] *)
Definition hasProductId (productId : string) (i : Item.t) : bool :=
  String.eqb (Item.productId i) productId.

(** [item.salePrice > 0 ? item.salePrice : item.price]; a missing
    [salePrice] compares false. *)
Definition effectivePrice (item : Item.t) : Q :=
  match Item.salePrice item with
  | Some s => if Qgtb s 0 then s else Item.price item
  | None => Item.price item
  end.

(** Body of the [forEach] of [calculateTotals], as far as it writes the item. *)
Definition retotal (item : Item.t) : Item.t :=
  let itemSubtotal := (effectivePrice item * inject_Z (Item.quantity item))%Q in
  Item.set_total (itemSubtotal + Item.taxes item - Item.discount item)%Q
    (Item.set_subtotal itemSubtotal item).

(** The recomputation of [total] that ends [calculateTotals] and
    [applyDiscount]. *)
Definition sumTotal (o : Order) : Q :=
  (subtotal o + taxAmount o - discountAmount o + shippingAmount o)%Q.

(** [calculateTotals()] *)
Definition calculateTotals (o : Order) : Order :=
  let items' := map retotal (items o) in
  let subtotal' :=
    fold_left (fun acc item => (acc + Item.subtotal item)%Q) items' 0%Q in
  let taxAmount' :=
    fold_left (fun acc item => (acc + orZero (Item.taxes item))%Q) items' 0%Q in
  let o1 := set_taxAmount taxAmount' (set_subtotal subtotal' (set_items items' o)) in
  set_total (sumTotal o1) o1.

(** The update of an existing line in [addItem]: it uses [price], not the
    effective price; [calculateTotals] then overwrites both fields. *)
Definition bump (q : Z) (i : Item.t) : Item.t :=
  let i1 := Item.set_quantity (Item.quantity i + q) i in
  let i2 := Item.set_subtotal (Item.price i1 * inject_Z (Item.quantity i1))%Q i1 in
  Item.set_total (Item.subtotal i2 + Item.taxes i2 - Item.discount i2)%Q i2.

(** [{ ...item, subtotal: ..., total: ... }] *)
Definition newItem (item : Item.t) : Item.t :=
  let s := (Item.price item * inject_Z (Item.quantity item))%Q in
  Item.set_total (s + orZero (Item.taxes item) - orZero (Item.discount item))%Q
    (Item.set_subtotal s item).

(** [addItem(item)] *)
Definition addItem (o : Order) (item : Item.t) : Order :=
  let existingItemIndex := findIndex (hasProductId (Item.productId item)) (items o) in
  let o1 :=
    if 0 <=? existingItemIndex
    then set_items (alter (bump (Item.quantity item))
                          (Z.to_nat existingItemIndex) (items o)) o
    else set_items (items o ++ [newItem item]) o in
  calculateTotals o1.

(** [removeItem(productId)]; [splice(itemIndex, 1)] deletes one element. *)
Definition removeItem (o : Order) (productId : string) : Order :=
  let itemIndex := findIndex (hasProductId productId) (items o) in
  if 0 <=? itemIndex
  then calculateTotals (set_items (delete (Z.to_nat itemIndex) (items o)) o)
  else o.

(** [applyDiscount(discount)] *)
Definition applyDiscount (o : Order) (discount : Discount) : Order :=
  let o1 := set_discounts (discounts o ++ [discount]) o in
  let o2 :=
    match dtype discount with
    | Some percentage =>
        set_discountAmount
          (discountAmount o1 + (subtotal o1 * damount discount) / 100)%Q o1
    | Some fixed_amount =>
        set_discountAmount (discountAmount o1 + damount discount)%Q o1
    | Some free_shipping =>
        set_shippingAmount 0%Q
          (set_discountAmount (discountAmount o1 + shippingAmount o1)%Q o1)
    | None => o1
    end in
  set_total (sumTotal o2) o2.

Section Dates.

(** [new Date(now).toISOString()] *)
Variable toISOString : Z -> string.

(** The chain of [if ... else if] of [updateStatus] that records dates;
    a [Date] is truthy, so [!this.x] tests for absence. *)
Definition stamp (newStatus : Status) (now : Z) (o : Order) : Order :=
  match newStatus, completedAt o, cancelledAt o,
        Shipping.shippedAt (shipping o), Shipping.deliveredAt (shipping o),
        Payment.paidAt (payment o) with
  | completed, None, _, _, _, _ => set_completedAt (Some now) o
  | cancelled, _, None, _, _, _ => set_cancelledAt (Some now) o
  | shipped, _, _, None, _, _ =>
      set_shipping (Shipping.set_shippedAt (Some now) (shipping o)) o
  | delivered, _, _, _, None, _ =>
      set_shipping (Shipping.set_deliveredAt (Some now) (shipping o)) o
  | paid, _, _, _, _, None =>
      set_payment (Payment.set_paidAt (Some now) (payment o)) o
  | _, _, _, _, _, _ => o
  end.

(** The audit line [`${iso} - ${prevStatus} → ${newStatus}: ${notes}`]. *)
Definition auditLine (now : Z) (prevStatus newStatus : Status) (notes : string)
  : string :=
  toISOString now +:+ " - " +:+ statusName prevStatus +:+ " → " +:+
  statusName newStatus +:+ ": " +:+ notes.

(** A string is truthy when it is not empty. *)
Definition truthy (s : string) : bool := negb (String.eqb s "").

(** [updateStatus(newStatus, notes = '')] *)
Definition updateStatus (o : Order) (newStatus : Status) (notes : string)
  (now : Z) : Order :=
  let prevStatus := status o in
  let o1 := stamp newStatus now (set_status newStatus o) in
  if truthy notes then
    match adminNotes o1 with
    | Some old =>
        if truthy old
        then set_adminNotes
               (Some (old +:+ String "010"%char "" +:+
                      auditLine now prevStatus newStatus notes)) o1
        else set_adminNotes (Some (auditLine now prevStatus newStatus notes)) o1
    | None => set_adminNotes (Some (auditLine now prevStatus newStatus notes)) o1
    end
  else o1.

(** [a ?? b] on a property that the spread may overwrite. *)
Definition over {A} (new : option A) (old : A) : A :=
  match new with Some x => x | None => old end.
Definition overOpt {A} (new old : option A) : option A :=
  match new with Some x => Some x | None => old end.

(** [{ ...this.payment, ...paymentInfo }] *)
Definition mergePayment (p : Payment.t) (i : Payment.info) : Payment.t :=
  Payment.mk (over (Payment.i_method i) (Payment.method p))
    (overOpt (Payment.i_transactionId i) (Payment.transactionId p))
    (over (Payment.i_amount i) (Payment.amount p))
    (over (Payment.i_status i) (Payment.status p))
    (overOpt (Payment.i_paidAt i) (Payment.paidAt p)).

(** [{ ...this.shipping, ...shippingInfo }] *)
Definition mergeShipping (s : Shipping.t) (i : Shipping.info) : Shipping.t :=
  Shipping.mk (over (Shipping.i_method i) (Shipping.method s))
    (overOpt (Shipping.i_carrier i) (Shipping.carrier s))
    (overOpt (Shipping.i_trackingNumber i) (Shipping.trackingNumber s))
    (over (Shipping.i_cost i) (Shipping.cost s))
    (over (Shipping.i_status i) (Shipping.status s))
    (overOpt (Shipping.i_shippedAt i) (Shipping.shippedAt s))
    (overOpt (Shipping.i_deliveredAt i) (Shipping.deliveredAt s)).

(** [updatePayment(paymentInfo)] *)
Definition updatePayment (o : Order) (paymentInfo : Payment.info) (now : Z)
  : Order :=
  let o1 := set_payment (mergePayment (payment o) paymentInfo) o in
  match Payment.i_status paymentInfo, status o1 with
  | Some pay_completed, payment_pending =>
      updateStatus o1 paid "Pago recibido y confirmado" now
  | _, _ => o1
  end.

(** [updateShipping(shippingInfo)] *)
Definition updateShipping (o : Order) (shippingInfo : Shipping.info) (now : Z)
  : Order :=
  let o1 := set_shipping (mergeShipping (shipping o) shippingInfo) o in
  match Shipping.i_status shippingInfo, status o1 with
  | Some ship_shipped, processing => updateStatus o1 shipped "Orden enviada" now
  | Some ship_delivered, shipped => updateStatus o1 delivered "Orden entregada" now
  | _, _ => o1
  end.

(** The mutating methods of the aggregate, as one type of operations. *)
Inductive Op : Type :=
| OpCalculateTotals
| OpAddItem (item : Item.t)
| OpRemoveItem (productId : string)
| OpApplyDiscount (discount : Discount)
| OpUpdateStatus (newStatus : Status) (notes : string) (now : Z)
| OpUpdatePayment (paymentInfo : Payment.info) (now : Z)
| OpUpdateShipping (shippingInfo : Shipping.info) (now : Z).

Definition apply (o : Order) (op : Op) : Order :=
  match op with
  | OpCalculateTotals => calculateTotals o
  | OpAddItem item => addItem o item
  | OpRemoveItem productId => removeItem o productId
  | OpApplyDiscount discount => applyDiscount o discount
  | OpUpdateStatus newStatus notes now => updateStatus o newStatus notes now
  | OpUpdatePayment paymentInfo now => updatePayment o paymentInfo now
  | OpUpdateShipping shippingInfo now => updateShipping o shippingInfo now
  end.

(** An order as the service holds it: [createOrder] builds the document,
    runs [calculateTotals] and then writes [payment.amount] and [status]
    only, which [calculateTotals] neither reads nor writes; afterwards the
    document changes through the methods above. *)
Definition history (o0 : Order) (ops : list Op) : Order :=
  fold_left apply ops (calculateTotals o0).

(** Whether the operation runs the assignment [this.total = ...] on [o]. *)
Definition recomputes (o : Order) (op : Op) : bool :=
  match op with
  | OpCalculateTotals | OpAddItem _ | OpApplyDiscount _ => true
  | OpRemoveItem productId =>
      0 <=? findIndex (hasProductId productId) (items o)
  | OpUpdateStatus _ _ _ | OpUpdatePayment _ _ | OpUpdateShipping _ _ => false
  end.

End Dates.

(** The invariant of the data model. *)
Definition totalsConsistent (o : Order) : Prop :=
  (total o == subtotal o + taxAmount o - discountAmount o + shippingAmount o)%Q.

#[global] Instance totalsConsistent_dec (o : Order) : Decision (totalsConsistent o).
Proof. unfold totalsConsistent. apply Qeq_dec. Defined.

End OrderModel.

(** ** Order controllers (order service, [orderController]) *)

Module OrderController.
Import Js.
Module M := OrderModel.

(** [req.user] *)
Record User : Type := mkUser { id : string; role : string }.

(** The collection, keyed by [_id]; [Order.findById] is a lookup and
    [order.save()] an insert at the same key.  An order read from the
    collection was saved before and has its [orderNumber], so the pre-save
    hook does nothing on it.  The data store and the broker are external:
    the model follows the run in which their calls do not fail. *)
Abbreviation Orders := (gmap string M.Order).

(** The part of an event's [data] that differs between routing keys. *)
Inductive Payload : Type :=
| PItems (items : list (string * Z))
| PItem (productId : string) (quantity : Z)
| PStatus (prevStatus newStatus : string).

(** One call of [publishOrderEvent(routingKey, data)]. *)
Record Event : Type := mkEvent {
  routingKey : string;
  orderId : string;
  evUserId : string;
  payload : Payload
}.

(** The handler either calls [next(error)] or sends a JSON body. *)
Inductive Response : Type :=
| Next (error : Exn)
| Json (statusCode : Z) (order : M.Order).

Record Outcome : Type := mkOutcome {
  orders : Orders;
  response : Response;
  published : list Event
}.

(** [return next(new AppError(message, statusCode))]: nothing was saved,
    nothing published. *)
Definition reject (st : Orders) (message : string) (statusCode : Z) : Outcome :=
  mkOutcome st (Next (mkExn (AppError statusCode) message)) [].

Definition rejected (r : Outcome) : bool :=
  match response r with Next _ => true | Json _ _ => false end.

(** The request ended in an error, nothing was saved and nothing published. *)
Definition untouched (st : Orders) (r : Outcome) : Prop :=
  rejected r = true /\ orders r = st /\ published r = [].

(** [order.items.map(item => ({ productId, quantity }))] *)
Definition itemLines (o : M.Order) : list (string * Z) :=
  map (fun item => (M.Item.productId item, M.Item.quantity item)) (M.items o).

Definition lockedStatuses : list M.Status :=
  [M.shipped; M.delivered; M.completed; M.cancelled; M.refunded].
Definition uncancellable : list M.Status :=
  [M.delivered; M.completed; M.cancelled; M.refunded].
Definition ownerCancellable : list M.Status :=
  [M.pending; M.payment_pending].

Definition isAdmin (u : User) : bool := String.eqb (role u) "admin".
Definition isOwner (u : User) (o : M.Order) : bool :=
  String.eqb (id u) (M.userId o).

(** [validStatuses.includes(status)] on the string of the request body,
    together with the value of the enum it names. *)
Definition statusOfName (s : string) : option M.Status :=
  List.find (fun st => String.eqb (M.statusName st) s)
    [M.pending; M.processing; M.payment_pending; M.paid; M.shipped;
     M.delivered; M.completed; M.cancelled; M.refunded; M.failed; M.on_hold].

(** The product returned by the product service. *)
Record ProductInfo : Type := mkProductInfo {
  p_sku : string;
  p_name : string;
  p_price : Q;
  p_salePrice : option Q;
  p_isDigital : option bool;
  p_weight : option Q
}.

Section Controllers.

Variable toISOString : Z -> string.

(** [getProductInfo(productId)]: an HTTP call that may throw. *)
Variable getProductInfo : string -> Result ProductInfo.

(** [exports.cancelOrder]; [reason] is [req.body.reason]. *)
Definition cancelOrder (st : Orders) (user : User) (orderId : string)
  (reason : option string) (now : Z) : Outcome :=
  match st !! orderId with
  | None => reject st "Orden no encontrada" 404
  | Some order =>
      if M.includes uncancellable (M.status order)
      then reject st "Esta orden no puede ser cancelada" 400
      else if negb (isAdmin user) && negb (isOwner user order)
      then reject st "No tienes permiso para cancelar esta orden" 403
      else if negb (isAdmin user)
              && negb (M.includes ownerCancellable (M.status order))
      then reject st "No puedes cancelar una orden en este estado" 403
      else
        let notes :=
          match reason with
          | Some r => if M.truthy r then r
                      else "Cancelado por el usuario/administrador"
          | None => "Cancelado por el usuario/administrador"
          end in
        let order' := M.updateStatus toISOString order M.cancelled notes now in
        mkOutcome (<[orderId := order']> st) (Json 200 order')
          [mkEvent "order.cancelled" orderId (M.userId order')
             (PItems (itemLines order'))]
  end.

(** [exports.updateOrderStatus]; the route also requires the admin role. *)
Definition updateOrderStatus (st : Orders) (user : User) (orderId : string)
  (status : string) (notes : option string) (now : Z) : Outcome :=
  match statusOfName status with
  | None => reject st "Estado de orden no válido" 400
  | Some newStatus =>
      match st !! orderId with
      | None => reject st "Orden no encontrada" 404
      | Some order =>
          if negb (isAdmin user)
          then reject st "No tienes permiso para actualizar esta orden" 403
          else
            let order' :=
              M.updateStatus toISOString order newStatus
                (match notes with Some n => n | None => "" end) now in
            let ev kind := mkEvent kind orderId (M.userId order')
                             (PItems (itemLines order')) in
            mkOutcome (<[orderId := order']> st) (Json 200 order')
              (mkEvent "order.status_updated" orderId (M.userId order')
                 (PStatus (M.statusName (M.status order')) status)
               :: match newStatus with
                  | M.paid => [ev "order.paid"]
                  | M.cancelled => [ev "order.cancelled"]
                  | _ => []
                  end)
      end
  end.

(** The item built by [addOrderItem] from the product data. *)
Definition itemOfProduct (productId : string) (quantity : Z) (p : ProductInfo)
  : M.Item.t :=
  M.Item.mk productId (p_sku p) (p_name p) (p_price p)
    (Some (match p_salePrice p with Some s => M.orZero s | None => 0%Q end))
    quantity 0%Q 0%Q 0%Q 0%Q
    (match p_isDigital p with Some b => b | None => false end)
    (match p_weight p with Some w => M.orZero w | None => 0%Q end).

(** [exports.addOrderItem]; [productId] and [quantity] come from the body. *)
Definition addOrderItem (st : Orders) (user : User) (orderId : string)
  (productId : option string) (quantity : option Z) : Outcome :=
  match productId, quantity with
  | Some productId, Some quantity =>
      if negb (M.truthy productId) || (quantity <=? 0)
      then reject st "Se requiere ID de producto y cantidad válida" 400
      else
        match st !! orderId with
        | None => reject st "Orden no encontrada" 404
        | Some order =>
            if M.includes lockedStatuses (M.status order)
            then reject st "No se puede modificar una orden en este estado" 400
            else if negb (isAdmin user) && negb (isOwner user order)
            then reject st "No tienes permiso para modificar esta orden" 403
            else
              match getProductInfo productId with
              | inl error => mkOutcome st (Next error) []
              | inr productInfo =>
                  let order' :=
                    M.addItem order
                      (itemOfProduct productId quantity productInfo) in
                  mkOutcome (<[orderId := order']> st) (Json 200 order')
                    [mkEvent "order.item.added" orderId (M.userId order')
                       (PItem productId quantity)]
              end
        end
  | _, _ => reject st "Se requiere ID de producto y cantidad válida" 400
  end.

(** [exports.removeOrderItem]; [productId] is a route parameter. *)
Definition removeOrderItem (st : Orders) (user : User) (orderId : string)
  (productId : string) : Outcome :=
  match st !! orderId with
  | None => reject st "Orden no encontrada" 404
  | Some order =>
      if M.includes lockedStatuses (M.status order)
      then reject st "No se puede modificar una orden en este estado" 400
      else if negb (isAdmin user) && negb (isOwner user order)
      then reject st "No tienes permiso para modificar esta orden" 403
      else
        match List.find (M.hasProductId productId) (M.items order) with
        | None => reject st "Producto no encontrado en la orden" 404
        | Some item =>
            let quantity := M.Item.quantity item in
            let order' := M.removeItem order productId in
            mkOutcome (<[orderId := order']> st) (Json 200 order')
              [mkEvent "order.item.removed" orderId (M.userId order')
                 (PItem productId quantity)]
        end
  end.

(** [exports.applyDiscount]; [code] is [req.body.code]. *)
Definition applyDiscount (st : Orders) (user : User) (orderId : string)
  (code : option string) : Outcome :=
  match code with
  | None => reject st "Se requiere código de descuento" 400
  | Some code =>
      if negb (M.truthy code)
      then reject st "Se requiere código de descuento" 400
      else
        match st !! orderId with
        | None => reject st "Orden no encontrada" 404
        | Some order =>
            if M.includes lockedStatuses (M.status order)
            then reject st "No se puede modificar una orden en este estado" 400
            else if negb (isAdmin user) && negb (isOwner user order)
            then reject st "No tienes permiso para modificar esta orden" 403
            else
              let discount :=
                M.mkDiscount code (Some M.percentage) 10%Q
                  "Descuento del 10%" in
              let order' := M.applyDiscount order discount in
              mkOutcome (<[orderId := order']> st) (Json 200 order') []
        end
  end.

End Controllers.

End OrderController.

(** ** Circuit breaker (shared library, [CircuitBreaker]) *)

Module Breaker.
Import Js.

Inductive CircuitState : Type := CLOSED | OPEN | HALF_OPEN.

(** What the wrapped function resolves to. *)
Definition Value : Type := string.

(** A thrown value: an exception object, or [null]/[undefined] ([None]),
    which a promise may also be rejected with. *)
Definition Thrown : Type := option Exn.

(** The [options] argument of the constructor. *)
Record Options : Type := mkOptions {
  o_failureThreshold : option Z;
  o_resetTimeout : option Z;
  o_successThreshold : option Z;
  o_timeout : option Z;
  o_fallback : option (Thrown -> Value);
  o_name : option string;
  o_isFailure : option (Thrown -> bool)
}.

Record CircuitBreaker : Type := mk {
  state : CircuitState;
  failureThreshold : Z;
  failureCount : Z;
  resetTimeout : Z;
  lastFailureTime : option Z;
  successThreshold : Z;
  successCount : Z;
  timeout : Z;
  fallbackFn : option (Thrown -> Value);
  name : string;
  isFailure : Thrown -> bool
}.

(** [error !== null && error !== undefined] *)
Definition _defaultIsFailure (error : Thrown) : bool :=
  match error with Some _ => true | None => false end.

(** [x || d] on a number option: absent and [0] are falsy. *)
Definition orNum (x : option Z) (d : Z) : Z :=
  match x with Some v => if v =? 0 then d else v | None => d end.

(** [constructor(request, options)] *)
Definition new (options : Options) : CircuitBreaker :=
  mk CLOSED (orNum (o_failureThreshold options) 5) 0
     (orNum (o_resetTimeout options) 30000) None
     (orNum (o_successThreshold options) 2) 0
     (orNum (o_timeout options) 10000) (o_fallback options)
     (match o_name options with
      | Some n => if OrderModel.truthy n then n else "service"
      | None => "service" end)
     (match o_isFailure options with Some f => f | None => _defaultIsFailure end).

Definition _toOpen (now : Z) (cb : CircuitBreaker) : CircuitBreaker :=
  mk OPEN (failureThreshold cb) 0 (resetTimeout cb) (Some now)
     (successThreshold cb) 0 (timeout cb) (fallbackFn cb) (name cb)
     (isFailure cb).

Definition _toHalfOpen (cb : CircuitBreaker) : CircuitBreaker :=
  mk HALF_OPEN (failureThreshold cb) 0 (resetTimeout cb) (lastFailureTime cb)
     (successThreshold cb) 0 (timeout cb) (fallbackFn cb) (name cb)
     (isFailure cb).

Definition _toClose (cb : CircuitBreaker) : CircuitBreaker :=
  mk CLOSED (failureThreshold cb) 0 (resetTimeout cb) None
     (successThreshold cb) 0 (timeout cb) (fallbackFn cb) (name cb)
     (isFailure cb).

Definition reset (cb : CircuitBreaker) : CircuitBreaker := _toClose cb.

Definition set_failureCount (n : Z) (cb : CircuitBreaker) : CircuitBreaker :=
  mk (state cb) (failureThreshold cb) n (resetTimeout cb) (lastFailureTime cb)
     (successThreshold cb) (successCount cb) (timeout cb) (fallbackFn cb)
     (name cb) (isFailure cb).
Definition set_successCount (n : Z) (cb : CircuitBreaker) : CircuitBreaker :=
  mk (state cb) (failureThreshold cb) (failureCount cb) (resetTimeout cb)
     (lastFailureTime cb) (successThreshold cb) n (timeout cb) (fallbackFn cb)
     (name cb) (isFailure cb).
Definition set_lastFailureTime (t : option Z) (cb : CircuitBreaker)
  : CircuitBreaker :=
  mk (state cb) (failureThreshold cb) (failureCount cb) (resetTimeout cb) t
     (successThreshold cb) (successCount cb) (timeout cb) (fallbackFn cb)
     (name cb) (isFailure cb).

(** [_handleSuccess()] *)
Definition _handleSuccess (cb : CircuitBreaker) : CircuitBreaker :=
  match state cb with
  | HALF_OPEN =>
      let cb1 := set_successCount (successCount cb + 1) cb in
      if successThreshold cb1 <=? successCount cb1 then _toClose cb1 else cb1
  | CLOSED => set_failureCount 0 cb
  | OPEN => cb
  end.

(** What a call of [fire] hands back: a returned value or a thrown one. *)
Definition Settled : Type := (Thrown + Value)%type.

(** The tail of [_handleFailure] and of [_handleOpenCircuit]:
    run the fallback if there is one, else throw. *)
Definition fallbackOrThrow (cb : CircuitBreaker) (error : Thrown) : Settled :=
  match fallbackFn cb with
  | Some f => inr (f error)
  | None => inl error
  end.

Definition errLoggedNull : Exn :=
  mkExn TypeError "Cannot read properties of null (reading 'message')".

(** [_handleFailure(error)]; [failedAt] and [openedAt] are the two readings
    of [Date.now()], in [_handleFailure] and in [_toOpen].  The log line
    reads [error.message], which throws when a custom classifier counts a
    [null] rejection. *)
Definition _handleFailure (cb : CircuitBreaker) (error : Thrown)
  (failedAt openedAt : Z) : CircuitBreaker * Settled :=
  if isFailure cb error then
    let cb1 :=
      set_lastFailureTime (Some failedAt)
        (set_failureCount (failureCount cb + 1) cb) in
    match error with
    | None => (cb1, inl (Some errLoggedNull))
    | Some _ =>
        let cb2 :=
          match state cb1 with
          | CLOSED =>
              if failureThreshold cb1 <=? failureCount cb1
              then _toOpen openedAt cb1 else cb1
          | HALF_OPEN => _toOpen openedAt cb1
          | OPEN => cb1
          end in
        (cb2, fallbackOrThrow cb2 error)
    end
  else (cb, fallbackOrThrow cb error).

Definition openCircuitError (cb : CircuitBreaker) : Exn :=
  mkExn ServiceError
    ("Circuit Breaker está abierto para " +:+ name cb +:+
     ". El servicio no está disponible temporalmente.").

(** [_handleOpenCircuit()] *)
Definition _handleOpenCircuit (cb : CircuitBreaker) : Settled :=
  fallbackOrThrow cb (Some (openCircuitError cb)).

(** How the awaited [_executeWithTimeout] ends: the request resolved first,
    or the request or the timer rejected first. *)
Inductive Settlement : Type :=
| Resolved (result : Value)
| Rejected (error : Thrown).

(** The surroundings of one call of [fire]: the clock at the test of the
    open state, how the race ends if the request is started, and the
    clock at the two later readings. *)
Record Env : Type := mkEnv {
  now : Z;
  settlement : Settlement;
  failedAt : Z;
  openedAt : Z
}.

(** The first [if] of [fire]: [None] when the call is short-circuited,
    else the breaker with which the request is started. *)
Definition gate (cb : CircuitBreaker) (now : Z) : option CircuitBreaker :=
  match state cb with
  | OPEN =>
      match lastFailureTime cb with
      | Some t =>
          if negb (t =? 0) && (resetTimeout cb <? now - t)
          then Some (_toHalfOpen cb) else None
      | None => None
      end
  | _ => Some cb
  end.

(** The observable result of one [fire]. *)
Record Fired : Type := mkFired {
  breaker : CircuitBreaker;      (* the instance afterwards *)
  invoked : bool;                (* whether [this.request] was called *)
  atCall : option CircuitState;  (* the state when it was called *)
  settled : Settled
}.

(** [fire(...args)] *)
Definition fire (cb : CircuitBreaker) (env : Env) : Fired :=
  match gate cb (now env) with
  | None => mkFired cb false None (_handleOpenCircuit cb)
  | Some cb1 =>
      match settlement env with
      | Resolved result =>
          mkFired (_handleSuccess cb1) true (Some (state cb1)) (inr result)
      | Rejected error =>
          let '(cb2, r) := _handleFailure cb1 error (failedAt env) (openedAt env) in
          mkFired cb2 true (Some (state cb1)) r
      end
  end.

(** Successive calls on one instance. *)
Definition fires (cb : CircuitBreaker) (envs : list Env) : CircuitBreaker :=
  fold_left (fun cb env => breaker (fire cb env)) envs cb.

(** The call ends in a failure that the classifier counts. *)
Definition failing (cb : CircuitBreaker) (env : Env) : Prop :=
  exists e, settlement env = Rejected (Some e) /\ isFailure cb (Some e) = true.

Definition succeeding (env : Env) : Prop :=
  exists v, settlement env = Resolved v.

(** The options fixed by the constructor are the same in both instances. *)
Definition sameConfig (cb cb' : CircuitBreaker) : Prop :=
  failureThreshold cb' = failureThreshold cb /\
  successThreshold cb' = successThreshold cb /\
  resetTimeout cb' = resetTimeout cb /\
  isFailure cb' = isFailure cb /\
  fallbackFn cb' = fallbackFn cb.

End Breaker.

(** ** Derived notions for the inventory ledger and its consumer *)

Module Ledger.
Import ProductConsumer.

(** The contract the data model intends: what is reserved is in stock. *)
Definition booked (inv : Inventory.t) : Prop :=
  0 <= Inventory.reservedQuantity inv <= Inventory.quantity inv.

Definition store_booked (st : Store) : Prop :=
  map_Forall (fun _ inv => booked inv) st.

Definition sumZ (l : list Z) : Z := fold_right Z.add 0 l.

(** The quantities of the lines of [l] that name [pid], in order. *)
Definition quantitiesFor (pid : string) (l : list Item) : list Z :=
  map quantity (List.filter (fun it => String.eqb (productId it) pid) l).

(** The product ids an event's [data] names, in [items] or at top level. *)
Definition touched (c : Content) : list string :=
  match data c with
  | None => []
  | Some d =>
      match items d with
      | Some l => map productId l
      | None => []
      end ++ [dataProductId d]
  end.

(** What the body of the loop of [handleOrderPaid] does to the row it
    finds: release, then reduce, stopping at the first call that throws. *)
Definition payRow (inv : Inventory.t) (q : Z) : Inventory.t :=
  match Inventory.reduceStock inv q true with
  | inl _ => inv
  | inr inv1 =>
      match Inventory.reduceStock inv1 q false with
      | inl _ => inv1
      | inr inv2 => inv2
      end
  end.

(** The routing keys the queue of the product service is bound to. *)
Definition orderLevelEvents : list string :=
  ["order.created"; "order.paid"; "order.cancelled"; "order.refunded"].
Definition handledEvents : list string :=
  orderLevelEvents ++ ["order.item.added"; "order.item.removed"].

End Ledger.

(** ** Derived notions for the order aggregate *)

Module OrderExtra.
Import OrderModel.

(** How many units of a product an item list holds, over all its lines. *)
Definition unitsOf (productId : string) (l : list Item.t) : Z :=
  fold_right
    (fun item acc =>
       if hasProductId productId item then Item.quantity item + acc else acc)
    0 l.

(** The position [findIndex] reports, as an option. *)
Fixpoint firstIndex {A} (p : A -> bool) (l : list A) : option nat :=
  match l with
  | [] => None
  | x :: r => if p x then Some 0%nat else S <$> firstIndex p r
  end.

(** The five timestamps [updateStatus] may record. *)
Definition dates (o : Order) : list (option Z) :=
  [completedAt o; cancelledAt o; Shipping.shippedAt (shipping o);
   Shipping.deliveredAt (shipping o); Payment.paidAt (payment o)].

(** The status whose first entry records the [i]-th timestamp of [dates]. *)
Definition dateStatuses : list Status :=
  [completed; cancelled; shipped; delivered; paid].

End OrderExtra.

(** ** Order controllers: creation and payment update *)

Module OrderEndpoints.
Import Js OrderController.

(** An element of [req.body.items]. *)
Record ItemRequest : Type := mkItemRequest {
  r_productId : string;
  r_quantity : Z
}.

(** [addressSchema], as far as it is required. *)
Record Address : Type := mkAddress {
  a_name : string;
  addressLine1 : string;
  city : string;
  state : string;
  postalCode : string;
  country : string
}.

Definition set_orderNumber (n : option string) (o : M.Order) : M.Order :=
  M.mkOrder n (M.userId o) (M.status o) (M.items o) (M.subtotal o)
    (M.taxAmount o) (M.discountAmount o) (M.shippingAmount o) (M.total o)
    (M.payment o) (M.shipping o) (M.discounts o) (M.adminNotes o)
    (M.completedAt o) (M.cancelledAt o).

Definition set_amount (x : Q) (p : M.Payment.t) : M.Payment.t :=
  M.Payment.mk (M.Payment.method p) (M.Payment.transactionId p) x
    (M.Payment.status p) (M.Payment.paidAt p).

(** [`${prefix}-${timestamp}-${randomStr}`]; [timestamp] is the clock in
    base 36 and [randomStr] four characters of a UUID. *)
Definition orderNumberOf (timestamp randomStr : string) : string :=
  "ORD" +:+ "-" +:+ timestamp +:+ "-" +:+ randomStr.

(** [orderSchema.pre('save', ...)] *)
Definition preSave (timestamp randomStr : string) (o : M.Order) : M.Order :=
  match M.orderNumber o with
  | Some n =>
      if M.truthy n then o
      else set_orderNumber (Some (orderNumberOf timestamp randomStr)) o
  | None => set_orderNumber (Some (orderNumberOf timestamp randomStr)) o
  end.

Section Endpoints.

Variable toISOString : Z -> string.
Variable getProductInfo : string -> Result ProductInfo.

(** [validateOrderItems(items)]: the first product that cannot be fetched
    ends the loop with a 400. *)
Fixpoint validateOrderItems (items : list ItemRequest)
  : Result (list M.Item.t) :=
  match items with
  | [] => ret []
  | item :: rest =>
      match getProductInfo (r_productId item) with
      | inl _ =>
          throw (mkExn (AppError 400)
                   ("Producto no válido o no disponible: " +:+ r_productId item))
      | inr productInfo =>
          match validateOrderItems rest with
          | inl error => inl error
          | inr validatedItems =>
              ret (itemOfProduct (r_productId item) (r_quantity item)
                     productInfo :: validatedItems)
          end
      end
  end.

(** [exports.createOrder].  [items] is [None] when the body has no array
    there; [payment] and [shipping] are the sub-documents Mongoose builds
    from the body objects, when the body has them; [newId] is the [_id] of
    the new document. *)
Definition createOrder (st : Orders) (user : User)
  (items : option (list ItemRequest)) (shippingAddress : option Address)
  (payment : option M.Payment.t) (shipping : option M.Shipping.t)
  (newId timestamp randomStr : string) : Outcome :=
  match items with
  | None | Some [] => reject st "La orden debe tener al menos un producto" 400
  | Some items =>
      match shippingAddress with
      | None => reject st "Se requiere dirección de envío" 400
      | Some _ =>
          match validateOrderItems items with
          | inl error => mkOutcome st (Next error) []
          | inr validatedItems =>
              let order0 :=
                M.mkOrder None (id user) M.pending validatedItems 0%Q 0%Q 0%Q
                  (match shipping with
                   | Some s => M.Shipping.cost s | None => 0%Q end)
                  0%Q
                  (match payment with
                   | Some p => p
                   | None => M.Payment.mk "pending" None 0%Q M.pay_pending None
                   end)
                  (match shipping with
                   | Some s => s
                   | None => M.Shipping.mk "standard" None None 0%Q
                               M.ship_pending None None
                   end)
                  [] None None None in
              let order1 := M.calculateTotals order0 in
              let order2 :=
                M.set_payment (set_amount (M.total order1) (M.payment order1))
                  order1 in
              let initialStatus :=
                match payment with
                | Some p =>
                    if String.eqb (M.Payment.method p) "credit_card"
                    then M.payment_pending else M.pending
                | None => M.pending
                end in
              let order := preSave timestamp randomStr
                             (M.set_status initialStatus order2) in
              mkOutcome (<[newId := order]> st) (Json 201 order)
                [mkEvent "order.created" newId (M.userId order)
                   (PItems (itemLines order))]
          end
      end
  end.

(** [exports.updatePayment]; [paymentInfo] is the request body. *)
Definition updatePayment (st : Orders) (user : User) (orderId : string)
  (paymentInfo : M.Payment.info) (now : Z) : Outcome :=
  match st !! orderId with
  | None => reject st "Orden no encontrada" 404
  | Some order =>
      if negb (isAdmin user) && negb (isOwner user order)
      then reject st "No tienes permiso para actualizar esta orden" 403
      else
        let order' := M.updatePayment toISOString order paymentInfo now in
        mkOutcome (<[orderId := order']> st) (Json 200 order')
          match M.Payment.i_status paymentInfo with
          | Some M.pay_completed =>
              [mkEvent "order.paid" orderId (M.userId order')
                 (PItems (itemLines order'))]
          | _ => []
          end
  end.

End Endpoints.

End OrderEndpoints.

(** ** From a published event to the message the product service parses *)

Module Wire.
Import OrderController.

(** The [data] of an event as [handleMessage] of the product service
    destructures it after [JSON.stringify] and [JSON.parse]: order-level
    events have [items] and no top-level [productId]/[quantity], item-level
    events the reverse.  An absent [productId] or [quantity] is never read
    by the handler of an order-level event. *)
Definition dataOf (p : Payload) : ProductConsumer.Data :=
  match p with
  | PItems l =>
      ProductConsumer.mkData
        (Some (map (fun line => ProductConsumer.mkItem (fst line) (snd line)) l))
        "" 0
  | PItem productId quantity => ProductConsumer.mkData None productId quantity
  | PStatus _ _ => ProductConsumer.mkData None "" 0
  end.

(** [{ event: routingKey, data, timestamp }] *)
Definition contentOf (e : Event) : ProductConsumer.Content :=
  ProductConsumer.mkContent (Some (routingKey e)) (Some (dataOf (payload e))).

(** The product service handling the events a controller published, in
    the order of publication. *)
Definition deliver (now : Z) (st : gmap string Inventory.t) (es : list Event)
  : gmap string Inventory.t :=
  fold_left
    (fun st e =>
       match ProductConsumer.dispatch now st (contentOf e) with
       | inl _ => st
       | inr st' => st'
       end) es st.

End Wire.

(** ** Payment controller (order service, [paymentController]) *)

Module PaymentController.
Import Js.
Module M := OrderModel.
Module C := OrderController.

(** One call of [publishOrderEvent]; the events of the payment webhook
    have no [items] in their data. *)
Record Published : Type := mkPublished {
  routingKey : string;
  orderId : string;
  pUserId : string;
  items : option (list (string * Z))
}.

Record Outcome : Type := mkOutcome {
  orders : gmap string M.Order;
  response : C.Response;
  published : list Published
}.

Definition reject (st : gmap string M.Order) (message : string)
  (statusCode : Z) : Outcome :=
  mkOutcome st (C.Next (mkExn (AppError statusCode) message)) [].

Definition untouched (st : gmap string M.Order) (r : Outcome) : Prop :=
  (exists e, response r = C.Next e) /\ orders r = st /\ published r = [].

(** The object [processPaymentByMethod] returns. *)
Record PaymentResult : Type := mkPaymentResult {
  transactionId : string;
  status : M.PaymentStatus;
  provider : string;
  notes : string
}.

(** [processPaymentByMethod(method, order, paymentDetails)]; [hex] is
    [crypto.randomBytes(8).toString('hex')]. *)
Definition processPaymentByMethod (method hex : string) : Result PaymentResult :=
  if String.eqb method "credit_card" then
    ret (mkPaymentResult ("cc_" +:+ hex) M.pay_completed "stripe"
           "Pago con tarjeta procesado correctamente")
  else if String.eqb method "paypal" then
    ret (mkPaymentResult ("pp_" +:+ hex) M.pay_completed "paypal"
           "Pago con PayPal procesado correctamente")
  else if String.eqb method "bank_transfer" then
    ret (mkPaymentResult ("bt_" +:+ hex) M.pay_pending "bank"
           "Por favor, complete la transferencia usando la referencia proporcionada")
  else if String.eqb method "cash" then
    ret (mkPaymentResult ("cash_" +:+ hex) M.pay_pending "cash"
           "Pago pendiente contra entrega")
  else throw (mkExn (AppError 400) ("Método de pago no soportado: " +:+ method)).

Definition isCompleted (s : M.PaymentStatus) : bool :=
  match s with M.pay_completed => true | _ => false end.

Definition set_paymentStatus (s : M.PaymentStatus) (o : M.Order) : M.Order :=
  M.set_payment
    (M.Payment.mk (M.Payment.method (M.payment o))
       (M.Payment.transactionId (M.payment o)) (M.Payment.amount (M.payment o))
       s (M.Payment.paidAt (M.payment o))) o.

(** [order.items.map(item => ({ productId, quantity }))] as event data. *)
Definition lines (o : M.Order) : option (list (string * Z)) :=
  Some (C.itemLines o).

Section Payments.

Variable toISOString : Z -> string.

(** The text of a number inside a template literal. *)
Variable showNumber : Q -> string.

(** [exports.processPayment].  The object given to [order.updatePayment]
    has an own property [paidAt] in every case, [undefined] unless the
    payment completed, so the spread overwrites a [paidAt] the order had.
    [provider] and [notes] of the payment are not part of the model, and
    the response is kept as the order it is built from. *)
Definition processPayment (st : gmap string M.Order) (user : C.User)
  (orderId method hex : string) (now : Z) : Outcome :=
  match st !! orderId with
  | None => reject st "Orden no encontrada" 404
  | Some order =>
      if negb (C.isOwner user order) && negb (C.isAdmin user)
      then reject st "No tienes permiso para procesar este pago" 403
      else if isCompleted (M.Payment.status (M.payment order))
      then reject st "Esta orden ya ha sido pagada" 400
      else if M.status_eqb (M.status order) M.cancelled
      then reject st "No se puede pagar una orden cancelada" 400
      else
        match processPaymentByMethod method hex with
        | inl error => mkOutcome st (C.Next error) []
        | inr paymentResult =>
            let completed := isCompleted (status paymentResult) in
            let order1 :=
              M.updatePayment toISOString order
                (M.Payment.mkInfo (Some method)
                   (Some (transactionId paymentResult)) (Some (M.total order))
                   (Some (status paymentResult))
                   (if completed then Some now else None)) now in
            let order2 :=
              if completed then order1
              else M.set_payment
                     (M.Payment.set_paidAt None (M.payment order1)) order1 in
            match status paymentResult with
            | M.pay_completed =>
                let order3 :=
                  M.updateStatus toISOString order2 M.paid
                    "Pago recibido y confirmado" now in
                mkOutcome (<[orderId := order3]> st) (C.Json 200 order3)
                  [mkPublished "order.paid" orderId (M.userId order3)
                     (lines order3)]
            | M.pay_pending =>
                let order3 :=
                  M.updateStatus toISOString order2 M.payment_pending
                    "Pago en proceso" now in
                mkOutcome (<[orderId := order3]> st) (C.Json 200 order3) []
            | _ => mkOutcome (<[orderId := order2]> st) (C.Json 200 order2) []
            end
        end
  end.

(** [Order.findOne({ 'payment.transactionId': paymentId })]: some stored
    order with that transaction id, with its key. *)
Definition findByTransaction (st : gmap string M.Order) (paymentId : string)
  : option (string * M.Order) :=
  List.find
    (fun kv =>
       match M.Payment.transactionId (M.payment (snd kv)) with
       | Some t => String.eqb t paymentId
       | None => false
       end)
    (map_to_list st).

(** [order.adminNotes += ...] / [order.adminNotes = ...] *)
Definition appendNote (line : string) (o : M.Order) : M.Order :=
  match M.adminNotes o with
  | Some old =>
      if M.truthy old
      then M.set_adminNotes (Some (old +:+ String "010"%char "" +:+ line)) o
      else M.set_adminNotes (Some line) o
  | None => M.set_adminNotes (Some line) o
  end.

(** [x || d] on an optional string. *)
Definition orText (x : option string) (d : string) : string :=
  match x with Some s => if M.truthy s then s else d | None => d end.

(** [exports.processRefund]; [amount] and [reason] come from the body. *)
Definition processRefund (st : gmap string M.Order) (paymentId : string)
  (amount : option Q) (reason : option string) (now : Z) : Outcome :=
  match findByTransaction st paymentId with
  | None => reject st "Pago no encontrado" 404
  | Some (orderId, order) =>
      if negb (isCompleted (M.Payment.status (M.payment order)))
      then reject st "No se puede reembolsar un pago que no está completado" 400
      else
        let refundAmount :=
          match amount with
          | Some a => if Qeq_bool a 0 then M.Payment.amount (M.payment order) else a
          | None => M.Payment.amount (M.payment order)
          end in
        let order1 := set_paymentStatus M.pay_refunded order in
        let order2 :=
          if Qle_bool (M.total order1) refundAmount
          then M.updateStatus toISOString order1 M.refunded
                 (orText reason "Reembolso procesado") now
          else appendNote
                 (toISOString now +:+ " - Reembolso parcial: " +:+
                  showNumber refundAmount +:+ ". Motivo: " +:+
                  orText reason "No especificado") order1 in
        mkOutcome (<[orderId := order2]> st) (C.Json 200 order2)
          [mkPublished "order.refunded" orderId (M.userId order2) (lines order2)]
  end.

(** The [data] of a webhook call. *)
Record WebhookData : Type := mkWebhookData {
  w_orderId : string;
  w_transactionId : string;
  w_errorMessage : string;
  w_amount : Q
}.

(** [handlePaymentSuccess(data)] *)
Definition handlePaymentSuccess (st : gmap string M.Order) (data : WebhookData)
  (now : Z) : gmap string M.Order * list Published :=
  match st !! w_orderId data with
  | None => (st, [])
  | Some order =>
      let order1 :=
        M.updatePayment toISOString order
          (M.Payment.mkInfo None (Some (w_transactionId data)) None
             (Some M.pay_completed) (Some now)) now in
      let order2 :=
        M.updateStatus toISOString order1 M.paid
          "Pago recibido y confirmado por webhook" now in
      (<[w_orderId data := order2]> st,
       [mkPublished "order.paid" (w_orderId data) (M.userId order2) None])
  end.

(** [handlePaymentFailure(data)] *)
Definition handlePaymentFailure (st : gmap string M.Order) (data : WebhookData)
  (now : Z) : gmap string M.Order * list Published :=
  match st !! w_orderId data with
  | None => (st, [])
  | Some order =>
      let order1 :=
        M.updatePayment toISOString order
          (M.Payment.mkInfo None (Some (w_transactionId data)) None
             (Some M.pay_failed) None) now in
      let order2 :=
        M.updateStatus toISOString order1 M.payment_pending
          ("Pago fallido: " +:+ w_errorMessage data) now in
      (<[w_orderId data := order2]> st, [])
  end.

(** [handlePaymentRefund(data)] *)
Definition handlePaymentRefund (st : gmap string M.Order) (data : WebhookData)
  (now : Z) : gmap string M.Order * list Published :=
  match st !! w_orderId data with
  | None => (st, [])
  | Some order =>
      let order1 := set_paymentStatus M.pay_refunded order in
      let order2 :=
        if Qle_bool (M.total order1) (w_amount data)
        then M.updateStatus toISOString order1 M.refunded
               "Reembolso procesado por webhook" now
        else appendNote
               (toISOString now +:+ " - Reembolso parcial por webhook: " +:+
                showNumber (w_amount data)) order1 in
      (<[w_orderId data := order2]> st,
       [mkPublished "order.refunded" (w_orderId data) (M.userId order2) None])
  end.

(** [exports.processWebhook]: [verifyWebhookSignature] returns [true] for
    every request, and the answer is [200 { received: true }] in every
    case, so what is left to observe is the store and the events. *)
Definition processWebhook (st : gmap string M.Order) (type : string)
  (data : WebhookData) (now : Z) : gmap string M.Order * list Published :=
  if String.eqb type "payment_intent.succeeded"
  then handlePaymentSuccess st data now
  else if String.eqb type "payment_intent.failed"
  then handlePaymentFailure st data now
  else if String.eqb type "payment_intent.refunded"
  then handlePaymentRefund st data now
  else (st, []).

End Payments.

(** The message body the product service parses for a published event. *)
Definition contentOf (p : Published) : ProductConsumer.Content :=
  ProductConsumer.mkContent (Some (routingKey p))
    (Some (ProductConsumer.mkData
             (option_map
                (map (fun line => ProductConsumer.mkItem (fst line) (snd line)))
                (items p))
             "" 0)).

End PaymentController.

(** ** Order-service consumer of product events *)

Module OrderConsumer.
Module M := OrderModel.

Definition set_price (x : Q) (i : M.Item.t) : M.Item.t :=
  M.Item.mk (M.Item.productId i) (M.Item.sku i) (M.Item.name i) x
    (M.Item.salePrice i) (M.Item.quantity i) (M.Item.subtotal i)
    (M.Item.taxes i) (M.Item.discount i) (M.Item.total i) (M.Item.isDigital i)
    (M.Item.weight i).
Definition set_name (n : string) (i : M.Item.t) : M.Item.t :=
  M.Item.mk (M.Item.productId i) (M.Item.sku i) n (M.Item.price i)
    (M.Item.salePrice i) (M.Item.quantity i) (M.Item.subtotal i)
    (M.Item.taxes i) (M.Item.discount i) (M.Item.total i) (M.Item.isDigital i)
    (M.Item.weight i).

(** [status: { $in: ['pending', 'processing', 'payment_pending'] }] *)
Definition openStatuses : list M.Status :=
  [M.pending; M.processing; M.payment_pending].

(** The filter of both queries of [handleProductUpdated]. *)
Definition affected (productId : string) (o : M.Order) : bool :=
  existsb (M.hasProductId productId) (M.items o)
  && M.includes openStatuses (M.status o).

(** A number is truthy unless it is zero. *)
Definition truthyNumber (x : Q) : bool := negb (Qeq_bool x 0).

(** The [$set] on [items.$[elem]] with the array filter on [productId]. *)
Definition retag (productId : string) (name : option string)
  (price : option Q) (i : M.Item.t) : M.Item.t :=
  if M.hasProductId productId i then
    let i1 := match name with
              | Some n => if M.truthy n then set_name n i else i
              | None => i
              end in
    match price with
    | Some p => if truthyNumber p then set_price p i1 else i1
    | None => i1
    end
  else i.

(** [handleProductUpdated(data)]: the [updateMany], then [calculateTotals]
    and [save] on every order the same filter finds. *)
Definition handleProductUpdated (st : gmap string M.Order) (productId : string)
  (name : option string) (price : option Q) : gmap string M.Order :=
  if match name with Some n => M.truthy n | None => false end
     || match price with Some p => truthyNumber p | None => false end
  then
    (fun o =>
       if affected productId o
       then M.calculateTotals
              (M.set_items (map (retag productId name price) (M.items o)) o)
       else o) <$> st
  else st.

End OrderConsumer.

(** ** Derived notions for the circuit breaker *)

Module BreakerExtra.
Import Breaker.

(** What the counters of a breaker look like in each state. *)
Definition sound (cb : CircuitBreaker) : Prop :=
  match state cb with
  | CLOSED =>
      successCount cb = 0 /\ 0 <= failureCount cb /\
      (failureCount cb < failureThreshold cb \/ failureCount cb = 0)
  | OPEN =>
      failureCount cb = 0 /\ successCount cb = 0 /\
      exists t, lastFailureTime cb = Some t
  | HALF_OPEN =>
      failureCount cb = 0 /\ 0 <= successCount cb /\
      (successCount cb < successThreshold cb \/ successCount cb = 0)
  end.

(** The classifier the constructor installs never counts a [null]
    rejection. *)
Definition skipsNull (options : Options) : Prop :=
  forall f, o_isFailure options = Some f -> f None = false.

End BreakerExtra.

(** ** Concrete values used to instantiate the statements below *)

Module Samples.

Definition inv10 : Inventory.t := Inventory.mk 10 0 true 5 None.

Definition store10 : gmap string Inventory.t := {["p1" := inv10]}.

(** A stand-in for [JSON.parse] on three bodies: a syntax error, [null],
    and an [order.paid] event for three units of ["p1"]. *)
Definition parse3 (s : string) : option ProductConsumer.Parsed :=
  if String.eqb s "{" then None
  else if String.eqb s "null" then Some ProductConsumer.PNull
  else Some (ProductConsumer.PObject
         (ProductConsumer.mkContent (Some "order.paid")
            (Some (ProductConsumer.mkData
                     (Some [ProductConsumer.mkItem "p1" 3]) "" 0)))).

(** Ten units of ["p1"], six of them reserved (two orders of three). *)
Definition store6 : gmap string Inventory.t :=
  {["p1" := Inventory.mk 10 6 true 5 None]}.

(** Ten units of ["p1"], three of them reserved. *)
Definition store3 : gmap string Inventory.t :=
  {["p1" := Inventory.mk 10 3 true 5 None]}.

Definition iso (t : Z) : string := "1970-01-01T00:00:00.000Z".

Definition widget : OrderModel.Item.t :=
  OrderModel.Item.mk "p1" "SKU-1" "Widget" 20%Q (Some 15%Q) 2 30%Q 3%Q 1%Q
    32%Q false 0%Q.

Definition order1 : OrderModel.Order :=
  OrderModel.mkOrder (Some "ORD-1") "u1" OrderModel.pending [widget]
    30%Q 3%Q 0%Q 5%Q 38%Q
    (OrderModel.Payment.mk "cash" None 38%Q OrderModel.pay_pending None)
    (OrderModel.Shipping.mk "standard" None None 5%Q OrderModel.ship_pending
       None None)
    [] None None None.

Definition orderDelivered : OrderModel.Order :=
  OrderModel.set_status OrderModel.delivered order1.

Definition orderProcessing : OrderModel.Order :=
  OrderModel.set_status OrderModel.processing order1.

Definition admin : OrderController.User := OrderController.mkUser "a1" "admin".

Definition owner : OrderController.User := OrderController.mkUser "u1" "customer".

Definition noProduct (productId : string)
  : Js.Result OrderController.ProductInfo :=
  Js.throw (Js.mkExn (Js.AppError 500)
              "No se pudo obtener información del producto").

(** A breaker made with [{ failureThreshold: 3 }]. *)
Definition breaker3 : Breaker.CircuitBreaker :=
  Breaker.new (Breaker.mkOptions (Some 3) None None None None None None).

Definition timedOut : Js.Exn :=
  Js.mkExn Js.Error "Request timed out after 10000ms".

Definition failAt (t : Z) : Breaker.Env :=
  Breaker.mkEnv t (Breaker.Rejected (Some timedOut)) t t.

Definition okAt (t : Z) : Breaker.Env :=
  Breaker.mkEnv t (Breaker.Resolved "ok") t t.

(** Two lines for ["p1"] and one for a product without a row. *)
Definition lines3 : list ProductConsumer.Item :=
  [ProductConsumer.mkItem "p1" 3; ProductConsumer.mkItem "p7" 1;
   ProductConsumer.mkItem "p1" 2].

Definition gadget : OrderModel.Item.t :=
  OrderModel.Item.mk "p2" "SKU-2" "Gadget" 8%Q None 1 0%Q 0%Q 0%Q 0%Q false 0%Q.

Definition tenPercent : OrderModel.Discount :=
  OrderModel.mkDiscount "SAVE10" (Some OrderModel.percentage) 10%Q "10%".

Definition freeShipping : OrderModel.Discount :=
  OrderModel.mkDiscount "SHIP" (Some OrderModel.free_shipping) 0%Q "free".

Definition widgetInfo : OrderController.ProductInfo :=
  OrderController.mkProductInfo "SKU-1" "Widget" 20%Q (Some 15%Q) None None.

(** A product service that knows ["p1"] only. *)
Definition catalog (productId : string) : Js.Result OrderController.ProductInfo :=
  if String.eqb productId "p1" then Js.ret widgetInfo else noProduct productId.

Definition home : OrderEndpoints.Address :=
  OrderEndpoints.mkAddress "Ana" "Calle 1" "Lima" "Lima" "15001" "PE".

Definition byCard : OrderModel.Payment.t :=
  OrderModel.Payment.mk "credit_card" None 0%Q OrderModel.pay_pending None.


Definition paidOrder : OrderModel.Order :=
  OrderModel.set_payment
    (OrderModel.Payment.mk "credit_card" (Some "cc_ab12") 25
       OrderModel.pay_completed (Some 5))
    (OrderModel.set_status OrderModel.paid order1).
Definition hook : PaymentController.WebhookData :=
  PaymentController.mkWebhookData "o1" "tx9" "declined" 5.
Definition showQ (x : Q) : string := "".
Definition nullCounting : Breaker.CircuitBreaker :=
  Breaker.mk Breaker.CLOSED 1 0 30000 None 2 0 10000
    (Some (fun _ => "cached")) "service" (fun _ => true).
Definition rejectedNull : Breaker.Env :=
  Breaker.mkEnv 0 (Breaker.Rejected None) 1 2.

End Samples.

(** * Properties *)

(** ** Inventory ledger *)

Module InventoryFacts.
Import Js Inventory.

Lemma save_quantity inv : quantity (save inv) = quantity inv.
Proof. unfold save, beforeSave. destruct (quantity inv <=? 0); reflexivity. Qed.

Lemma save_reservedQuantity inv :
  reservedQuantity (save inv) = reservedQuantity inv.
Proof. unfold save, beforeSave. destruct (quantity inv <=? 0); reflexivity. Qed.

Lemma save_inStock inv : inStock (save inv) = (0 <? quantity inv).
Proof.
  unfold save, beforeSave.
  destruct (Z.leb_spec (quantity inv) 0), (Z.ltb_spec 0 (quantity inv));
    simpl; auto; lia.
Qed.

Lemma save_valid inv : valid inv -> valid (save inv).
Proof. unfold valid. rewrite save_quantity, save_reservedQuantity. auto. Qed.

(** A successful reservation changes [reservedQuantity] only. *)
Lemma reserveStock_ok inv amount inv' :
  reserveStock inv amount = inr inv' ->
  0 < amount /\ amount <= getAvailableStock inv /\
  quantity inv' = quantity inv /\
  reservedQuantity inv' = reservedQuantity inv + amount.
Proof.
  unfold reserveStock, throw, ret.
  destruct (Z.leb_spec amount 0); [discriminate|].
  destruct (Z.ltb_spec (getAvailableStock inv) amount); [discriminate|].
  intros [= <-]. rewrite save_quantity, save_reservedQuantity. simpl. lia.
Qed.

Lemma reduceStock_release_ok inv amount inv' :
  reduceStock inv amount true = inr inv' ->
  0 < amount /\ amount <= reservedQuantity inv /\
  quantity inv' = quantity inv /\
  reservedQuantity inv' = reservedQuantity inv - amount.
Proof.
  unfold reduceStock, throw, ret.
  destruct (Z.leb_spec amount 0); [discriminate|].
  destruct (Z.ltb_spec (reservedQuantity inv) amount); [discriminate|].
  intros [= <-]. rewrite save_quantity, save_reservedQuantity. simpl. lia.
Qed.

Lemma reduceStock_real_ok inv amount inv' :
  reduceStock inv amount false = inr inv' ->
  0 < amount /\ amount <= quantity inv /\
  quantity inv' = quantity inv - amount /\
  reservedQuantity inv' = reservedQuantity inv.
Proof.
  unfold reduceStock, throw, ret.
  destruct (Z.leb_spec amount 0); [discriminate|].
  destruct (Z.ltb_spec (quantity inv) amount); [discriminate|].
  intros [= <-]. rewrite save_quantity, save_reservedQuantity. simpl. lia.
Qed.

Lemma addStock_ok now inv amount inv' :
  addStock now inv amount = inr inv' ->
  0 < amount /\ quantity inv' = quantity inv + amount /\
  reservedQuantity inv' = reservedQuantity inv.
Proof.
  unfold addStock, throw, ret.
  destruct (Z.leb_spec amount 0); [discriminate|].
  intros [= <-]. rewrite save_quantity, save_reservedQuantity. simpl. lia.
Qed.

(** Every method keeps the schema constraints. *)
Lemma call_valid inv c inv' : valid inv -> call inv c = inr inv' -> valid inv'.
Proof.
  unfold valid. intros [Hq Hr] H. destruct c as [a | a [] | now a]; simpl in H.
  - apply reserveStock_ok in H. lia.
  - apply reduceStock_release_ok in H. lia.
  - apply reduceStock_real_ok in H. lia.
  - apply addStock_ok in H. lia.
Qed.

Lemma after_valid inv c : valid inv -> valid (after inv c).
Proof.
  intros H. unfold after. destruct (call inv c) eqn:E; [exact H|].
  eapply call_valid; eauto.
Qed.

Lemma run_valid cs : forall inv, valid inv -> valid (run inv cs).
Proof.
  unfold run. induction cs as [|c cs IH]; simpl; intros inv H; [exact H|].
  apply IH, after_valid, H.
Qed.

(** C3. For a positive amount, [reserveStock] throws the insufficient-stock
    error and leaves the row as it was when the available stock
    [max(0, quantity - reservedQuantity)] is below the amount; otherwise it
    returns the row with [reservedQuantity] increased by the amount and
    [quantity] unchanged. *)
Theorem reserveStock_spec (inv : Inventory.t) (amount : Z) :
  0 < amount ->
  getAvailableStock inv = Z.max 0 (quantity inv - reservedQuantity inv) /\
  (getAvailableStock inv < amount ->
     reserveStock inv amount = inl errInsufficientStock /\
     after inv (CReserve amount) = inv) /\
  (amount <= getAvailableStock inv ->
     exists inv', reserveStock inv amount = inr inv' /\
       after inv (CReserve amount) = inv' /\
       reservedQuantity inv' = reservedQuantity inv + amount /\
       quantity inv' = quantity inv).
Proof.
  intros Hpos. split; [reflexivity|]. split; intros H.
  - assert (E : reserveStock inv amount = inl errInsufficientStock).
    { unfold reserveStock, throw.
      destruct (Z.leb_spec amount 0); [lia|].
      destruct (Z.ltb_spec (getAvailableStock inv) amount); [reflexivity|lia]. }
    split; [exact E|]. unfold after. simpl. rewrite E. reflexivity.
  - destruct (reserveStock inv amount) as [e|inv'] eqn:E.
    + exfalso. revert E. unfold reserveStock, throw, ret.
      destruct (Z.leb_spec amount 0); [lia|].
      destruct (Z.ltb_spec (getAvailableStock inv) amount); [lia|discriminate].
    + exists inv'. apply reserveStock_ok in E as E'.
      split; [reflexivity|]. split; [|lia].
      unfold after. simpl. rewrite E. reflexivity.
Qed.

Lemma reserveStock_spec_witness :
  0 < 3 /\
  exists inv', reserveStock Samples.inv10 3 = inr inv' /\
               reservedQuantity inv' = 3.
Proof.
  split; [lia|].
  destruct (reserveStock_spec Samples.inv10 3 ltac:(lia)) as (_ & _ & H).
  destruct H as (inv' & E & _ & Hr & _); [vm_compute; discriminate|].
  exists inv'. split; [exact E | exact Hr].
Defined.

End InventoryFacts.

(** ** Consumer of order events *)

Module ConsumerFacts.
Import Js ProductConsumer Inventory InventoryFacts.

Lemma reduceStock_release_eq inv amount :
  0 < amount -> amount <= reservedQuantity inv ->
  exists inv', reduceStock inv amount true = inr inv' /\
    quantity inv' = quantity inv /\
    reservedQuantity inv' = reservedQuantity inv - amount.
Proof.
  intros Ha Hr. destruct (reduceStock inv amount true) as [e|inv'] eqn:E.
  - exfalso. revert E. unfold reduceStock, throw, ret.
    destruct (Z.leb_spec amount 0); [lia|].
    destruct (Z.ltb_spec (reservedQuantity inv) amount); [lia|discriminate].
  - exists inv'. apply reduceStock_release_ok in E. intuition.
Qed.

Lemma reduceStock_real_eq inv amount :
  0 < amount -> amount <= quantity inv ->
  exists inv', reduceStock inv amount false = inr inv' /\
    quantity inv' = quantity inv - amount /\
    reservedQuantity inv' = reservedQuantity inv.
Proof.
  intros Ha Hr. destruct (reduceStock inv amount false) as [e|inv'] eqn:E.
  - exfalso. revert E. unfold reduceStock, throw, ret.
    destruct (Z.leb_spec amount 0); [lia|].
    destruct (Z.ltb_spec (quantity inv) amount); [lia|discriminate].
  - exists inv'. apply reduceStock_real_ok in E. intuition.
Qed.

Lemma reduceStock_rejects inv amount :
  0 < amount ->
  (reservedQuantity inv < amount ->
     reduceStock inv amount true = inl errReservedTooSmall) /\
  (quantity inv < amount ->
     reduceStock inv amount false = inl errStockTooSmall).
Proof.
  intros Ha. unfold reduceStock, throw.
  destruct (Z.leb_spec amount 0); [lia|]. split; intros Hlt.
  - destruct (Z.ltb_spec (reservedQuantity inv) amount); [reflexivity|lia].
  - destruct (Z.ltb_spec (quantity inv) amount); [reflexivity|lia].
Qed.

Lemma store_valid_insert (st : Store) pid inv :
  store_valid st -> valid inv -> store_valid (<[pid := inv]> st).
Proof. intros Hst Hinv. apply map_Forall_insert_2; assumption. Qed.

Lemma store_valid_lookup (st : Store) pid inv :
  store_valid st -> st !! pid = Some inv -> valid inv.
Proof. intros Hst Hl. exact (map_Forall_lookup_1 _ _ _ _ Hst Hl). Qed.

(** The loop bodies all have the shape "look up, call, insert on success". *)
Ltac body_valid :=
  match goal with
  | Hst : store_valid ?st |- context [?st !! ?pid] =>
      destruct (st !! pid) as [inv|] eqn:Hl; [|exact Hst];
      pose proof (store_valid_lookup _ _ _ Hst Hl) as Hv
  end.

Lemma reserveItem_valid st it : store_valid st -> store_valid (reserveItem st it).
Proof.
  intros Hst. unfold reserveItem. body_valid.
  destruct (reserveStock inv (ProductConsumer.quantity it)) eqn:E; [exact Hst|].
  apply store_valid_insert; [exact Hst|].
  exact (call_valid inv (CReserve _) _ Hv E).
Qed.

Lemma releaseItem_valid st it : store_valid st -> store_valid (releaseItem st it).
Proof.
  intros Hst. unfold releaseItem. body_valid.
  destruct (reduceStock inv (ProductConsumer.quantity it) true) eqn:E;
    [exact Hst|].
  apply store_valid_insert; [exact Hst|].
  exact (call_valid inv (CReduce _ true) _ Hv E).
Qed.

Lemma restockItem_valid now st it :
  store_valid st -> store_valid (restockItem now st it).
Proof.
  intros Hst. unfold restockItem. body_valid.
  destruct (addStock now inv (ProductConsumer.quantity it)) eqn:E; [exact Hst|].
  apply store_valid_insert; [exact Hst|].
  exact (call_valid inv (CAdd now _) _ Hv E).
Qed.

Lemma payItem_valid st it : store_valid st -> store_valid (payItem st it).
Proof.
  intros Hst. unfold payItem. body_valid.
  destruct (reduceStock inv (ProductConsumer.quantity it) true) as [|inv1] eqn:E1;
    [exact Hst|].
  pose proof (call_valid inv (CReduce _ true) _ Hv E1) as Hv1.
  destruct (reduceStock inv1 (ProductConsumer.quantity it) false) as [|inv2] eqn:E2.
  - apply store_valid_insert; assumption.
  - apply store_valid_insert; [apply store_valid_insert; assumption|].
    exact (call_valid inv1 (CReduce _ false) _ Hv1 E2).
Qed.

Lemma fold_valid (body : Store -> Item -> Store) :
  (forall st it, store_valid st -> store_valid (body st it)) ->
  forall l st, store_valid st -> store_valid (fold_left body l st).
Proof.
  intros Hb. induction l as [|it l IH]; simpl; intros st H; [exact H|].
  apply IH, Hb, H.
Qed.

Lemma forItems_valid body st d st' :
  (forall st it, store_valid st -> store_valid (body st it)) ->
  store_valid st -> forItems body st d = inr st' -> store_valid st'.
Proof.
  intros Hb Hst. unfold forItems, throw, ret.
  destruct d as [d|]; [|discriminate].
  destruct (items d) as [l|]; [|discriminate].
  intros [= <-]. apply fold_valid; assumption.
Qed.

(** Whatever the event, handling it keeps every row within the constraints. *)
Lemma dispatch_valid now st c st' :
  store_valid st -> dispatch now st c = inr st' -> store_valid st'.
Proof.
  intros Hst. unfold dispatch.
  destruct (event c) as [ev|]; [|intros [= <-]; exact Hst].
  repeat match goal with
         | |- context [if ?b then _ else _] => destruct b
         end;
    unfold handleOrderCreated, handleOrderPaid, handleOrderCancelled,
      handleOrderRefunded, handleOrderItemAdded, handleOrderItemRemoved.
  - apply forItems_valid; auto using reserveItem_valid.
  - apply forItems_valid; auto using payItem_valid.
  - apply forItems_valid; auto using releaseItem_valid.
  - apply forItems_valid; auto using restockItem_valid.
  - destruct (data c); [|discriminate]. intros [= <-].
    apply reserveItem_valid, Hst.
  - destruct (data c); [|discriminate]. intros [= <-].
    apply releaseItem_valid, Hst.
  - intros [= <-]; exact Hst.
Qed.

Lemma handleMessage_valid parse now st msg :
  store_valid st -> store_valid (fst (handleMessage parse now st msg)).
Proof.
  intros Hst. unfold handleMessage. destruct msg as [content|]; [|exact Hst].
  destruct (process parse now st content) as [e|st'] eqn:E.
  - destruct (instanceofSyntaxError e); exact Hst.
  - simpl. revert E. unfold process.
    destruct (parse content) as [[|c]|]; try discriminate.
    apply dispatch_valid, Hst.
Qed.

Lemma reserveStock_eq inv amount :
  0 < amount -> amount <= getAvailableStock inv ->
  exists inv', reserveStock inv amount = inr inv' /\
    quantity inv' = quantity inv /\
    reservedQuantity inv' = reservedQuantity inv + amount.
Proof.
  intros Ha Hr. destruct (reserveStock inv amount) as [e|inv'] eqn:E.
  - exfalso. revert E. unfold reserveStock, throw, ret.
    destruct (Z.leb_spec amount 0); [lia|].
    destruct (Z.ltb_spec (getAvailableStock inv) amount); [lia|discriminate].
  - exists inv'. apply reserveStock_ok in E. intuition.
Qed.

Lemma consume_valid parse msgs :
  forall st, store_valid st -> store_valid (consume parse st msgs).
Proof.
  unfold consume. induction msgs as [|m msgs IH]; simpl; intros st H; [exact H|].
  apply IH. exact (handleMessage_valid parse (fst m) st (Some (snd m)) H).
Qed.

(** C1. From [quantity = 10], [reservedQuantity = 0]: [reserveStock(3)] gives
    [reservedQuantity = 3] and an available stock of 7.  Handling
    [order.paid] for that item (release 3, then reduce 3) then ends with
    [quantity = 7], [reservedQuantity = 0]; handling [order.cancelled]
    instead (release 3) ends with [quantity = 10], [reservedQuantity = 0]. *)
Theorem reservation_commit_symmetry (pid : string) (inv : Inventory.t) :
  quantity inv = 10 -> reservedQuantity inv = 0 ->
  exists r,
    reserveStock inv 3 = inr r /\
    reservedQuantity r = 3 /\ getAvailableStock r = 7 /\
    forall (st : Store) (d : Data),
      st !! pid = Some r -> items d = Some [mkItem pid 3] ->
      (exists st' r', handleOrderPaid st (Some d) = inr st' /\
         st' !! pid = Some r' /\ quantity r' = 7 /\ reservedQuantity r' = 0) /\
      (exists st' r', handleOrderCancelled st (Some d) = inr st' /\
         st' !! pid = Some r' /\ quantity r' = 10 /\ reservedQuantity r' = 0).
Proof.
  intros Hq Hr.
  destruct (reserveStock_eq inv 3) as (r & Er & Hrq & Hrr);
    [lia | unfold getAvailableStock; lia |].
  exists r. split; [exact Er|]. split; [lia|].
  split; [unfold getAvailableStock; lia|].
  intros st d Hl Hi.
  destruct (reduceStock_release_eq r 3) as (r1 & E1 & Hq1 & Hr1); [lia|lia|].
  destruct (reduceStock_real_eq r1 3) as (r2 & E2 & Hq2 & Hr2); [lia|lia|].
  split.
  - exists (<[pid := r2]> (<[pid := r1]> st)), r2.
    unfold handleOrderPaid, forItems, ret. rewrite Hi. simpl.
    unfold payItem. simpl. rewrite Hl, E1, E2.
    split; [reflexivity|]. split; [apply lookup_insert_eq|]. lia.
  - exists (<[pid := r1]> st), r1.
    unfold handleOrderCancelled, forItems, ret. rewrite Hi. simpl.
    unfold releaseItem. simpl. rewrite Hl, E1.
    split; [reflexivity|]. split; [apply lookup_insert_eq|]. lia.
Qed.

Lemma reservation_commit_symmetry_witness :
  Inventory.quantity Samples.inv10 = 10 /\
  Inventory.reservedQuantity Samples.inv10 = 0 /\
  exists r, reserveStock Samples.inv10 3 = inr r /\ reservedQuantity r = 3.
Proof.
  split; [reflexivity|]. split; [reflexivity|].
  destruct (reservation_commit_symmetry "p1" Samples.inv10 eq_refl eq_refl)
    as (r & E & H3 & _).
  exists r. split; assumption.
Defined.

(** C7. [handleMessage] calls [channel.ack] exactly when the handling ran to
    its end without throwing; a [SyntaxError] (the message could not be
    parsed) is answered by [nack] without requeue and leaves the table
    alone; any other exception is answered by [nack] with requeue. *)
Theorem ack_only_after_success (parse : string -> option Parsed) (now : Z)
  (st : Store) (content : string) :
  let r := handleMessage parse now st (Some content) in
  (In Ack (snd r) <-> exists st', process parse now st content = inr st') /\
  (forall st', process parse now st content = inr st' -> r = (st', [Ack])) /\
  (parse content = None -> r = (st, [Nack false false])) /\
  (forall e, process parse now st content = inl e ->
     instanceofSyntaxError e = true -> r = (st, [Nack false false])) /\
  (forall e, process parse now st content = inl e ->
     instanceofSyntaxError e = false -> r = (st, [Nack false true])).
Proof.
  cbv zeta. unfold handleMessage.
  destruct (process parse now st content) as [e|st'] eqn:E.
  - split.
    { split.
      - destruct (instanceofSyntaxError e); simpl; intros [H|[]]; discriminate.
      - intros [st' H]. discriminate. }
    split; [intros st' H; discriminate|].
    split.
    { intros Hp. revert E. unfold process. rewrite Hp. unfold throw.
      intros [= <-]. reflexivity. }
    split; intros e' [= <-] He; rewrite He; reflexivity.
  - split.
    { split; [intros _; exists st'; reflexivity | intros _; simpl; auto]. }
    split; [intros st'' [= <-]; reflexivity|].
    split.
    { intros Hp. revert E. unfold process. rewrite Hp. discriminate. }
    split; intros e H; discriminate.
Qed.

Lemma ack_only_after_success_witness :
  Samples.parse3 "{" = None /\
  handleMessage Samples.parse3 0 Samples.store10 (Some "{")
  = (Samples.store10, [Nack false false]).
Proof.
  split; [reflexivity|].
  apply (ack_only_after_success Samples.parse3 0 Samples.store10 "{").
  reflexivity.
Defined.

(** C8. Starting from a row with [quantity >= 0] and [reservedQuantity >= 0],
    both stay non-negative under every sequence of [reserveStock],
    [reduceStock] and [addStock] calls, under every sequence of consumed
    messages, and in particular when the handling of the same [order.paid]
    event is applied twice: [reduceStock] throws before writing when the
    amount exceeds the counter it would decrease. *)
Theorem counters_never_negative :
  (forall inv cs, 0 <= quantity inv /\ 0 <= reservedQuantity inv ->
     0 <= quantity (run inv cs) /\ 0 <= reservedQuantity (run inv cs)) /\
  (forall parse st msgs, store_valid st -> store_valid (consume parse st msgs)) /\
  (forall (st : Store) d l, store_valid st -> items d = Some l ->
     exists st1 st2,
       handleOrderPaid st (Some d) = inr st1 /\
       handleOrderPaid st1 (Some d) = inr st2 /\
       store_valid st1 /\ store_valid st2) /\
  (forall inv amount, 0 < amount ->
     (reservedQuantity inv < amount ->
        reduceStock inv amount true = inl errReservedTooSmall) /\
     (quantity inv < amount ->
        reduceStock inv amount false = inl errStockTooSmall) /\
     (getAvailableStock inv < amount ->
        reserveStock inv amount = inl errInsufficientStock)).
Proof.
  split; [intros inv cs H; exact (run_valid cs inv H)|].
  split; [intros parse st msgs H; apply consume_valid, H|].
  split.
  - intros st d l Hst Hi.
    exists (fold_left payItem l st), (fold_left payItem l (fold_left payItem l st)).
    unfold handleOrderPaid, forItems, ret. rewrite Hi.
    split; [reflexivity|]. split; [reflexivity|].
    split; repeat apply fold_valid; auto using payItem_valid.
  - intros inv amount Ha.
    destruct (reduceStock_rejects inv amount Ha) as [H1 H2].
    split; [exact H1|]. split; [exact H2|].
    intros Hlt. unfold reserveStock, throw.
    destruct (Z.leb_spec amount 0); [lia|].
    destruct (Z.ltb_spec (getAvailableStock inv) amount); [reflexivity|lia].
Qed.

(** The same [order.paid] message consumed twice.  With no other
    reservation on the row the second release throws and the stock is
    reduced once; with another order's reservation on the row the replay
    consumes it and the stock is reduced twice.  In both runs the counters
    stay non-negative. *)
Example replay_without_other_reservation :
  consume Samples.parse3 Samples.store3 [(1, "paid"); (2, "paid")] !! "p1"
  = Some (Inventory.mk 7 0 true 5 None).
Proof. vm_compute. reflexivity. Qed.

Example replay_with_other_reservation :
  consume Samples.parse3 Samples.store6 [(1, "paid"); (2, "paid")] !! "p1"
  = Some (Inventory.mk 4 0 true 5 None).
Proof. vm_compute. reflexivity. Qed.

Lemma counters_never_negative_witness :
  (0 <= quantity Samples.inv10 /\ 0 <= reservedQuantity Samples.inv10) /\
  0 <= quantity
         (run Samples.inv10
            [CReserve 3; CReduce 3 true; CReduce 3 false;
             CReduce 3 true; CReduce 3 false; CReduce 20 false]).
Proof.
  assert (H : 0 <= quantity Samples.inv10 /\ 0 <= reservedQuantity Samples.inv10)
    by (simpl; lia).
  split; [exact H|].
  destruct counters_never_negative as (Hrun & _).
  exact (proj1 (Hrun Samples.inv10 _ H)).
Defined.

End ConsumerFacts.

(** ** Order aggregate *)

Module OrderFacts.
Import Js OrderModel.

Lemma retotal_idem item : retotal (retotal item) = retotal item.
Proof. destruct item. reflexivity. Qed.

Lemma map_retotal_idem l : map retotal (map retotal l) = map retotal l.
Proof.
  induction l as [|item l IH]; simpl; [reflexivity|].
  rewrite retotal_idem, IH. reflexivity.
Qed.

Lemma calculateTotals_idem o : calculateTotals (calculateTotals o) = calculateTotals o.
Proof.
  unfold calculateTotals. cbv zeta. simpl.
  rewrite map_retotal_idem. reflexivity.
Qed.

Lemma retotal_fields item :
  Item.subtotal (retotal item)
  = (effectivePrice (retotal item) * inject_Z (Item.quantity (retotal item)))%Q /\
  Item.total (retotal item)
  = (Item.subtotal (retotal item) + Item.taxes (retotal item)
     - Item.discount (retotal item))%Q.
Proof. destruct item. split; reflexivity. Qed.

Lemma effectivePrice_spec item :
  (forall s, Item.salePrice item = Some s -> (0 < s)%Q ->
     effectivePrice item = s) /\
  (forall s, Item.salePrice item = Some s -> (s <= 0)%Q ->
     effectivePrice item = Item.price item) /\
  (Item.salePrice item = None -> effectivePrice item = Item.price item).
Proof.
  unfold effectivePrice, Qgtb. split; [|split].
  - intros s -> Hs. destruct (Qle_bool s 0) eqn:E; [|reflexivity].
    apply Qle_bool_iff in E. exfalso. exact (Qlt_not_le _ _ Hs E).
  - intros s -> Hs. apply Qle_bool_iff in Hs. rewrite Hs. reflexivity.
  - intros ->. reflexivity.
Qed.

Lemma calculateTotals_consistent o : totalsConsistent (calculateTotals o).
Proof. unfold totalsConsistent, calculateTotals, sumTotal. simpl. reflexivity. Qed.

Lemma applyDiscount_consistent o d : totalsConsistent (applyDiscount o d).
Proof.
  unfold totalsConsistent, applyDiscount, sumTotal.
  destruct (dtype d) as [[]|]; simpl; reflexivity.
Qed.

(** An absent product is not found by [findIndex]. *)
Lemma findIndexFrom_none {A} (p : A -> bool) l :
  (forall x, In x l -> p x = false) -> forall i, findIndexFrom p l i = -1.
Proof.
  induction l as [|x l IH]; simpl; intros H i; [reflexivity|].
  rewrite (H x) by auto. apply IH. intros y Hy. apply H. auto.
Qed.

(** The five money fields of two orders agree. *)
Ltac same_money :=
  repeat split; simpl; try reflexivity.

Lemma stamp_money s now o :
  let o' := stamp s now o in
  total o' = total o /\ subtotal o' = subtotal o /\ taxAmount o' = taxAmount o /\
  discountAmount o' = discountAmount o /\ shippingAmount o' = shippingAmount o.
Proof.
  unfold stamp.
  destruct s, (completedAt o), (cancelledAt o), (Shipping.shippedAt (shipping o)),
    (Shipping.deliveredAt (shipping o)), (Payment.paidAt (payment o));
    same_money.
Qed.

Lemma updateStatus_money toISO o s notes now :
  let o' := updateStatus toISO o s notes now in
  total o' = total o /\ subtotal o' = subtotal o /\ taxAmount o' = taxAmount o /\
  discountAmount o' = discountAmount o /\ shippingAmount o' = shippingAmount o.
Proof.
  cbv zeta. unfold updateStatus.
  pose proof (stamp_money s now (set_status s o)) as H. cbv zeta in H. simpl in H.
  destruct (truthy notes); [|exact H].
  destruct (adminNotes (stamp s now (set_status s o))) as [old|];
    [destruct (truthy old)|]; simpl; exact H.
Qed.

Lemma updatePayment_money toISO o info now :
  let o' := updatePayment toISO o info now in
  total o' = total o /\ subtotal o' = subtotal o /\ taxAmount o' = taxAmount o /\
  discountAmount o' = discountAmount o /\ shippingAmount o' = shippingAmount o.
Proof.
  cbv zeta. unfold updatePayment.
  set (o1 := set_payment _ o).
  assert (H1 : total o1 = total o /\ subtotal o1 = subtotal o /\
               taxAmount o1 = taxAmount o /\ discountAmount o1 = discountAmount o /\
               shippingAmount o1 = shippingAmount o) by same_money.
  destruct (Payment.i_status info) as [[]|]; try exact H1.
  destruct (status o1); try exact H1.
  pose proof (updateStatus_money toISO o1 paid "Pago recibido y confirmado" now) as H.
  cbv zeta in H. intuition congruence.
Qed.

Lemma updateShipping_money toISO o info now :
  let o' := updateShipping toISO o info now in
  total o' = total o /\ subtotal o' = subtotal o /\ taxAmount o' = taxAmount o /\
  discountAmount o' = discountAmount o /\ shippingAmount o' = shippingAmount o.
Proof.
  cbv zeta. unfold updateShipping.
  set (o1 := set_shipping _ o).
  assert (H1 : total o1 = total o /\ subtotal o1 = subtotal o /\
               taxAmount o1 = taxAmount o /\ discountAmount o1 = discountAmount o /\
               shippingAmount o1 = shippingAmount o) by same_money.
  destruct (Shipping.i_status info) as [[]|]; try exact H1;
    destruct (status o1); try exact H1.
  - pose proof (updateStatus_money toISO o1 shipped "Orden enviada" now) as H.
    cbv zeta in H. intuition congruence.
  - pose proof (updateStatus_money toISO o1 delivered "Orden entregada" now) as H.
    cbv zeta in H. intuition congruence.
Qed.

Lemma money_consistent o o' :
  total o' = total o /\ subtotal o' = subtotal o /\ taxAmount o' = taxAmount o /\
  discountAmount o' = discountAmount o /\ shippingAmount o' = shippingAmount o ->
  totalsConsistent o -> totalsConsistent o'.
Proof.
  unfold totalsConsistent. intros (-> & -> & -> & -> & ->) H. exact H.
Qed.

(** C2. After any mutating operation of the aggregate the equation
    [total == subtotal + taxAmount - discountAmount + shippingAmount] holds.
    [calculateTotals], [addItem], [applyDiscount] and a [removeItem] that
    finds its product assign [total] from the other four fields, on every
    order; [updateStatus], [updatePayment], [updateShipping] and a
    [removeItem] that finds nothing write none of the five fields, so they
    keep the equation.  Hence it holds for every order the service holds,
    after every operation. *)
Theorem total_invariant (toISOString : Z -> string) :
  (forall o op,
     (recomputes o op = false -> totalsConsistent o) ->
     totalsConsistent (apply toISOString o op)) /\
  (forall o0 ops op,
     totalsConsistent (apply toISOString (history toISOString o0 ops) op)).
Proof.
  assert (Hstep : forall o op,
             (recomputes o op = false -> totalsConsistent o) ->
             totalsConsistent (apply toISOString o op)).
  { intros o op H. destruct op; simpl in *.
    - apply calculateTotals_consistent.
    - unfold addItem. apply calculateTotals_consistent.
    - unfold removeItem.
      destruct (0 <=? findIndex (hasProductId productId) (items o)).
      + apply calculateTotals_consistent.
      + apply H. reflexivity.
    - apply applyDiscount_consistent.
    - eapply money_consistent; [apply updateStatus_money | auto].
    - eapply money_consistent; [apply updatePayment_money | auto].
    - eapply money_consistent; [apply updateShipping_money | auto]. }
  split; [exact Hstep|].
  assert (Hrun : forall ops o, totalsConsistent o ->
                   totalsConsistent (fold_left (apply toISOString) ops o)).
  { induction ops as [|op' ops IH]; simpl; intros o H; [exact H|].
    apply IH, Hstep. intros _. exact H. }
  intros o0 ops op. apply Hstep. intros _.
  apply Hrun, calculateTotals_consistent.
Qed.

Lemma total_invariant_witness :
  totalsConsistent Samples.order1 /\
  totalsConsistent
    (apply Samples.iso Samples.order1 (OpUpdateStatus processing "checked" 7)).
Proof.
  assert (H : totalsConsistent Samples.order1) by reflexivity.
  split; [exact H|].
  apply (proj1 (total_invariant Samples.iso) Samples.order1
           (OpUpdateStatus processing "checked" 7)).
  intros _. exact H.
Defined.

(** C9. Running [calculateTotals] a second time changes nothing: the order
    after two runs is the order after one run, so [subtotal], [taxAmount],
    [total] and every item's [subtotal] and [total] are the same.  After a
    run each item has [subtotal = effective price * quantity] and
    [total = subtotal + taxes - discount], where the effective price is
    [salePrice] when [salePrice > 0] and [price] otherwise. *)
Theorem totals_idempotent (o : Order) :
  let o1 := calculateTotals o in
  let o2 := calculateTotals o1 in
  o2 = o1 /\
  subtotal o2 = subtotal o1 /\ taxAmount o2 = taxAmount o1 /\
  total o2 = total o1 /\
  map Item.subtotal (items o2) = map Item.subtotal (items o1) /\
  map Item.total (items o2) = map Item.total (items o1) /\
  (forall item, In item (items o1) ->
     Item.subtotal item
     = (effectivePrice item * inject_Z (Item.quantity item))%Q /\
     Item.total item
     = (Item.subtotal item + Item.taxes item - Item.discount item)%Q /\
     (forall s, Item.salePrice item = Some s -> (0 < s)%Q ->
        effectivePrice item = s) /\
     (forall s, Item.salePrice item = Some s -> (s <= 0)%Q ->
        effectivePrice item = Item.price item) /\
     (Item.salePrice item = None -> effectivePrice item = Item.price item)).
Proof.
  cbv zeta. rewrite calculateTotals_idem.
  repeat (split; [reflexivity|]).
  intros item Hin. unfold calculateTotals in Hin. simpl in Hin.
  apply in_map_iff in Hin as (item0 & <- & _).
  destruct (retotal_fields item0) as [Hs Ht].
  split; [exact Hs|]. split; [exact Ht|]. apply effectivePrice_spec.
Qed.

Lemma totals_idempotent_witness :
  In (retotal Samples.widget) (items (calculateTotals Samples.order1)) /\
  Item.salePrice (retotal Samples.widget) = Some 15%Q /\ (0 < 15)%Q /\
  effectivePrice (retotal Samples.widget) = 15%Q.
Proof.
  assert (Hin : In (retotal Samples.widget) (items (calculateTotals Samples.order1)))
    by (left; reflexivity).
  assert (Hlt : (0 < 15)%Q) by reflexivity.
  split; [exact Hin|]. split; [reflexivity|]. split; [exact Hlt|].
  destruct (totals_idempotent Samples.order1) as (_ & _ & _ & _ & _ & _ & H).
  destruct (H _ Hin) as (_ & _ & Hsale & _).
  exact (Hsale 15%Q eq_refl Hlt).
Defined.

(** C10. [removeItem(productId)] with a [productId] that no item of the
    order has returns the order as it is: no item removed, no total
    recomputed, nothing thrown. *)
Theorem removeItem_absent (o : Order) (productId : string) :
  (forall item, In item (items o) -> Item.productId item <> productId) ->
  removeItem o productId = o.
Proof.
  intros H. unfold removeItem, findIndex.
  rewrite findIndexFrom_none; [reflexivity|].
  intros item Hin. unfold hasProductId. apply String.eqb_neq, H, Hin.
Qed.

Lemma removeItem_absent_witness :
  (forall item, In item (items Samples.order1) ->
     Item.productId item <> "p9") /\
  removeItem Samples.order1 "p9" = Samples.order1.
Proof.
  assert (H : forall item, In item (items Samples.order1) ->
                Item.productId item <> "p9").
  { intros item [<-|[]]. simpl. discriminate. }
  split; [exact H|]. exact (removeItem_absent Samples.order1 "p9" H).
Defined.

End OrderFacts.

(** ** Order controllers *)

Module ControllerFacts.
Import Js OrderController.

Lemma status_eqb_eq a b : M.status_eqb a b = true <-> a = b.
Proof. destruct a, b; vm_compute; split; congruence. Qed.

Lemma includes_In l s : M.includes l s = true <-> In s l.
Proof.
  unfold M.includes. rewrite existsb_exists. split.
  - intros (x & Hin & Heq). apply status_eqb_eq in Heq. subst. exact Hin.
  - intros Hin. exists s. split; [exact Hin | apply status_eqb_eq; reflexivity].
Qed.

Lemma includes_not_In l s : M.includes l s = false <-> ~ In s l.
Proof.
  rewrite <- includes_In. destruct (M.includes l s); split; congruence.
Qed.

Lemma reject_untouched st message statusCode :
  untouched st (reject st message statusCode).
Proof. repeat split. Qed.

#[local] Hint Resolve reject_untouched : core.

(** C5. On an order whose status is shipped, delivered, completed, cancelled
    or refunded, the controllers [addOrderItem], [removeOrderItem] and
    [applyDiscount] answer every request, whoever sends it and whatever its
    body, with an error; the stored order is not changed and no event is
    published. *)
Theorem locked_order_rejects (getProductInfo : string -> Result ProductInfo)
  (st : Orders) (user : User) (orderId : string) (order : M.Order) :
  st !! orderId = Some order ->
  In (M.status order)
     [M.shipped; M.delivered; M.completed; M.cancelled; M.refunded] ->
  (forall productId quantity,
     untouched st (addOrderItem getProductInfo st user orderId productId quantity)) /\
  (forall productId, untouched st (removeOrderItem st user orderId productId)) /\
  (forall code, untouched st (applyDiscount st user orderId code)).
Proof.
  intros Hl Hin. apply includes_In in Hin. fold lockedStatuses in Hin.
  split; [|split].
  - intros productId quantity. unfold addOrderItem.
    destruct productId as [p|], quantity as [q|]; auto.
    destruct (negb (M.truthy p) || (q <=? 0)); auto.
    rewrite Hl, Hin. auto.
  - intros productId. unfold removeOrderItem. rewrite Hl, Hin. auto.
  - intros code. unfold applyDiscount. destruct code as [c|]; auto.
    destruct (negb (M.truthy c)); auto.
    rewrite Hl, Hin. auto.
Qed.

Lemma locked_order_rejects_witness :
  ({["o1" := Samples.orderDelivered]} : Orders) !! "o1"
    = Some Samples.orderDelivered /\
  In (M.status Samples.orderDelivered)
     [M.shipped; M.delivered; M.completed; M.cancelled; M.refunded] /\
  untouched {["o1" := Samples.orderDelivered]}
    (applyDiscount {["o1" := Samples.orderDelivered]} Samples.owner "o1"
       (Some "SAVE10")).
Proof.
  assert (Hl : ({["o1" := Samples.orderDelivered]} : Orders) !! "o1"
               = Some Samples.orderDelivered) by apply lookup_singleton_eq.
  assert (Hin : In (M.status Samples.orderDelivered)
                  [M.shipped; M.delivered; M.completed; M.cancelled; M.refunded])
    by (simpl; auto).
  split; [exact Hl|]. split; [exact Hin|].
  destruct (locked_order_rejects Samples.noProduct _ Samples.owner "o1" _ Hl Hin)
    as (_ & _ & H).
  apply H.
Defined.

Lemma updateStatus_cancelled toISO o notes now :
  M.status (M.updateStatus toISO o M.cancelled notes now) = M.cancelled /\
  M.cancelledAt (M.updateStatus toISO o M.cancelled notes now)
  = Some (match M.cancelledAt o with Some t => t | None => now end).
Proof.
  unfold M.updateStatus.
  set (o1 := M.stamp M.cancelled now (M.set_status M.cancelled o)).
  assert (H1 : M.status o1 = M.cancelled /\
               M.cancelledAt o1
               = Some (match M.cancelledAt o with Some t => t | None => now end)).
  { subst o1. unfold M.stamp. simpl.
    destruct (M.cancelledAt o) eqn:E; simpl; rewrite ?E; split; reflexivity. }
  destruct (M.truthy notes); [|exact H1].
  destruct (M.adminNotes o1) as [old|]; [destruct (M.truthy old)|];
    simpl; exact H1.
Qed.

(** C4, refuted as stated: an admin is rejected by [cancelOrder] on a
    delivered order, like everybody else. *)
Lemma admin_cannot_cancel_delivered :
  ~ (forall (st : Orders) user orderId order reason now,
       st !! orderId = Some order -> isAdmin user = true ->
       In (M.status order) [M.delivered; M.completed; M.refunded] ->
       rejected (cancelOrder Samples.iso st user orderId reason now) = false).
Proof.
  intros H.
  specialize (H {["o1" := Samples.orderDelivered]} Samples.admin "o1"
                Samples.orderDelivered None 0
                (lookup_singleton_eq _ _) eq_refl (or_introl eq_refl)).
  unfold cancelOrder in H. rewrite lookup_singleton_eq in H.
  simpl in H. discriminate H.
Qed.

(** C4, as the code has it.  [cancelOrder] rejects every caller, admins
    included, when the status is delivered, completed, cancelled or
    refunded.  From any other status an admin may cancel; a non-admin owner
    may cancel only from pending or payment_pending; a caller who is neither
    is rejected.  A rejection changes nothing.  Every successful
    cancellation stores the order with status cancelled and with
    [cancelledAt] set (to the time of the call, unless a date was already
    recorded) and publishes [order.cancelled].  The admin-only status update
    sets cancelled from any status. *)
Theorem cancelOrder_spec (toISOString : Z -> string) (st : Orders) (user : User)
  (orderId : string) (order : M.Order) (reason : option string) (now : Z) :
  st !! orderId = Some order ->
  let r := cancelOrder toISOString st user orderId reason now in
  (In (M.status order) [M.delivered; M.completed; M.cancelled; M.refunded] ->
     untouched st r) /\
  (isAdmin user = false -> isOwner user order = false -> untouched st r) /\
  (isAdmin user = false ->
   ~ In (M.status order) [M.pending; M.payment_pending] -> untouched st r) /\
  (~ In (M.status order) [M.delivered; M.completed; M.cancelled; M.refunded] ->
   isAdmin user = true \/
   (isOwner user order = true /\
    In (M.status order) [M.pending; M.payment_pending]) ->
   exists order',
     response r = Json 200 order' /\
     orders r = <[orderId := order']> st /\
     M.status order' = M.cancelled /\
     M.cancelledAt order'
     = Some (match M.cancelledAt order with Some t => t | None => now end) /\
     published r
     = [mkEvent "order.cancelled" orderId (M.userId order')
          (PItems (itemLines order'))]) /\
  (isAdmin user = true ->
   forall notes, exists order',
     response (updateOrderStatus toISOString st user orderId "cancelled" notes now)
     = Json 200 order' /\
     M.status order' = M.cancelled /\
     M.cancelledAt order'
     = Some (match M.cancelledAt order with Some t => t | None => now end)).
Proof.
  intros Hl. cbv zeta. unfold cancelOrder. rewrite Hl.
  fold uncancellable ownerCancellable.
  split; [|split; [|split; [|split]]].
  - intros Hin. apply includes_In in Hin. rewrite Hin. auto.
  - intros Ha Ho. rewrite Ha, Ho.
    destruct (M.includes uncancellable (M.status order)); simpl; auto.
  - intros Ha Hn. apply includes_not_In in Hn. rewrite Ha, Hn.
    destruct (M.includes uncancellable (M.status order)); simpl; auto.
    destruct (isOwner user order); simpl; auto.
  - intros Hn Hwho. apply includes_not_In in Hn. rewrite Hn.
    assert (Hpass : negb (isAdmin user) && negb (isOwner user order) = false /\
                    negb (isAdmin user)
                    && negb (M.includes ownerCancellable (M.status order)) = false).
    { destruct Hwho as [-> | [-> Hin]]; [split; reflexivity|].
      apply includes_In in Hin. rewrite Hin.
      destruct (isAdmin user); split; reflexivity. }
    destruct Hpass as [-> ->].
    eexists. split; [reflexivity|]. split; [reflexivity|].
    destruct (updateStatus_cancelled toISOString order
                match reason with
                | Some r => if M.truthy r then r
                            else "Cancelado por el usuario/administrador"
                | None => "Cancelado por el usuario/administrador"
                end now) as [Hs Hc].
    split; [exact Hs|]. split; [exact Hc|]. reflexivity.
  - intros Ha notes. unfold updateOrderStatus.
    change (statusOfName "cancelled") with (Some M.cancelled).
    cbv iota beta. rewrite Hl, Ha. simpl negb. cbv iota.
    eexists. split; [reflexivity|].
    apply updateStatus_cancelled.
Qed.

(** The two requests of the spec's test: the owner of an order, not an
    admin, cancels it while it is processing, and while it is pending. *)
Example owner_cancels_processing :
  response (cancelOrder Samples.iso {["o1" := Samples.orderProcessing]}
              Samples.owner "o1" None 42)
  = Next (mkExn (AppError 403) "No puedes cancelar una orden en este estado").
Proof. vm_compute. reflexivity. Qed.

Example owner_cancels_pending :
  (fun o => (M.status o, M.cancelledAt o)) <$>
  (orders (cancelOrder Samples.iso {["o1" := Samples.order1]}
             Samples.owner "o1" None 42) !! "o1")
  = Some (M.cancelled, Some 42).
Proof. vm_compute. reflexivity. Qed.

Lemma cancelOrder_spec_witness :
  ({["o1" := Samples.orderProcessing]} : Orders) !! "o1"
    = Some Samples.orderProcessing /\
  isAdmin Samples.owner = false /\
  ~ In (M.status Samples.orderProcessing) [M.pending; M.payment_pending] /\
  untouched {["o1" := Samples.orderProcessing]}
    (cancelOrder Samples.iso {["o1" := Samples.orderProcessing]} Samples.owner
       "o1" None 0).
Proof.
  assert (Hl : ({["o1" := Samples.orderProcessing]} : Orders) !! "o1"
               = Some Samples.orderProcessing) by apply lookup_singleton_eq.
  assert (Hn : ~ In (M.status Samples.orderProcessing)
                 [M.pending; M.payment_pending]).
  { simpl. intros [H|[H|[]]]; discriminate H. }
  split; [exact Hl|]. split; [reflexivity|]. split; [exact Hn|].
  destruct (cancelOrder_spec Samples.iso _ Samples.owner "o1" _ None 0 Hl)
    as (_ & _ & H & _).
  exact (H eq_refl Hn).
Defined.

End ControllerFacts.

(** ** Circuit breaker *)

Module BreakerFacts.
Import Js Breaker.

Lemma fire_closed_failing cb env :
  state cb = CLOSED -> failing cb env ->
  let f := fire cb env in
  invoked f = true /\ sameConfig cb (breaker f) /\
  (failureCount cb + 1 < failureThreshold cb ->
     state (breaker f) = CLOSED /\
     failureCount (breaker f) = failureCount cb + 1) /\
  (failureThreshold cb <= failureCount cb + 1 ->
     state (breaker f) = OPEN /\
     lastFailureTime (breaker f) = Some (openedAt env)).
Proof.
  intros Hs (e & He & Hf). cbv zeta. unfold fire, gate. rewrite Hs, He.
  unfold _handleFailure. rewrite Hf. simpl. rewrite Hs.
  destruct (Z.leb_spec (failureThreshold cb) (failureCount cb + 1));
    simpl; repeat split; auto; lia.
Qed.

Lemma failing_config cb cb' env :
  sameConfig cb cb' -> failing cb env -> failing cb' env.
Proof.
  intros (_ & _ & _ & Hi & _) (e & He & Hf). exists e. rewrite Hi. auto.
Qed.

(** Fewer counted failures than the threshold keep the breaker closed. *)
Lemma fires_closed_failing envs :
  forall cb, state cb = CLOSED -> Forall (failing cb) envs ->
    failureCount cb + Z.of_nat (length envs) < failureThreshold cb ->
    let cb' := fires cb envs in
    state cb' = CLOSED /\ sameConfig cb cb' /\
    failureCount cb' = failureCount cb + Z.of_nat (length envs).
Proof.
  unfold fires.
  induction envs as [|env envs IH]; intros cb Hs Hall Hlt; simpl.
  - repeat split; auto. lia.
  - inversion Hall as [|? ? Hf Hrest]; subst.
    destruct (fire_closed_failing cb env Hs Hf) as (_ & Hc & Hbelow & _).
    simpl length in Hlt. destruct Hbelow as [Hs1 Hn1]; [lia|].
    destruct (IH (breaker (fire cb env))) as (Hs' & Hc' & Hn'); auto.
    + eapply Forall_impl; [exact Hrest|]. intros a. apply failing_config, Hc.
    + destruct Hc as (-> & _). lia.
    + split; [exact Hs'|]. split.
      * unfold sameConfig in *. intuition congruence.
      * simpl length. lia.
Qed.

Lemma fire_half_open_success cb env :
  state cb = HALF_OPEN -> succeeding env ->
  let f := fire cb env in
  invoked f = true /\ sameConfig cb (breaker f) /\
  (successCount cb + 1 < successThreshold cb ->
     state (breaker f) = HALF_OPEN /\
     successCount (breaker f) = successCount cb + 1) /\
  (successThreshold cb <= successCount cb + 1 -> state (breaker f) = CLOSED).
Proof.
  intros Hs (v & Hv). cbv zeta. unfold fire, gate. rewrite Hs, Hv. simpl.
  unfold _handleSuccess. rewrite Hs. simpl.
  destruct (Z.leb_spec (successThreshold cb) (successCount cb + 1));
    simpl; repeat split; auto; lia.
Qed.

Lemma fires_half_open_success envs :
  forall cb, state cb = HALF_OPEN -> Forall succeeding envs ->
    successCount cb + Z.of_nat (length envs) < successThreshold cb ->
    let cb' := fires cb envs in
    state cb' = HALF_OPEN /\ sameConfig cb cb' /\
    successCount cb' = successCount cb + Z.of_nat (length envs).
Proof.
  unfold fires.
  induction envs as [|env envs IH]; intros cb Hs Hall Hlt; simpl.
  - repeat split; auto. lia.
  - inversion Hall as [|? ? Hf Hrest]; subst.
    destruct (fire_half_open_success cb env Hs Hf) as (_ & Hc & Hbelow & _).
    simpl length in Hlt. destruct Hbelow as [Hs1 Hn1]; [lia|].
    destruct (IH (breaker (fire cb env))) as (Hs' & Hc' & Hn'); auto.
    + destruct Hc as (_ & -> & _). lia.
    + split; [exact Hs'|]. split.
      * unfold sameConfig in *. intuition congruence.
      * simpl length. lia.
Qed.

Lemma fires_app cb l1 l2 : fires cb (l1 ++ l2) = fires (fires cb l1) l2.
Proof. unfold fires. apply fold_left_app. Qed.

Lemma fire_half_open_failing cb env :
  state cb = HALF_OPEN -> failing cb env ->
  state (breaker (fire cb env)) = OPEN /\
  lastFailureTime (breaker (fire cb env)) = Some (openedAt env).
Proof.
  intros Hs (e & He & Hf). unfold fire, gate. rewrite Hs, He.
  unfold _handleFailure. rewrite Hf. simpl. rewrite Hs. split; reflexivity.
Qed.

Lemma fire_open_early cb env t :
  state cb = OPEN -> lastFailureTime cb = Some t ->
  now env - t <= resetTimeout cb ->
  fire cb env = mkFired cb false None (_handleOpenCircuit cb).
Proof.
  intros Hs Ht Hle. unfold fire, gate. rewrite Hs, Ht.
  destruct (Z.ltb_spec (resetTimeout cb) (now env - t)); [lia|].
  rewrite andb_false_r. reflexivity.
Qed.

Lemma gate_open_late cb t now :
  state cb = OPEN -> lastFailureTime cb = Some t -> t <> 0 ->
  resetTimeout cb < now - t -> gate cb now = Some (_toHalfOpen cb).
Proof.
  intros Hs Ht Hnz Hlt. unfold gate. rewrite Hs, Ht.
  destruct (Z.eqb_spec t 0); [contradiction|].
  destruct (Z.ltb_spec (resetTimeout cb) (now - t)); [reflexivity|lia].
Qed.

(** C6. With [failureThreshold = 3], three consecutive counted failures take
    a closed breaker to OPEN, the first two leaving it CLOSED.  While OPEN
    and no later than [resetTimeout] after the last failure, [fire] does not
    call the wrapped function, leaves the breaker as it is, and ends in the
    fallback's value or in the open-circuit error.  Once more than
    [resetTimeout] has passed, [fire] calls the wrapped function with the
    breaker in HALF_OPEN.  In HALF_OPEN, [successThreshold] consecutive
    successes close the breaker (and no fewer do), and a counted failure
    opens it again. *)
Theorem breaker_transitions :
  (forall cb e1 e2 e3,
     state cb = CLOSED -> failureCount cb = 0 -> failureThreshold cb = 3 ->
     failing cb e1 -> failing cb e2 -> failing cb e3 ->
     state (fires cb [e1]) = CLOSED /\
     state (fires cb [e1; e2]) = CLOSED /\
     state (fires cb [e1; e2; e3]) = OPEN /\
     invoked (fire cb e1) = true /\
     invoked (fire (fires cb [e1]) e2) = true /\
     invoked (fire (fires cb [e1; e2]) e3) = true) /\
  (forall cb env t,
     state cb = OPEN -> lastFailureTime cb = Some t ->
     now env - t <= resetTimeout cb ->
     invoked (fire cb env) = false /\
     breaker (fire cb env) = cb /\
     settled (fire cb env)
     = match fallbackFn cb with
       | Some fallback => inr (fallback (Some (openCircuitError cb)))
       | None => inl (Some (openCircuitError cb))
       end) /\
  (forall cb env t,
     state cb = OPEN -> lastFailureTime cb = Some t -> t <> 0 ->
     resetTimeout cb < now env - t ->
     invoked (fire cb env) = true /\ atCall (fire cb env) = Some HALF_OPEN) /\
  (forall cb envs,
     state cb = HALF_OPEN -> successCount cb = 0 -> Forall succeeding envs ->
     0 < successThreshold cb ->
     Z.of_nat (length envs) = successThreshold cb ->
     state (fires cb envs) = CLOSED /\
     forall k, (k < length envs)%nat ->
       state (fires cb (take k envs)) = HALF_OPEN) /\
  (forall cb env,
     state cb = HALF_OPEN -> failing cb env ->
     state (breaker (fire cb env)) = OPEN).
Proof.
  split; [|split; [|split; [|split]]].
  - intros cb e1 e2 e3 Hs Hc Ht H1 H2 H3.
    destruct (fires_closed_failing [e1] cb Hs) as (Hs1 & Hc1 & Hn1);
      [repeat constructor; assumption | simpl; lia |].
    destruct (fires_closed_failing [e1; e2] cb Hs) as (Hs2 & Hc2 & Hn2);
      [repeat constructor; assumption | simpl; lia |].
    pose proof (failing_config _ _ e2 Hc1 H2) as H2'.
    pose proof (failing_config _ _ e3 Hc2 H3) as H3'.
    destruct (fire_closed_failing _ e3 Hs2 H3') as (Hi3 & _ & _ & Hopen).
    destruct (fire_closed_failing _ e2 Hs1 H2') as (Hi2 & _).
    destruct (fire_closed_failing _ e1 Hs H1) as (Hi1 & _).
    split; [exact Hs1|]. split; [exact Hs2|].
    split; [|split; [exact Hi1|split; [exact Hi2|exact Hi3]]].
    change (fires cb [e1; e2; e3]) with (breaker (fire (fires cb [e1; e2]) e3)).
    destruct Hc2 as (Hth & _).
    change (Z.of_nat (length [e1; e2])) with 2 in Hn2.
    destruct Hopen as [Ho _]; [lia | exact Ho].
  - intros cb env t Hs Ht Hle.
    rewrite (fire_open_early cb env t Hs Ht Hle). simpl.
    split; [reflexivity|]. split; [reflexivity|].
    unfold _handleOpenCircuit, fallbackOrThrow.
    destruct (fallbackFn cb); reflexivity.
  - intros cb env t Hs Ht Hnz Hlt. unfold fire.
    rewrite (gate_open_late cb t (now env) Hs Ht Hnz Hlt).
    destruct (settlement env) as [v|e]; simpl.
    + split; reflexivity.
    + destruct (_handleFailure (_toHalfOpen cb) e (failedAt env) (openedAt env)).
      split; reflexivity.
  - intros cb envs Hs Hc Hall Hpos Hlen. split.
    + destruct envs as [|env0 envs0] using rev_ind; [simpl in Hlen; lia|].
      clear IHenvs0. rewrite length_app in Hlen. simpl in Hlen.
      apply Forall_app in Hall as [Hinit Hlast].
      inversion Hlast as [|? ? Hlast1 _]; subst.
      destruct (fires_half_open_success envs0 cb Hs Hinit) as (Hs' & Hc' & Hn');
        [lia|].
      rewrite fires_app.
      change (fires (fires cb envs0) [env0])
        with (breaker (fire (fires cb envs0) env0)).
      destruct (fire_half_open_success _ env0 Hs' Hlast1) as (_ & _ & _ & Hcl).
      apply Hcl. destruct Hc' as (_ & -> & _). lia.
    + intros k Hk.
      destruct (fires_half_open_success (take k envs) cb Hs) as (Hs' & _);
        [apply Forall_take, Hall | rewrite length_take; lia | exact Hs'].
  - intros cb env Hs Hf. apply fire_half_open_failing; assumption.
Qed.

Lemma breaker_transitions_witness :
  state Samples.breaker3 = CLOSED /\
  failureThreshold Samples.breaker3 = 3 /\
  failing Samples.breaker3 (Samples.failAt 100) /\
  state (fires Samples.breaker3
           [Samples.failAt 100; Samples.failAt 200; Samples.failAt 300]) = OPEN.
Proof.
  assert (Hf : forall t, failing Samples.breaker3 (Samples.failAt t)).
  { intros t. exists Samples.timedOut. split; reflexivity. }
  split; [reflexivity|]. split; [reflexivity|]. split; [apply Hf|].
  destruct breaker_transitions as (H & _).
  destruct (H Samples.breaker3 (Samples.failAt 100) (Samples.failAt 200)
              (Samples.failAt 300) eq_refl eq_refl eq_refl (Hf 100) (Hf 200)
              (Hf 300)) as (_ & _ & Hopen & _).
  exact Hopen.
Defined.

End BreakerFacts.

(** * Further properties of the modelled code *)

(** ** Inventory methods *)

Module InventoryMore.
Import Js Inventory InventoryFacts.

(** X1. [reduceStock] with a positive amount: as a release it throws when
    less than the amount is reserved, else takes the amount off
    [reservedQuantity] only; as a real reduction it throws when less than
    the amount is in stock, else takes the amount off [quantity] only.  A
    real reduction does not look at [reservedQuantity]. *)
Theorem reduceStock_spec (inv : Inventory.t) (amount : Z) :
  0 < amount ->
  (reservedQuantity inv < amount ->
     reduceStock inv amount true = inl errReservedTooSmall) /\
  (amount <= reservedQuantity inv ->
     exists inv', reduceStock inv amount true = inr inv' /\
       reservedQuantity inv' = reservedQuantity inv - amount /\
       quantity inv' = quantity inv) /\
  (quantity inv < amount ->
     reduceStock inv amount false = inl errStockTooSmall) /\
  (amount <= quantity inv ->
     exists inv', reduceStock inv amount false = inr inv' /\
       quantity inv' = quantity inv - amount /\
       reservedQuantity inv' = reservedQuantity inv).
Proof.
  intros Ha. unfold reduceStock, throw, ret.
  destruct (Z.leb_spec amount 0); [lia|].
  split; [|split; [|split]]; intros Hc.
  - destruct (Z.ltb_spec (reservedQuantity inv) amount); [reflexivity|lia].
  - destruct (Z.ltb_spec (reservedQuantity inv) amount); [lia|].
    eexists. split; [reflexivity|].
    rewrite save_quantity, save_reservedQuantity. split; reflexivity.
  - destruct (Z.ltb_spec (quantity inv) amount); [reflexivity|lia].
  - destruct (Z.ltb_spec (quantity inv) amount); [lia|].
    eexists. split; [reflexivity|].
    rewrite save_quantity, save_reservedQuantity. split; reflexivity.
Qed.

Lemma reduceStock_spec_witness :
  0 < 4 /\ reduceStock Samples.inv10 4 true = inl errReservedTooSmall.
Proof.
  split; [lia|].
  destruct (reduceStock_spec Samples.inv10 4 ltac:(lia)) as (H & _).
  apply H. simpl. lia.
Defined.

Lemma addStock_eq now inv amount :
  0 < amount ->
  exists inv', addStock now inv amount = inr inv' /\
    quantity inv' = quantity inv + amount /\
    reservedQuantity inv' = reservedQuantity inv /\
    lastRestockDate inv' = Some now /\
    lowStockThreshold inv' = lowStockThreshold inv.
Proof.
  intros Ha. unfold addStock, ret.
  destruct (Z.leb_spec amount 0); [lia|].
  eexists. split; [reflexivity|].
  rewrite save_quantity, save_reservedQuantity.
  unfold save, beforeSave. simpl.
  destruct (quantity inv + amount <=? 0); simpl; repeat split; reflexivity.
Qed.

(** X2. [addStock] with a positive amount adds it to [quantity], leaves
    [reservedQuantity] alone and records the time of the call as
    [lastRestockDate]; there is no upper bound. *)
Theorem addStock_spec (now : Z) (inv : Inventory.t) (amount : Z) :
  0 < amount ->
  exists inv', addStock now inv amount = inr inv' /\
    quantity inv' = quantity inv + amount /\
    reservedQuantity inv' = reservedQuantity inv /\
    lastRestockDate inv' = Some now /\
    lowStockThreshold inv' = lowStockThreshold inv.
Proof. apply addStock_eq. Qed.

Lemma addStock_spec_witness :
  0 < 5 /\
  exists inv', addStock 99 Samples.inv10 5 = inr inv' /\ quantity inv' = 15.
Proof.
  split; [lia|].
  destruct (addStock_spec 99 Samples.inv10 5 ltac:(lia)) as (inv' & E & Hq & _).
  exists inv'. split; [exact E | exact Hq].
Defined.

(** X3. An amount that is zero or negative is refused by all three
    methods, each with its own message, before anything is written. *)
Theorem nonpositive_amount_rejected (now : Z) (inv : Inventory.t) (amount : Z) :
  amount <= 0 ->
  reserveStock inv amount = inl errReserveAmount /\
  (forall isReserved, reduceStock inv amount isReserved = inl errReduceAmount) /\
  addStock now inv amount = inl errAddAmount /\
  (forall c, c = CReserve amount \/ (exists r, c = CReduce amount r) \/
             c = CAdd now amount -> after inv c = inv).
Proof.
  intros Ha.
  assert (E : (amount <=? 0) = true) by (apply Z.leb_le; exact Ha).
  unfold reserveStock, reduceStock, addStock, throw. rewrite E.
  split; [reflexivity|]. split; [reflexivity|]. split; [reflexivity|].
  intros c [-> | [[r ->] | ->]]; unfold after; simpl;
    unfold reserveStock, reduceStock, addStock, throw; rewrite E; reflexivity.
Qed.

Lemma nonpositive_amount_rejected_witness :
  0 <= 0 /\ reserveStock Samples.inv10 0 = inl errReserveAmount.
Proof.
  split; [lia|].
  exact (proj1 (nonpositive_amount_rejected 0 Samples.inv10 0 ltac:(lia))).
Defined.

(** X4. Whatever the stored flag was, after a method has written the row
    [inStock] says whether [quantity] is positive (the [beforeSave] hook). *)
Theorem inStock_tracks_quantity (inv : Inventory.t) (c : Call) (inv' : Inventory.t) :
  call inv c = inr inv' -> inStock inv' = (0 <? quantity inv').
Proof.
  destruct c as [a | a r | now a]; simpl;
    unfold reserveStock, reduceStock, addStock, throw, ret;
    repeat match goal with
           | |- context [if ?b then _ else _] => destruct b
           end;
    try discriminate; intros [= <-];
    rewrite save_inStock, save_quantity; reflexivity.
Qed.

Lemma inStock_tracks_quantity_witness :
  call (Inventory.mk 3 0 false 5 None) (CReduce 3 false)
  = inr (Inventory.mk 0 0 false 5 None) /\
  inStock (Inventory.mk 0 0 false 5 None) = (0 <? 0).
Proof.
  assert (E : call (Inventory.mk 3 0 false 5 None) (CReduce 3 false)
              = inr (Inventory.mk 0 0 false 5 None)) by reflexivity.
  split; [exact E|].
  exact (inStock_tracks_quantity _ _ _ E).
Defined.

(** X5. A reservation that succeeds never books more than is in stock:
    afterwards [reservedQuantity <= quantity], and the available stock has
    gone down by exactly the amount. *)
Theorem reserve_never_overbooks (inv : Inventory.t) (amount : Z) (inv' : Inventory.t) :
  reserveStock inv amount = inr inv' ->
  reservedQuantity inv' <= quantity inv' /\
  getAvailableStock inv' = getAvailableStock inv - amount.
Proof.
  intros E. apply reserveStock_ok in E as (Ha & Hav & Hq & Hr).
  unfold getAvailableStock in *. rewrite Hq, Hr. lia.
Qed.

Lemma reserve_never_overbooks_witness :
  reserveStock Samples.inv10 10 = inr (Inventory.mk 10 10 true 5 None) /\
  getAvailableStock (Inventory.mk 10 10 true 5 None) = 10 - 10.
Proof.
  assert (E : reserveStock Samples.inv10 10 = inr (Inventory.mk 10 10 true 5 None))
    by reflexivity.
  split; [exact E|].
  exact (proj2 (reserve_never_overbooks _ _ _ E)).
Defined.

(** X6. Releasing what was just reserved, and restocking what was just
    reduced, bring both counters back: on a row with a non-negative
    [reservedQuantity] a successful [reserveStock(a)] can always be undone
    by [reduceStock(a, true)], and a successful [reduceStock(a, false)] by
    [addStock(a)]. *)
Theorem reserve_release_roundtrip (now : Z) (inv : Inventory.t) (amount : Z) :
  0 <= reservedQuantity inv ->
  (forall inv1, reserveStock inv amount = inr inv1 ->
     exists inv2, reduceStock inv1 amount true = inr inv2 /\
       quantity inv2 = quantity inv /\
       reservedQuantity inv2 = reservedQuantity inv) /\
  (forall inv1, reduceStock inv amount false = inr inv1 ->
     exists inv2, addStock now inv1 amount = inr inv2 /\
       quantity inv2 = quantity inv /\
       reservedQuantity inv2 = reservedQuantity inv).
Proof.
  intros Hr. split; intros inv1 E.
  - apply reserveStock_ok in E as (Ha & _ & Hq1 & Hr1).
    destruct (ConsumerFacts.reduceStock_release_eq inv1 amount Ha)
      as (inv2 & E2 & Hq2 & Hr2); [lia|].
    exists inv2. split; [exact E2|]. lia.
  - apply reduceStock_real_ok in E as (Ha & _ & Hq1 & Hr1).
    destruct (addStock_eq now inv1 amount Ha) as (inv2 & E2 & Hq2 & Hr2 & _).
    exists inv2. split; [exact E2|]. lia.
Qed.

Lemma reserve_release_roundtrip_witness :
  0 <= reservedQuantity Samples.inv10 /\
  exists inv2,
    reduceStock (Inventory.mk 10 4 true 5 None) 4 true = inr inv2 /\
    reservedQuantity inv2 = 0.
Proof.
  assert (H : 0 <= reservedQuantity Samples.inv10) by (simpl; lia).
  split; [exact H|].
  destruct (reserve_release_roundtrip 0 Samples.inv10 4 H) as (Hrel & _).
  destruct (Hrel (Inventory.mk 10 4 true 5 None) eq_refl) as (inv2 & E & _ & Hr).
  exists inv2. split; [exact E | exact Hr].
Defined.

End InventoryMore.

(** ** Product-service consumer *)

Module ConsumerMore.
Import Js ProductConsumer Inventory InventoryFacts ConsumerFacts Ledger.

(** The three loop bodies that make one method call. *)
Lemma body_lookup (mk : Z -> Call) (body : Store -> Item -> Store) :
  (forall st it,
     body st it =
     match st !! productId it with
     | None => st
     | Some inv =>
         match call inv (mk (ProductConsumer.quantity it)) with
         | inl _ => st
         | inr inv' => <[productId it := inv']> st
         end
     end) ->
  forall st it pid,
    body st it !! pid =
    (fun inv => if String.eqb (productId it) pid
                then after inv (mk (ProductConsumer.quantity it)) else inv)
      <$> st !! pid.
Proof.
  intros Hb st it pid. rewrite Hb.
  destruct (String.eqb_spec (productId it) pid) as [->|Hne].
  - destruct (st !! pid) as [inv|] eqn:Hl; simpl; [|rewrite Hl; reflexivity].
    unfold after.
    destruct (call inv (mk (ProductConsumer.quantity it))) as [e|inv'].
    + rewrite Hl. reflexivity.
    + rewrite lookup_insert_eq. reflexivity.
  - destruct (st !! productId it) as [inv|] eqn:Hl.
    + destruct (call inv (mk (ProductConsumer.quantity it))) as [e|inv'].
      * destruct (st !! pid); reflexivity.
      * rewrite lookup_insert_ne by exact Hne. destruct (st !! pid); reflexivity.
    + destruct (st !! pid); reflexivity.
Qed.

Lemma fold_body_lookup (mk : Z -> Call) (body : Store -> Item -> Store) :
  (forall st it pid,
     body st it !! pid =
     (fun inv => if String.eqb (productId it) pid
                 then after inv (mk (ProductConsumer.quantity it)) else inv)
       <$> st !! pid) ->
  forall l st pid,
    fold_left body l st !! pid =
    (fun inv => run inv (map mk (quantitiesFor pid l))) <$> st !! pid.
Proof.
  intros Hb. induction l as [|it l IH]; intros st pid; simpl.
  - destruct (st !! pid); reflexivity.
  - rewrite IH, Hb. unfold quantitiesFor. simpl.
    destruct (String.eqb (productId it) pid); destruct (st !! pid); reflexivity.
Qed.

Lemma reserveItem_lookup l st pid :
  fold_left reserveItem l st !! pid =
  (fun inv => run inv (map CReserve (quantitiesFor pid l))) <$> st !! pid.
Proof.
  apply fold_body_lookup, (body_lookup CReserve). reflexivity.
Qed.

Lemma releaseItem_lookup l st pid :
  fold_left releaseItem l st !! pid =
  (fun inv => run inv (map (fun q => CReduce q true) (quantitiesFor pid l)))
    <$> st !! pid.
Proof.
  apply fold_body_lookup, (body_lookup (fun q => CReduce q true)). reflexivity.
Qed.

Lemma restockItem_lookup now l st pid :
  fold_left (restockItem now) l st !! pid =
  (fun inv => run inv (map (CAdd now) (quantitiesFor pid l))) <$> st !! pid.
Proof.
  apply fold_body_lookup, (body_lookup (CAdd now)). reflexivity.
Qed.

(** X7. No rollback, no early exit: what [order.created], [order.cancelled]
    and [order.refunded] do to the row of a product is exactly the sequence
    of [reserveStock] / [reduceStock(.., true)] / [addStock] calls for the
    lines that name the product, in the order of the lines, each call that
    throws being skipped on its own.  Rows are neither created nor
    deleted. *)
Theorem handlers_act_row_by_row (now : Z) (st : Store) (d : Data)
  (l : list Item) (pid : string) :
  items d = Some l ->
  (exists st', handleOrderCreated st (Some d) = inr st' /\
     st' !! pid =
     (fun inv => run inv (map CReserve (quantitiesFor pid l))) <$> st !! pid) /\
  (exists st', handleOrderCancelled st (Some d) = inr st' /\
     st' !! pid =
     (fun inv => run inv (map (fun q => CReduce q true) (quantitiesFor pid l)))
       <$> st !! pid) /\
  (exists st', handleOrderRefunded now st (Some d) = inr st' /\
     st' !! pid =
     (fun inv => run inv (map (CAdd now) (quantitiesFor pid l))) <$> st !! pid).
Proof.
  intros Hi.
  unfold handleOrderCreated, handleOrderCancelled, handleOrderRefunded,
    forItems, ret. rewrite Hi.
  split; [|split]; eexists; (split; [reflexivity|]).
  - apply reserveItem_lookup.
  - apply releaseItem_lookup.
  - apply restockItem_lookup.
Qed.

Lemma handlers_act_row_by_row_witness :
  exists st',
    handleOrderCreated Samples.store10
      (Some (mkData (Some Samples.lines3) "" 0)) = inr st' /\
    st' !! "p1" = Some (Inventory.mk 10 5 true 5 None) /\
    st' !! "p7" = None.
Proof.
  destruct (handlers_act_row_by_row 0 Samples.store10
              (mkData (Some Samples.lines3) "" 0) Samples.lines3 "p1" eq_refl)
    as ((st1 & E1 & H1) & _).
  destruct (handlers_act_row_by_row 0 Samples.store10
              (mkData (Some Samples.lines3) "" 0) Samples.lines3 "p7" eq_refl)
    as ((st7 & E7 & H7) & _).
  exists st1. split; [exact E1|]. split.
  - rewrite H1. reflexivity.
  - rewrite E1 in E7. injection E7 as <-. rewrite H7. reflexivity.
Defined.
Lemma payItem_lookup st it pid :
  payItem st it !! pid =
  (fun inv => if String.eqb (productId it) pid
              then payRow inv (ProductConsumer.quantity it) else inv)
    <$> st !! pid.
Proof.
  unfold payItem, payRow.
  destruct (String.eqb_spec (productId it) pid) as [->|Hne].
  - destruct (st !! pid) as [inv|] eqn:Hl; simpl; [|rewrite Hl; reflexivity].
    destruct (reduceStock inv (ProductConsumer.quantity it) true) as [e|inv1].
    + rewrite Hl. reflexivity.
    + destruct (reduceStock inv1 (ProductConsumer.quantity it) false) as [e|inv2];
        rewrite !lookup_insert_eq; reflexivity.
  - destruct (st !! productId it) as [inv|] eqn:Hl.
    + destruct (reduceStock inv (ProductConsumer.quantity it) true) as [e|inv1].
      * destruct (st !! pid); reflexivity.
      * destruct (reduceStock inv1 (ProductConsumer.quantity it) false) as [e|inv2];
          rewrite !lookup_insert_ne by exact Hne; destruct (st !! pid); reflexivity.
    + destruct (st !! pid); reflexivity.
Qed.

Lemma payItem_fold_lookup l : forall st pid,
  fold_left payItem l st !! pid =
  (fun inv => fold_left payRow (quantitiesFor pid l) inv) <$> st !! pid.
Proof.
  induction l as [|it l IH]; intros st pid; simpl.
  - destruct (st !! pid); reflexivity.
  - rewrite IH, payItem_lookup. unfold quantitiesFor. simpl.
    destruct (String.eqb (productId it) pid); destruct (st !! pid); reflexivity.
Qed.

(** Two tables related row by row by some function have the same keys, and
    agree wherever the function is the identity. *)
Lemma rowwise_dom (st st' : Store) (f : string -> Inventory.t -> Inventory.t) :
  (forall pid, st' !! pid = f pid <$> st !! pid) -> dom st' = dom st.
Proof.
  intros H. apply set_eq. intros pid. rewrite !elem_of_dom, H.
  destruct (st !! pid); simpl; split; intros [x Hx]; eauto; discriminate.
Qed.

Lemma quantitiesFor_untouched pid l :
  ~ In pid (map productId l) -> quantitiesFor pid l = [].
Proof.
  unfold quantitiesFor. induction l as [|it l IH]; simpl; intros H; [reflexivity|].
  destruct (String.eqb_spec (productId it) pid) as [E|E]; [tauto|].
  apply IH. tauto.
Qed.


Lemma frame_from_rowwise (st st' : Store)
  (f : string -> Inventory.t -> Inventory.t) (ids : list string) :
  (forall pid, st' !! pid = f pid <$> st !! pid) ->
  (forall pid, ~ In pid ids -> forall inv, f pid inv = inv) ->
  dom st' = dom st /\ forall pid, ~ In pid ids -> st' !! pid = st !! pid.
Proof.
  intros H Hid. split; [exact (rowwise_dom st st' f H)|].
  intros pid Hn. rewrite H. destruct (st !! pid) as [inv|]; simpl; [|reflexivity].
  rewrite Hid by exact Hn. reflexivity.
Qed.

Lemma forItems_frame body (row : Inventory.t -> Z -> Inventory.t) st c st' :
  (forall l st pid,
     fold_left body l st !! pid =
     (fun inv => fold_left row (quantitiesFor pid l) inv) <$> st !! pid) ->
  forItems body st (data c) = inr st' ->
  dom st' = dom st /\
  forall pid, ~ In pid (touched c) -> st' !! pid = st !! pid.
Proof.
  intros Hrow. unfold forItems, touched, throw, ret.
  destruct (data c) as [d|]; [|discriminate].
  destruct (items d) as [l|]; [|discriminate].
  intros [= <-].
  apply (frame_from_rowwise st _
           (fun pid inv => fold_left row (quantitiesFor pid l) inv)).
  - intros pid. apply Hrow.
  - intros pid Hn inv. rewrite quantitiesFor_untouched; [reflexivity|].
    intros Hin. apply Hn. apply in_or_app. left. exact Hin.
Qed.

Lemma run_as_fold (mk : Z -> Call) qs inv :
  run inv (map mk qs) = fold_left (fun inv q => after inv (mk q)) qs inv.
Proof.
  unfold run. revert inv. induction qs as [|q qs IH]; intros inv; simpl;
    [reflexivity | apply IH].
Qed.

Lemma single_frame (mk : Z -> Call) (body : Store -> Item -> Store) st c d :
  (forall st it pid,
     body st it !! pid =
     (fun inv => if String.eqb (productId it) pid
                 then after inv (mk (ProductConsumer.quantity it)) else inv)
       <$> st !! pid) ->
  data c = Some d ->
  let st' := body st (mkItem (dataProductId d) (dataQuantity d)) in
  dom st' = dom st /\
  forall pid, ~ In pid (touched c) -> st' !! pid = st !! pid.
Proof.
  intros Hb Hd. cbv zeta.
  apply (frame_from_rowwise st _
           (fun pid inv => if String.eqb (dataProductId d) pid
                           then after inv (mk (dataQuantity d)) else inv)).
  - intros pid. rewrite Hb. reflexivity.
  - intros pid Hn inv. unfold touched in Hn. rewrite Hd in Hn.
    destruct (String.eqb_spec (dataProductId d) pid) as [E|E]; [|reflexivity].
    exfalso. apply Hn. apply in_or_app. right. left. exact E.
Qed.

(** X8. Handling an event never adds or deletes a row, and leaves every row
    untouched whose product the event does not name. *)
Theorem dispatch_frame (now : Z) (st : Store) (c : Content) (st' : Store) :
  dispatch now st c = inr st' ->
  dom st' = dom st /\
  forall pid, ~ In pid (touched c) -> st' !! pid = st !! pid.
Proof.
  unfold dispatch.
  destruct (event c) as [ev|]; [|intros [= <-]; split; reflexivity].
  repeat match goal with
         | |- context [if ?b then _ else _] => destruct b
         end;
    unfold handleOrderCreated, handleOrderPaid, handleOrderCancelled,
      handleOrderRefunded, handleOrderItemAdded, handleOrderItemRemoved.
  - apply (forItems_frame _ (fun inv q => after inv (CReserve q))).
    intros l st0 pid. rewrite reserveItem_lookup.
    destruct (st0 !! pid); simpl; [rewrite run_as_fold|]; reflexivity.
  - apply (forItems_frame _ payRow). apply payItem_fold_lookup.
  - apply (forItems_frame _ (fun inv q => after inv (CReduce q true))).
    intros l st0 pid.
    rewrite releaseItem_lookup.
    destruct (st0 !! pid); simpl;
      [rewrite (run_as_fold (fun q => CReduce q true))|]; reflexivity.
  - apply (forItems_frame _ (fun inv q => after inv (CAdd now q))).
    intros l st0 pid. rewrite restockItem_lookup.
    destruct (st0 !! pid); simpl; [rewrite run_as_fold|]; reflexivity.
  - destruct (data c) as [d|] eqn:Hd; [|discriminate]. intros [= <-].
    apply (single_frame CReserve reserveItem st c d); [|exact Hd].
    apply (body_lookup CReserve). reflexivity.
  - destruct (data c) as [d|] eqn:Hd; [|discriminate]. intros [= <-].
    apply (single_frame (fun q => CReduce q true) releaseItem st c d); [|exact Hd].
    apply (body_lookup (fun q => CReduce q true)). reflexivity.
  - intros [= <-]. split; reflexivity.
Qed.

Lemma dispatch_frame_witness :
  dispatch 0 Samples.store10
    (mkContent (Some "order.paid") (Some (mkData (Some Samples.lines3) "" 0)))
  = inr (fold_left payItem Samples.lines3 Samples.store10) /\
  fold_left payItem Samples.lines3 Samples.store10 !! "p2"
  = Samples.store10 !! "p2".
Proof.
  assert (E : dispatch 0 Samples.store10
                (mkContent (Some "order.paid")
                   (Some (mkData (Some Samples.lines3) "" 0)))
              = inr (fold_left payItem Samples.lines3 Samples.store10))
    by reflexivity.
  split; [exact E|].
  apply (proj2 (dispatch_frame _ _ _ _ E)).
  simpl. intros [H|[H|[H|[H|[]]]]]; discriminate H.
Defined.

Lemma rowwise_prop (P : Inventory.t -> Prop) (st st' : Store)
  (f : string -> Inventory.t -> Inventory.t) :
  (forall pid, st' !! pid = f pid <$> st !! pid) ->
  (forall pid inv, P inv -> P (f pid inv)) ->
  map_Forall (fun _ inv => P inv) st -> map_Forall (fun _ inv => P inv) st'.
Proof.
  intros H Hf Hst pid inv' Hl. rewrite H in Hl.
  destruct (st !! pid) as [inv|] eqn:E; simpl in Hl; [|discriminate].
  injection Hl as <-. apply Hf. exact (Hst pid inv E).
Qed.

Lemma fold_prop (P : Inventory.t -> Prop) (row : Inventory.t -> Z -> Inventory.t) :
  (forall inv q, P inv -> P (row inv q)) ->
  forall qs inv, P inv -> P (fold_left row qs inv).
Proof.
  intros Hr. induction qs as [|q qs IH]; simpl; intros inv H; [exact H|].
  apply IH, Hr, H.
Qed.

Lemma after_booked inv c :
  (forall a, c <> CReduce a false) -> booked inv -> booked (after inv c).
Proof.
  unfold booked, after. intros Hc Hb.
  destruct (call inv c) as [e|inv'] eqn:E; [exact Hb|].
  destruct c as [a | a [] | now a]; simpl in E.
  - apply reserveStock_ok in E. unfold getAvailableStock in E. lia.
  - apply reduceStock_release_ok in E. lia.
  - exfalso. exact (Hc a eq_refl).
  - apply addStock_ok in E. lia.
Qed.

Lemma payRow_booked inv q : booked inv -> booked (payRow inv q).
Proof.
  unfold booked, payRow. intros Hb.
  destruct (reduceStock inv q true) as [e|inv1] eqn:E1; [exact Hb|].
  apply reduceStock_release_ok in E1.
  destruct (reduceStock inv1 q false) as [e|inv2] eqn:E2; [lia|].
  apply reduceStock_real_ok in E2. lia.
Qed.

Lemma forItems_prop (P : Inventory.t -> Prop) body
  (row : Inventory.t -> Z -> Inventory.t) st d st' :
  (forall l st pid,
     fold_left body l st !! pid =
     (fun inv => fold_left row (quantitiesFor pid l) inv) <$> st !! pid) ->
  (forall inv q, P inv -> P (row inv q)) ->
  map_Forall (fun _ inv => P inv) st ->
  forItems body st d = inr st' -> map_Forall (fun _ inv => P inv) st'.
Proof.
  intros Hrow Hr Hst. unfold forItems, throw, ret.
  destruct d as [d|]; [|discriminate].
  destruct (items d) as [l|]; [|discriminate].
  intros [= <-].
  apply (rowwise_prop P st _
           (fun pid inv => fold_left row (quantitiesFor pid l) inv)).
  - intros pid. apply Hrow.
  - intros pid inv. apply fold_prop, Hr.
  - exact Hst.
Qed.

Lemma single_prop (P : Inventory.t -> Prop) (mk : Z -> Call)
  (body : Store -> Item -> Store) st it :
  (forall st it pid,
     body st it !! pid =
     (fun inv => if String.eqb (productId it) pid
                 then after inv (mk (ProductConsumer.quantity it)) else inv)
       <$> st !! pid) ->
  (forall inv q, P inv -> P (after inv (mk q))) ->
  map_Forall (fun _ inv => P inv) st ->
  map_Forall (fun _ inv => P inv) (body st it).
Proof.
  intros Hb Hr Hst.
  apply (rowwise_prop P st _
           (fun pid inv => if String.eqb (productId it) pid
                           then after inv (mk (ProductConsumer.quantity it))
                           else inv)).
  - intros pid. apply Hb.
  - intros pid inv H. destruct (String.eqb (productId it) pid); auto.
  - exact Hst.
Qed.

Lemma dispatch_booked now st c st' :
  store_booked st -> dispatch now st c = inr st' -> store_booked st'.
Proof.
  unfold store_booked. intros Hst. unfold dispatch.
  destruct (event c) as [ev|]; [|intros [= <-]; exact Hst].
  repeat match goal with
         | |- context [if ?b then _ else _] => destruct b
         end;
    unfold handleOrderCreated, handleOrderPaid, handleOrderCancelled,
      handleOrderRefunded, handleOrderItemAdded, handleOrderItemRemoved.
  - apply (forItems_prop booked _ (fun inv q => after inv (CReserve q)));
      [|intros; apply after_booked; [discriminate|assumption] | exact Hst].
    intros l st0 pid. rewrite reserveItem_lookup.
    destruct (st0 !! pid); simpl; [rewrite run_as_fold|]; reflexivity.
  - apply (forItems_prop booked _ payRow);
      [apply payItem_fold_lookup | intros; apply payRow_booked; assumption
      | exact Hst].
  - apply (forItems_prop booked _ (fun inv q => after inv (CReduce q true)));
      [|intros; apply after_booked; [discriminate|assumption] | exact Hst].
    intros l st0 pid. rewrite releaseItem_lookup.
    destruct (st0 !! pid); simpl;
      [rewrite (run_as_fold (fun q => CReduce q true))|]; reflexivity.
  - apply (forItems_prop booked _ (fun inv q => after inv (CAdd now q)));
      [|intros; apply after_booked; [discriminate|assumption] | exact Hst].
    intros l st0 pid. rewrite restockItem_lookup.
    destruct (st0 !! pid); simpl; [rewrite run_as_fold|]; reflexivity.
  - destruct (data c) as [d|]; [|discriminate]. intros [= <-].
    apply (single_prop booked CReserve);
      [apply (body_lookup CReserve); reflexivity
      | intros; apply after_booked; [discriminate|assumption] | exact Hst].
  - destruct (data c) as [d|]; [|discriminate]. intros [= <-].
    apply (single_prop booked (fun q => CReduce q true));
      [apply (body_lookup (fun q => CReduce q true)); reflexivity
      | intros; apply after_booked; [discriminate|assumption] | exact Hst].
  - intros [= <-]. exact Hst.
Qed.

Lemma handleMessage_booked parse now st msg :
  store_booked st -> store_booked (fst (handleMessage parse now st msg)).
Proof.
  intros Hst. unfold handleMessage. destruct msg as [content|]; [|exact Hst].
  destruct (process parse now st content) as [e|st'] eqn:E.
  - destruct (instanceofSyntaxError e); exact Hst.
  - simpl. revert E. unfold process.
    destruct (parse content) as [[|c]|]; try discriminate.
    apply dispatch_booked, Hst.
Qed.

(** X9. The consumer keeps the contract the data model only intends: if on
    every row [0 <= reservedQuantity <= quantity], it is so again after any
    sequence of consumed messages.  (The order of the two calls in
    [handleOrderPaid] matters for this: a real reduction on its own can
    leave more reserved than is in stock.) *)
Theorem consumer_keeps_booked (parse : string -> option Parsed) (st : Store)
  (msgs : list (Z * string)) :
  store_booked st -> store_booked (consume parse st msgs).
Proof.
  unfold consume. revert st.
  induction msgs as [|m msgs IH]; simpl; intros st H; [exact H|].
  apply IH. exact (handleMessage_booked parse (fst m) st (Some (snd m)) H).
Qed.

Example real_reduction_alone_overbooks :
  reduceStock (Inventory.mk 10 8 true 5 None) 5 false
  = inr (Inventory.mk 5 8 true 5 None).
Proof. reflexivity. Qed.

Lemma consumer_keeps_booked_witness :
  store_booked Samples.store6 /\
  store_booked
    (consume Samples.parse3 Samples.store6 [(1, "paid"); (2, "paid")]).
Proof.
  assert (H : store_booked Samples.store6).
  { apply map_Forall_singleton. unfold booked. simpl. lia. }
  split; [exact H|].
  exact (consumer_keeps_booked Samples.parse3 Samples.store6 _ H).
Defined.

(** X10. A message whose event is missing or is none of the six handled
    routing keys is acknowledged and changes nothing; a [null] message is
    ignored without any call on the channel. *)
Theorem unhandled_event_acked (parse : string -> option Parsed) (now : Z)
  (st : Store) (content : string) (c : Content) :
  parse content = Some (PObject c) ->
  (forall ev, event c = Some ev -> ~ In ev handledEvents) ->
  handleMessage parse now st (Some content) = (st, [Ack]) /\
  handleMessage parse now st None = (st, []).
Proof.
  intros Hp Hev. split; [|reflexivity].
  unfold handleMessage, process. rewrite Hp. unfold dispatch.
  destruct (event c) as [ev|]; [|reflexivity].
  specialize (Hev ev eq_refl). unfold handledEvents, orderLevelEvents in Hev.
  simpl in Hev.
  repeat match goal with
         | |- context [if String.eqb ?a ?b then _ else _] =>
             destruct (String.eqb_spec a b) as [->|?]; [exfalso; tauto|]
         end.
  reflexivity.
Qed.

Lemma unhandled_event_acked_witness :
  (fun s : string => Some (PObject (mkContent (Some "order.shipped") None)))
    "x" = Some (PObject (mkContent (Some "order.shipped") None)) /\
  handleMessage
    (fun s => Some (PObject (mkContent (Some "order.shipped") None)))
    0 Samples.store10 (Some "x") = (Samples.store10, [Ack]).
Proof.
  split; [reflexivity|].
  apply (unhandled_event_acked
           (fun s => Some (PObject (mkContent (Some "order.shipped") None)))
           0 Samples.store10 "x" (mkContent (Some "order.shipped") None)
           eq_refl).
  intros ev [= <-]. unfold handledEvents, orderLevelEvents. simpl.
  intros [H|[H|[H|[H|[H|[H|[]]]]]]]; discriminate H.
Defined.

(** X11. A message that parses but carries no usable payload is not
    dead-lettered: an order-level event without [data] or without
    [data.items], an item-level event without [data], and a body that is
    the JSON [null] all end in [nack] with requeue, the table unchanged;
    the broker will deliver the same message again. *)
Theorem payload_without_items_requeued (parse : string -> option Parsed)
  (now : Z) (st : Store) (content : string) :
  (parse content = Some PNull ->
     handleMessage parse now st (Some content) = (st, [Nack false true])) /\
  (forall c ev, parse content = Some (PObject c) -> event c = Some ev ->
     In ev handledEvents -> data c = None ->
     handleMessage parse now st (Some content) = (st, [Nack false true])) /\
  (forall c ev d, parse content = Some (PObject c) -> event c = Some ev ->
     In ev orderLevelEvents -> data c = Some d -> items d = None ->
     handleMessage parse now st (Some content) = (st, [Nack false true])).
Proof.
  unfold handleMessage, process. split; [|split].
  - intros ->. reflexivity.
  - intros c ev -> He Hin Hd. unfold dispatch. rewrite He.
    unfold handledEvents, orderLevelEvents in Hin. simpl in Hin.
    unfold handleOrderCreated, handleOrderPaid, handleOrderCancelled,
      handleOrderRefunded, handleOrderItemAdded, handleOrderItemRemoved,
      forItems. rewrite Hd.
    destruct Hin as [<-|[<-|[<-|[<-|[<-|[<-|[]]]]]]]; reflexivity.
  - intros c ev d -> He Hin Hd Hi. unfold dispatch. rewrite He.
    unfold orderLevelEvents in Hin. simpl in Hin.
    unfold handleOrderCreated, handleOrderPaid, handleOrderCancelled,
      handleOrderRefunded, forItems. rewrite Hd, Hi.
    destruct Hin as [<-|[<-|[<-|[<-|[]]]]]; reflexivity.
Qed.

Lemma payload_without_items_requeued_witness :
  Samples.parse3 "null" = Some PNull /\
  handleMessage Samples.parse3 0 Samples.store10 (Some "null")
  = (Samples.store10, [Nack false true]).
Proof.
  split; [reflexivity|].
  exact (proj1 (payload_without_items_requeued Samples.parse3 0 Samples.store10
                  "null") eq_refl).
Defined.

Lemma run_reserves qs : forall inv,
  Forall (fun q => 0 < q) qs -> sumZ qs <= getAvailableStock inv ->
  quantity (run inv (map CReserve qs)) = quantity inv /\
  reservedQuantity (run inv (map CReserve qs))
  = reservedQuantity inv + sumZ qs.
Proof.
  induction qs as [|q qs IH]; intros inv Hpos Hsum.
  - simpl. split; [reflexivity|lia].
  - inversion Hpos as [|? ? Hq Hrest]; subst. simpl in Hsum.
    assert (Hs : 0 <= sumZ qs).
    { clear -Hrest. induction Hrest; simpl; lia. }
    destruct (reserveStock_eq inv q Hq) as (inv1 & E & Hq1 & Hr1); [lia|].
    change (run inv (map CReserve (q :: qs)))
      with (run (after inv (CReserve q)) (map CReserve qs)).
    unfold after. simpl call. rewrite E.
    destruct (IH inv1 Hrest) as [IHq IHr].
    + unfold getAvailableStock in *. rewrite Hq1, Hr1. lia.
    + rewrite IHq, IHr. simpl. lia.
Qed.

Lemma run_releases qs : forall inv,
  Forall (fun q => 0 < q) qs -> sumZ qs <= reservedQuantity inv ->
  quantity (run inv (map (fun q => CReduce q true) qs)) = quantity inv /\
  reservedQuantity (run inv (map (fun q => CReduce q true) qs))
  = reservedQuantity inv - sumZ qs.
Proof.
  induction qs as [|q qs IH]; intros inv Hpos Hsum.
  - simpl. split; [reflexivity|lia].
  - inversion Hpos as [|? ? Hq Hrest]; subst. simpl in Hsum.
    assert (Hs : 0 <= sumZ qs).
    { clear -Hrest. induction Hrest; simpl; lia. }
    destruct (reduceStock_release_eq inv q Hq) as (inv1 & E & Hq1 & Hr1); [lia|].
    change (run inv (map (fun q => CReduce q true) (q :: qs)))
      with (run (after inv (CReduce q true))
              (map (fun q => CReduce q true) qs)).
    unfold after. simpl call. rewrite E.
    destruct (IH inv1 Hrest) as [IHq IHr]; [lia|].
    rewrite IHq, IHr. simpl. lia.
Qed.

Lemma quantitiesFor_pos pid l :
  Forall (fun it => 0 < ProductConsumer.quantity it) l ->
  Forall (fun q => 0 < q) (quantitiesFor pid l).
Proof.
  unfold quantitiesFor. induction 1 as [|it l Hq Hrest IH]; simpl;
    [constructor|].
  destruct (String.eqb (productId it) pid); simpl; [constructor|]; assumption.
Qed.

Lemma created_then_cancelled_restores_aux (st : Store) (d : Data) (l : list Item) :
  items d = Some l ->
  Forall (fun it => 0 < ProductConsumer.quantity it) l ->
  (forall pid inv, st !! pid = Some inv ->
     0 <= reservedQuantity inv /\
     sumZ (quantitiesFor pid l) <= getAvailableStock inv) ->
  exists st1 st2,
    handleOrderCreated st (Some d) = inr st1 /\
    handleOrderCancelled st1 (Some d) = inr st2 /\
    forall pid,
      match st !! pid with
      | None => st2 !! pid = None
      | Some inv =>
          exists inv2, st2 !! pid = Some inv2 /\
            quantity inv2 = quantity inv /\
            reservedQuantity inv2 = reservedQuantity inv
      end.
Proof.
  intros Hi Hpos Hfit.
  exists (fold_left reserveItem l st),
    (fold_left releaseItem l (fold_left reserveItem l st)).
  unfold handleOrderCreated, handleOrderCancelled, forItems, ret. rewrite Hi.
  split; [reflexivity|]. split; [reflexivity|].
  intros pid. rewrite releaseItem_lookup, reserveItem_lookup.
  destruct (st !! pid) as [inv|] eqn:Hl; simpl; [|reflexivity].
  destruct (Hfit pid inv Hl) as [Hr Hs].
  pose proof (quantitiesFor_pos pid l Hpos) as Hp.
  destruct (run_reserves _ inv Hp Hs) as [Hq1 Hr1].
  destruct (run_releases (quantitiesFor pid l)
              (run inv (map CReserve (quantitiesFor pid l))) Hp) as [Hq2 Hr2];
    [lia|].
  eexists. split; [reflexivity|]. lia.
Qed.

(** X12. Cancelling undoes creating: when every line of an order has a
    positive quantity and, for each product with a row, the quantities of
    its lines together fit into the available stock (so that every
    reservation of [order.created] succeeds), handling [order.cancelled]
    with the same lines afterwards returns every row to the [quantity] and
    [reservedQuantity] it had before. *)
Theorem created_then_cancelled_restores (st : Store) (d : Data) (l : list Item) :
  items d = Some l ->
  Forall (fun it => 0 < ProductConsumer.quantity it) l ->
  (forall pid inv, st !! pid = Some inv ->
     0 <= reservedQuantity inv /\
     sumZ (quantitiesFor pid l) <= getAvailableStock inv) ->
  exists st1 st2,
    handleOrderCreated st (Some d) = inr st1 /\
    handleOrderCancelled st1 (Some d) = inr st2 /\
    forall pid,
      match st !! pid with
      | None => st2 !! pid = None
      | Some inv =>
          exists inv2, st2 !! pid = Some inv2 /\
            quantity inv2 = quantity inv /\
            reservedQuantity inv2 = reservedQuantity inv
      end.
Proof. exact (created_then_cancelled_restores_aux st d l). Qed.

Lemma created_then_cancelled_restores_witness :
  Forall (fun it => 0 < ProductConsumer.quantity it) Samples.lines3 /\
  exists st1 st2,
    handleOrderCreated Samples.store10
      (Some (mkData (Some Samples.lines3) "" 0)) = inr st1 /\
    handleOrderCancelled st1 (Some (mkData (Some Samples.lines3) "" 0))
    = inr st2 /\
    exists inv2, st2 !! "p1" = Some inv2 /\ reservedQuantity inv2 = 0.
Proof.
  assert (Hpos : Forall (fun it => 0 < ProductConsumer.quantity it) Samples.lines3).
  { repeat constructor. }
  assert (Hfit : forall pid inv, Samples.store10 !! pid = Some inv ->
            0 <= reservedQuantity inv /\
            sumZ (quantitiesFor pid Samples.lines3) <= getAvailableStock inv).
  { intros pid inv Hl. unfold Samples.store10 in Hl.
    apply lookup_singleton_Some in Hl as [<- <-]. split; [simpl; lia|].
    vm_compute. discriminate. }
  split; [exact Hpos|].
  destruct (created_then_cancelled_restores Samples.store10
              (mkData (Some Samples.lines3) "" 0) Samples.lines3 eq_refl
              Hpos Hfit) as (st1 & st2 & E1 & E2 & H).
  exists st1, st2. split; [exact E1|]. split; [exact E2|].
  specialize (H "p1"). change (Samples.store10 !! "p1") with (Some Samples.inv10) in H.
  destruct H as (inv2 & Hl2 & _ & Hr2). exists inv2. split; [exact Hl2 | exact Hr2].
Defined.

(** X13. Handling [order.paid] is not idempotent.  For a line of [q] units
    on a row with at least [q] reserved and [q] in stock, the first
    handling takes [q] off both counters.  A replay of the same event
    changes nothing only if fewer than [q] units are still reserved; if
    another order still holds a reservation of [q] or more and the stock
    allows, the replay takes [q] off both counters again and so consumes
    that other reservation. *)
Theorem paid_replay (st : Store) (pid : string) (q : Z) (inv : Inventory.t) :
  st !! pid = Some inv -> 0 < q ->
  q <= reservedQuantity inv -> q <= quantity inv ->
  let once := payItem st (mkItem pid q) in
  let twice := payItem once (mkItem pid q) in
  (exists inv1, once !! pid = Some inv1 /\
     quantity inv1 = quantity inv - q /\
     reservedQuantity inv1 = reservedQuantity inv - q) /\
  (reservedQuantity inv < 2 * q -> twice = once) /\
  (2 * q <= reservedQuantity inv -> 2 * q <= quantity inv ->
     exists inv2, twice !! pid = Some inv2 /\
       quantity inv2 = quantity inv - 2 * q /\
       reservedQuantity inv2 = reservedQuantity inv - 2 * q).
Proof.
  intros Hl Hq Hr Hs. cbv zeta.
  destruct (reduceStock_release_eq inv q Hq Hr) as (i1 & E1 & Hq1 & Hr1).
  destruct (reduceStock_real_eq i1 q Hq) as (i2 & E2 & Hq2 & Hr2); [lia|].
  assert (Honce : payItem st (mkItem pid q) = <[pid := i2]> (<[pid := i1]> st)).
  { unfold payItem. simpl. rewrite Hl, E1, E2. reflexivity. }
  rewrite Honce. split; [|split].
  - exists i2. split; [apply lookup_insert_eq|]. lia.
  - intros Hlt. unfold payItem at 1. simpl. rewrite lookup_insert_eq.
    destruct (reduceStock_rejects i2 q Hq) as [Hrej _].
    rewrite Hrej by lia. reflexivity.
  - intros Hr2q Hs2q. unfold payItem at 1. simpl. rewrite lookup_insert_eq.
    destruct (reduceStock_release_eq i2 q Hq) as (i3 & E3 & Hq3 & Hr3); [lia|].
    destruct (reduceStock_real_eq i3 q Hq) as (i4 & E4 & Hq4 & Hr4); [lia|].
    rewrite E3, E4. exists i4. split; [apply lookup_insert_eq|]. lia.
Qed.

Lemma paid_replay_witness :
  Samples.store3 !! "p1" = Some (Inventory.mk 10 3 true 5 None) /\
  0 < 3 /\
  payItem (payItem Samples.store3 (mkItem "p1" 3)) (mkItem "p1" 3)
  = payItem Samples.store3 (mkItem "p1" 3).
Proof.
  assert (Hl : Samples.store3 !! "p1" = Some (Inventory.mk 10 3 true 5 None))
    by reflexivity.
  split; [exact Hl|]. split; [lia|].
  destruct (paid_replay Samples.store3 "p1" 3 _ Hl ltac:(lia)
              ltac:(simpl; lia) ltac:(simpl; lia)) as (_ & H & _).
  apply H. simpl. lia.
Defined.

End ConsumerMore.

(** ** Order aggregate, continued *)

Module OrderMore.
Import Js OrderModel OrderExtra OrderFacts.

Lemma findIndexFrom_firstIndex {A} (p : A -> bool) l : forall i,
  findIndexFrom p l i =
  match firstIndex p l with Some k => i + Z.of_nat k | None => -1 end.
Proof.
  induction l as [|x l IH]; intros i; simpl; [reflexivity|].
  destruct (p x); [lia|]. rewrite IH.
  destruct (firstIndex p l); simpl; lia.
Qed.

Lemma findIndex_firstIndex {A} (p : A -> bool) l :
  (0 <=? findIndex p l) = bool_decide (is_Some (firstIndex p l)) /\
  (forall k, firstIndex p l = Some k -> Z.to_nat (findIndex p l) = k).
Proof.
  unfold findIndex. rewrite findIndexFrom_firstIndex.
  destruct (firstIndex p l) as [k|]; split.
  - rewrite bool_decide_eq_true_2 by eauto. apply Z.leb_le. lia.
  - intros k' [= <-]. lia.
  - rewrite bool_decide_eq_false_2; [reflexivity|]. intros [? ?]. discriminate.
  - discriminate.
Qed.

Lemma firstIndex_none {A} (p : A -> bool) l :
  firstIndex p l = None <-> forall x, In x l -> p x = false.
Proof.
  induction l as [|x l IH]; simpl.
  - split; [intros _ y []|reflexivity].
  - destruct (p x) eqn:E.
    + split; [discriminate|]. intros H. rewrite (H x) in E by auto. discriminate.
    + destruct (firstIndex p l); simpl.
      * split; [discriminate|]. intros H. exfalso.
        assert (Hn : Some n = None) by (apply IH; intros y Hy; apply H; auto).
        discriminate Hn.
      * split; [|reflexivity]. intros _ y [<-|Hy]; [exact E|].
        apply (proj1 IH eq_refl y Hy).
Qed.

Lemma firstIndex_snoc {A} (p : A -> bool) l x :
  firstIndex p l = None -> p x = true ->
  firstIndex p (l ++ [x]) = Some (length l).
Proof.
  induction l as [|y l IH]; simpl; intros Hn Hx; [rewrite Hx; reflexivity|].
  destruct (p y); [discriminate|].
  destruct (firstIndex p l); [discriminate|]. rewrite IH by auto. reflexivity.
Qed.

Lemma firstIndex_map {A} (p : A -> bool) (f : A -> A) l :
  (forall x, p (f x) = p x) -> firstIndex p (map f l) = firstIndex p l.
Proof.
  intros H. induction l as [|x l IH]; simpl; [reflexivity|].
  rewrite H, IH. reflexivity.
Qed.

Lemma hasProductId_retotal pid item :
  hasProductId pid (retotal item) = hasProductId pid item.
Proof. destruct item. reflexivity. Qed.

Lemma quantity_retotal item : Item.quantity (retotal item) = Item.quantity item.
Proof. destruct item. reflexivity. Qed.

Lemma unitsOf_retotal pid l : unitsOf pid (map retotal l) = unitsOf pid l.
Proof.
  unfold unitsOf. induction l as [|x l IH]; cbn [map fold_right]; [reflexivity|].
  rewrite hasProductId_retotal, quantity_retotal, IH. reflexivity.
Qed.

Lemma unitsOf_app pid l1 l2 :
  unitsOf pid (l1 ++ l2) = unitsOf pid l1 + unitsOf pid l2.
Proof.
  induction l1 as [|x l IH]; simpl; [reflexivity|].
  destruct (hasProductId pid x); lia.
Qed.

(** What [calculateTotals] writes depends on the items and on the two
    amounts it does not recompute; what it keeps, it keeps. *)
Lemma calculateTotals_items l o :
  calculateTotals (set_items l (calculateTotals o))
  = calculateTotals (set_items l o).
Proof. destruct o. reflexivity. Qed.

(** X14. Adding a product the order does not hold and removing it again
    gives the order with its totals recomputed: nothing of the added line
    is left behind. *)
Theorem addItem_then_removeItem (o : Order) (item : Item.t) :
  (forall i, In i (items o) -> Item.productId i <> Item.productId item) ->
  removeItem (addItem o item) (Item.productId item) = calculateTotals o.
Proof.
  intros Habs.
  assert (Hnone : firstIndex (hasProductId (Item.productId item)) (items o) = None).
  { apply firstIndex_none. intros i Hi. apply String.eqb_neq, Habs, Hi. }
  unfold addItem.
  destruct (findIndex_firstIndex (hasProductId (Item.productId item)) (items o))
    as [Hb _].
  rewrite Hb, Hnone, bool_decide_eq_false_2 by (intros [? ?]; discriminate).
  unfold removeItem.
  set (l1 := items (calculateTotals (set_items (items o ++ [newItem item]) o))).
  assert (Hl1 : l1 = map retotal (items o) ++ [retotal (newItem item)]).
  { subst l1. unfold calculateTotals. simpl. rewrite map_app. reflexivity. }
  assert (Hfirst : firstIndex (hasProductId (Item.productId item)) l1
                   = Some (length (map retotal (items o)))).
  { rewrite Hl1. apply firstIndex_snoc.
    - rewrite firstIndex_map by apply hasProductId_retotal. exact Hnone.
    - rewrite hasProductId_retotal. destruct item. unfold hasProductId. simpl.
      apply String.eqb_refl. }
  destruct (findIndex_firstIndex (hasProductId (Item.productId item)) l1)
    as [Hb1 Hk1].
  rewrite Hb1, Hfirst, bool_decide_eq_true_2 by eauto.
  rewrite (Hk1 _ Hfirst), Hl1, delete_middle, app_nil_r.
  rewrite calculateTotals_items.
  destruct o. unfold calculateTotals. simpl.
  rewrite map_retotal_idem. reflexivity.
Qed.

Lemma addItem_then_removeItem_witness :
  (forall i, In i (items Samples.order1) ->
     Item.productId i <> Item.productId Samples.gadget) /\
  removeItem (addItem Samples.order1 Samples.gadget) "p2"
  = calculateTotals Samples.order1.
Proof.
  assert (H : forall i, In i (items Samples.order1) ->
                Item.productId i <> Item.productId Samples.gadget).
  { intros i [<-|[]]. simpl. discriminate. }
  split; [exact H|].
  exact (addItem_then_removeItem Samples.order1 Samples.gadget H).
Defined.

Lemma hasProductId_eq pid item :
  hasProductId pid item = true <-> Item.productId item = pid.
Proof. unfold hasProductId. apply String.eqb_eq. Qed.

Lemma bump_units pid0 q l : forall k pid,
  firstIndex (hasProductId pid0) l = Some k ->
  unitsOf pid (alter (bump q) k l)
  = unitsOf pid l + (if String.eqb pid0 pid then q else 0).
Proof.
  unfold unitsOf.
  induction l as [|x l IH]; intros k pid; cbn [firstIndex]; [discriminate|].
  destruct (hasProductId pid0 x) eqn:Hx.
  - intros [= <-]. cbn [alter list_alter fold_right].
    apply hasProductId_eq in Hx.
    assert (Hp : hasProductId pid (bump q x) = hasProductId pid x)
      by (destruct x; reflexivity).
    assert (Hq : Item.quantity (bump q x) = Item.quantity x + q)
      by (destruct x; reflexivity).
    rewrite Hp, Hq. unfold hasProductId. rewrite Hx.
    destruct (String.eqb pid0 pid); lia.
  - destruct (firstIndex (hasProductId pid0) l) as [k'|] eqn:Hf; [|discriminate].
    intros [= <-]. cbn [alter list_alter fold_right].
    change (list_alter (bump q) k' l) with (alter (bump q) k' l).
    rewrite (IH k' pid eq_refl).
    destruct (hasProductId pid x); lia.
Qed.

Lemma addItem_units_aux (o : Order) (item : Item.t) :
  (forall pid,
     unitsOf pid (items (addItem o item))
     = unitsOf pid (items o)
       + (if String.eqb (Item.productId item) pid then Item.quantity item
          else 0)) /\
  ((forall i, In i (items o) -> Item.productId i <> Item.productId item) ->
     length (items (addItem o item)) = S (length (items o))) /\
  ((exists i, In i (items o) /\ Item.productId i = Item.productId item) ->
     length (items (addItem o item)) = length (items o)).
Proof.
  set (p := hasProductId (Item.productId item)).
  destruct (findIndex_firstIndex p (items o)) as [Hb Hk].
  assert (Hitems : items (addItem o item) =
            map retotal
              (match firstIndex p (items o) with
               | Some k => alter (bump (Item.quantity item)) k (items o)
               | None => items o ++ [newItem item]
               end)).
  { unfold addItem. fold p. rewrite Hb.
    destruct (firstIndex p (items o)) as [k|] eqn:Hf.
    - rewrite bool_decide_eq_true_2 by eauto. rewrite (Hk k eq_refl).
      reflexivity.
    - rewrite bool_decide_eq_false_2 by (intros [? ?]; discriminate).
      reflexivity. }
  rewrite Hitems. split; [|split].
  - intros pid. rewrite unitsOf_retotal.
    destruct (firstIndex p (items o)) as [k|] eqn:Hf.
    + apply bump_units. exact Hf.
    + rewrite unitsOf_app. f_equal. unfold unitsOf. cbn [fold_right].
      assert (Hp : hasProductId pid (newItem item)
                   = String.eqb (Item.productId item) pid)
        by (destruct item; reflexivity).
      assert (Hq : Item.quantity (newItem item) = Item.quantity item)
        by (destruct item; reflexivity).
      rewrite Hp, Hq. destruct (String.eqb (Item.productId item) pid); lia.
  - intros Habs.
    assert (Hn : firstIndex p (items o) = None).
    { apply firstIndex_none. intros i Hi. apply String.eqb_neq, Habs, Hi. }
    rewrite Hn, length_map, length_app. simpl. lia.
  - intros (i & Hi & Hpid).
    destruct (firstIndex p (items o)) as [k|] eqn:Hf.
    + rewrite length_map, length_alter. reflexivity.
    + exfalso. pose proof (proj1 (firstIndex_none p (items o)) Hf i Hi) as Hp.
      unfold p, hasProductId in Hp. apply String.eqb_neq in Hp. tauto.
Qed.

(** X15. [addItem] adds exactly the requested units of the requested
    product: for every product id the units the order holds go up by the
    item's quantity if it is the item's product and stay the same
    otherwise.  The number of lines grows by one when the product is new
    and stays the same when the product is already in the order. *)
Theorem addItem_units (o : Order) (item : Item.t) :
  (forall pid,
     unitsOf pid (items (addItem o item))
     = unitsOf pid (items o)
       + (if String.eqb (Item.productId item) pid then Item.quantity item
          else 0)) /\
  ((forall i, In i (items o) -> Item.productId i <> Item.productId item) ->
     length (items (addItem o item)) = S (length (items o))) /\
  ((exists i, In i (items o) /\ Item.productId i = Item.productId item) ->
     length (items (addItem o item)) = length (items o)).
Proof. exact (addItem_units_aux o item). Qed.

Lemma addItem_units_witness :
  (exists i, In i (items Samples.order1) /\
             Item.productId i = Item.productId Samples.widget) /\
  length (items (addItem Samples.order1 Samples.widget)) = 1%nat /\
  unitsOf "p1" (items (addItem Samples.order1 Samples.widget)) = 4.
Proof.
  assert (H : exists i, In i (items Samples.order1) /\
                        Item.productId i = Item.productId Samples.widget).
  { exists Samples.widget. split; [left|]; reflexivity. }
  split; [exact H|].
  destruct (addItem_units Samples.order1 Samples.widget) as (Hu & _ & Hl).
  split; [exact (Hl H)|]. rewrite Hu. reflexivity.
Defined.

Lemma delete_first_units pid l : forall x,
  List.find (hasProductId pid) l = Some x ->
  exists k, firstIndex (hasProductId pid) l = Some k /\
    S (length (delete k l)) = length l /\
    forall pid', unitsOf pid' (delete k l)
      = unitsOf pid' l - (if String.eqb pid pid' then Item.quantity x else 0).
Proof.
  unfold unitsOf.
  induction l as [|y l IH]; intros x; cbn [List.find firstIndex]; [discriminate|].
  destruct (hasProductId pid y) eqn:Hy.
  - intros [= <-]. exists 0%nat. split; [reflexivity|]. split; [reflexivity|].
    intros pid'. cbn [delete list_delete fold_right].
    apply hasProductId_eq in Hy. unfold hasProductId. rewrite Hy.
    destruct (String.eqb pid pid'); lia.
  - intros Hx. destruct (IH x Hx) as (k & Hk & Hlen & Hu).
    exists (S k). rewrite Hk. split; [reflexivity|].
    change (delete (S k) (y :: l)) with (y :: delete k l).
    cbn [length fold_right].
    split; [lia|]. intros pid'. rewrite Hu.
    destruct (hasProductId pid' y); lia.
Qed.

Lemma removeItem_present_aux (o : Order) (productId : string) (item : Item.t) :
  List.find (hasProductId productId) (items o) = Some item ->
  S (length (items (removeItem o productId))) = length (items o) /\
  (forall pid,
     unitsOf pid (items (removeItem o productId))
     = unitsOf pid (items o)
       - (if String.eqb productId pid then Item.quantity item else 0)) /\
  totalsConsistent (removeItem o productId).
Proof.
  intros Hfind.
  destruct (delete_first_units productId (items o) item Hfind)
    as (k & Hk & Hlen & Hu).
  destruct (findIndex_firstIndex (hasProductId productId) (items o)) as [Hb Hz].
  assert (E : removeItem o productId
              = calculateTotals (set_items (delete k (items o)) o)).
  { unfold removeItem. rewrite Hb, Hk, bool_decide_eq_true_2 by eauto.
    rewrite (Hz k Hk). reflexivity. }
  rewrite E. split; [|split].
  - unfold calculateTotals. simpl. rewrite length_map. exact Hlen.
  - intros pid. unfold calculateTotals. simpl. rewrite unitsOf_retotal. apply Hu.
  - apply calculateTotals_consistent.
Qed.

(** X16. [removeItem] of a product the order holds takes out one line, the
    first one with that product id: the number of lines goes down by one,
    the units of that product go down by that line's quantity, the units
    of every other product stay as they are, and the totals are
    recomputed. *)
Theorem removeItem_present (o : Order) (productId : string) (item : Item.t) :
  List.find (hasProductId productId) (items o) = Some item ->
  S (length (items (removeItem o productId))) = length (items o) /\
  (forall pid,
     unitsOf pid (items (removeItem o productId))
     = unitsOf pid (items o)
       - (if String.eqb productId pid then Item.quantity item else 0)) /\
  totalsConsistent (removeItem o productId).
Proof. exact (removeItem_present_aux o productId item). Qed.

Lemma removeItem_present_witness :
  List.find (hasProductId "p1") (items Samples.order1) = Some Samples.widget /\
  S (length (items (removeItem Samples.order1 "p1")))
  = length (items Samples.order1).
Proof.
  assert (H : List.find (hasProductId "p1") (items Samples.order1)
              = Some Samples.widget) by reflexivity.
  split; [exact H|].
  exact (proj1 (removeItem_present Samples.order1 "p1" Samples.widget H)).
Defined.

(** X17. What a discount does to the total of an order whose total is
    consistent.  A percentage discount takes that percentage of the
    current [subtotal] off; a fixed amount takes the amount off.  A
    free-shipping discount takes the shipping amount off twice: it is
    added to [discountAmount] and [shippingAmount] is set to zero, and the
    total is computed from both.  A discount without a known type changes
    no amount.  No floor is applied, and the discount is appended to
    [discounts] in every case. *)
Theorem applyDiscount_total (o : Order) (d : Discount) :
  totalsConsistent o ->
  let o' := applyDiscount o d in
  discounts o' = discounts o ++ [d] /\ items o' = items o /\
  (dtype d = Some percentage ->
     (total o' == total o - subtotal o * damount d / 100)%Q /\
     shippingAmount o' = shippingAmount o) /\
  (dtype d = Some fixed_amount ->
     (total o' == total o - damount d)%Q /\
     shippingAmount o' = shippingAmount o) /\
  (dtype d = Some free_shipping ->
     (total o' == total o - 2 * shippingAmount o)%Q /\
     shippingAmount o' = 0%Q /\
     discountAmount o' = (discountAmount o + shippingAmount o)%Q) /\
  (dtype d = None ->
     (total o' == total o)%Q /\ discountAmount o' = discountAmount o).
Proof.
  unfold totalsConsistent. intros H. cbv zeta. unfold applyDiscount, sumTotal.
  split; [destruct (dtype d) as [[]|]; reflexivity|].
  split; [destruct (dtype d) as [[]|]; reflexivity|].
  split; [|split; [|split]]; intros ->; simpl; rewrite H.
  - split; [|reflexivity]. field.
  - split; [|reflexivity]. ring.
  - split; [|split; reflexivity]. ring.
  - split; [|reflexivity]. ring.
Qed.

Lemma applyDiscount_total_witness :
  totalsConsistent Samples.order1 /\
  (total (applyDiscount Samples.order1 Samples.freeShipping) == 28)%Q.
Proof.
  assert (H : totalsConsistent Samples.order1) by reflexivity.
  split; [exact H|].
  destruct (applyDiscount_total Samples.order1 Samples.freeShipping H)
    as (_ & _ & _ & _ & Hfree & _).
  destruct (Hfree eq_refl) as (Ht & _). rewrite Ht. reflexivity.
Defined.

(** X18. A discount survives recomputation: on an order whose totals were
    just computed, [calculateTotals] after [applyDiscount] changes
    nothing, since [calculateTotals] reads [discountAmount] and
    [shippingAmount] and never resets them. *)
Theorem calculateTotals_after_applyDiscount (o : Order) (d : Discount) :
  calculateTotals (applyDiscount (calculateTotals o) d)
  = applyDiscount (calculateTotals o) d.
Proof.
  destruct o, d as [c [[]|] a de]; unfold calculateTotals, applyDiscount;
    simpl; rewrite map_retotal_idem; reflexivity.
Qed.

Lemma updateStatus_unfold toISO o s notes now :
  exists n, updateStatus toISO o s notes now
            = set_adminNotes n (stamp s now (set_status s o)) /\
    (truthy notes = false -> n = adminNotes o) /\
    (truthy notes = true ->
       n = Some (match adminNotes o with
                 | Some old =>
                     if truthy old
                     then old +:+ String "010"%char ""
                          +:+ auditLine toISO now (status o) s notes
                     else auditLine toISO now (status o) s notes
                 | None => auditLine toISO now (status o) s notes
                 end)).
Proof.
  unfold updateStatus.
  assert (Hn : adminNotes (stamp s now (set_status s o)) = adminNotes o).
  { unfold stamp. simpl.
    destruct s, (completedAt o), (cancelledAt o),
      (Shipping.shippedAt (shipping o)), (Shipping.deliveredAt (shipping o)),
      (Payment.paidAt (payment o)); reflexivity. }
  destruct (truthy notes).
  - rewrite Hn. simpl status.
    destruct (adminNotes o) as [old|]; [destruct (truthy old)|];
      eexists; (split; [reflexivity|]); split; intros; congruence.
  - exists (adminNotes o). split.
    + rewrite <- Hn. destruct (stamp s now (set_status s o)). reflexivity.
    + split; [reflexivity|discriminate].
Qed.

(** X19. [updateStatus] sets the status it is given, whatever the current
    one, and records each of the five dates once: [completedAt],
    [cancelledAt], [shipping.shippedAt], [shipping.deliveredAt] and
    [payment.paidAt] keep a value they already have, and an empty one is
    filled with the time of the call exactly when the new status is the
    one the date belongs to. *)
Theorem updateStatus_dates (toISOString : Z -> string) (o : Order)
  (newStatus : Status) (notes : string) (now : Z) :
  let o' := updateStatus toISOString o newStatus notes now in
  status o' = newStatus /\
  forall i old st,
    dates o !! i = Some old -> dateStatuses !! i = Some st ->
    dates o' !! i =
    Some (match old with
          | Some t => Some t
          | None => if status_eqb newStatus st then Some now else None
          end).
Proof.
  cbv zeta.
  destruct (updateStatus_unfold toISOString o newStatus notes now)
    as (n & -> & _).
  assert (Hd : dates (set_adminNotes n (stamp newStatus now (set_status newStatus o)))
               = dates (stamp newStatus now (set_status newStatus o)))
    by reflexivity.
  assert (Hs : status (set_adminNotes n (stamp newStatus now (set_status newStatus o)))
               = newStatus).
  { simpl. unfold stamp. simpl.
    destruct newStatus, (completedAt o), (cancelledAt o),
      (Shipping.shippedAt (shipping o)), (Shipping.deliveredAt (shipping o)),
      (Payment.paidAt (payment o)); reflexivity. }
  split; [exact Hs|]. rewrite Hd. clear Hd Hs.
  unfold dates, dateStatuses, stamp.
  destruct o as [? ? ? ? ? ? ? ? ? pay ship ? ? completedAt0 cancelledAt0].
  destruct pay as [? ? ? ? paidAt0], ship as [? ? ? ? ? shippedAt0 deliveredAt0].
  simpl. intros i old st.
  destruct completedAt0, cancelledAt0, shippedAt0, deliveredAt0, paidAt0;
    destruct i as [|[|[|[|[|i]]]]]; simpl; try discriminate;
    intros [= <-] [= <-]; destruct newStatus; reflexivity.
Qed.

Lemma updateStatus_dates_witness :
  dates Samples.order1 !! 1%nat = Some None /\
  dateStatuses !! 1%nat = Some cancelled /\
  dates (updateStatus Samples.iso Samples.order1 cancelled "" 42) !! 1%nat
  = Some (Some 42).
Proof.
  split; [reflexivity|]. split; [reflexivity|].
  exact (proj2 (updateStatus_dates Samples.iso Samples.order1 cancelled "" 42)
           1%nat None cancelled eq_refl eq_refl).
Defined.

(** X20. The audit trail only grows.  With empty notes [updateStatus]
    leaves [adminNotes] as it is (the transition leaves no trace).  With
    notes it writes one line naming the status before the call, the new
    status and the notes, after whatever [adminNotes] held before, which
    is kept in full. *)
Theorem updateStatus_audit (toISOString : Z -> string) (o : Order)
  (newStatus : Status) (notes : string) (now : Z) :
  let o' := updateStatus toISOString o newStatus notes now in
  (notes = "" -> adminNotes o' = adminNotes o) /\
  (notes <> "" ->
     exists sep,
       adminNotes o' =
       Some (match adminNotes o with Some old => old | None => "" end
             +:+ sep
             +:+ (toISOString now +:+ " - " +:+ statusName (status o)
                  +:+ " → " +:+ statusName newStatus +:+ ": " +:+ notes))).
Proof.
  cbv zeta.
  destruct (updateStatus_unfold toISOString o newStatus notes now)
    as (n & -> & Hf & Ht).
  simpl adminNotes. split.
  - intros ->. apply Hf. reflexivity.
  - intros Hne. rewrite Ht.
    + destruct (adminNotes o) as [old|]; [|exists ""; reflexivity].
      destruct (truthy old) eqn:E.
      * exists (String "010"%char ""). reflexivity.
      * exists "". unfold truthy in E. apply negb_false_iff, String.eqb_eq in E.
        subst old. reflexivity.
    + unfold truthy. apply negb_true_iff, String.eqb_neq. exact Hne.
Qed.

Lemma updateStatus_audit_witness :
  "late" <> "" /\
  exists sep,
    adminNotes (updateStatus Samples.iso Samples.order1 on_hold "late" 0)
    = Some ("" +:+ sep +:+
            (Samples.iso 0 +:+ " - " +:+ "pending" +:+ " → " +:+ "on_hold"
             +:+ ": " +:+ "late")).
Proof.
  assert (H : "late" <> "") by discriminate.
  split; [exact H|].
  exact (proj2 (updateStatus_audit Samples.iso Samples.order1 on_hold "late" 0) H).
Defined.

Lemma updateStatus_paid_fields toISO o notes now :
  status (updateStatus toISO o paid notes now) = paid /\
  Payment.paidAt (payment (updateStatus toISO o paid notes now))
  = Some (match Payment.paidAt (payment o) with Some t => t | None => now end) /\
  Payment.status (payment (updateStatus toISO o paid notes now))
  = Payment.status (payment o).
Proof.
  destruct (updateStatus_unfold toISO o paid notes now) as (n & -> & _).
  destruct o as [? ? ? ? ? ? ? ? ? pay ship ? ? completedAt0 cancelledAt0].
  destruct pay as [? ? ? ? paidAt0], ship as [? ? ? ? ? shippedAt0 deliveredAt0].
  unfold stamp. simpl.
  destruct completedAt0, cancelledAt0, shippedAt0, deliveredAt0, paidAt0;
    repeat split; reflexivity.
Qed.

(** X21. [updatePayment] merges the given properties into [payment] and
    touches the order status in one case only: a [completed] payment on an
    order that is [payment_pending] makes it [paid] and leaves [paidAt]
    set.  In every other case - a completed payment on a [pending] (cash)
    order, say, or on a cancelled one - status and notes stay as they
    are. *)
Theorem updatePayment_status (toISOString : Z -> string) (o : Order)
  (paymentInfo : Payment.info) (now : Z) :
  let o' := updatePayment toISOString o paymentInfo now in
  (Payment.i_status paymentInfo = Some pay_completed ->
   status o = payment_pending ->
     status o' = paid /\
     Payment.status (payment o') = pay_completed /\
     Payment.paidAt (payment o')
     = Some (match Payment.i_paidAt paymentInfo, Payment.paidAt (payment o) with
             | Some t, _ => t
             | None, Some t => t
             | None, None => now
             end)) /\
  (Payment.i_status paymentInfo <> Some pay_completed \/
   status o <> payment_pending ->
     status o' = status o /\ adminNotes o' = adminNotes o /\
     payment o' = mergePayment (payment o) paymentInfo).
Proof.
  cbv zeta. unfold updatePayment. split.
  - intros Hi Hs. rewrite Hi. simpl status. rewrite Hs.
    destruct (updateStatus_paid_fields toISOString
                (set_payment (mergePayment (payment o) paymentInfo) o)
                "Pago recibido y confirmado" now) as (H1 & H2 & H3).
    split; [exact H1|]. split.
    + rewrite H3. simpl. unfold mergePayment. simpl. rewrite Hi. reflexivity.
    + rewrite H2. simpl. unfold mergePayment, overOpt. simpl.
      destruct (Payment.i_paidAt paymentInfo), (Payment.paidAt (payment o));
        reflexivity.
  - intros Hor. simpl status.
    destruct (Payment.i_status paymentInfo) as [[]|] eqn:Ei;
      destruct (status o) eqn:Es; simpl; rewrite ?Es;
      try (repeat split; reflexivity).
    destruct Hor as [H|H]; exfalso; apply H; reflexivity.
Qed.

Lemma updatePayment_status_witness :
  status Samples.order1 <> payment_pending /\
  status (updatePayment Samples.iso Samples.order1
            (Payment.mkInfo None None None (Some pay_completed) None) 5)
  = pending.
Proof.
  assert (H : status Samples.order1 <> payment_pending) by discriminate.
  split; [exact H|].
  exact (proj1 (proj2 (updatePayment_status Samples.iso Samples.order1
                         (Payment.mkInfo None None None (Some pay_completed) None) 5)
                  (or_intror H))).
Defined.

Lemma updateStatus_status toISO o s notes now :
  status (updateStatus toISO o s notes now) = s.
Proof.
  destruct (updateStatus_unfold toISO o s notes now) as (n & -> & _).
  simpl. unfold stamp. simpl.
  destruct s, (completedAt o), (cancelledAt o),
    (Shipping.shippedAt (shipping o)), (Shipping.deliveredAt (shipping o)),
    (Payment.paidAt (payment o)); reflexivity.
Qed.

(** X22. [updateShipping] moves the order along two edges only: a shipping
    status [shipped] takes a [processing] order to [shipped], and
    [delivered] takes a [shipped] order to [delivered].  Any other
    combination - [shipped] for a pending or paid order, [delivered] for an
    order that was never shipped - changes the shipping record but not the
    order status. *)
Theorem updateShipping_status (toISOString : Z -> string) (o : Order)
  (shippingInfo : Shipping.info) (now : Z) :
  let o' := updateShipping toISOString o shippingInfo now in
  (Shipping.i_status shippingInfo = Some ship_shipped ->
   status o = processing -> status o' = shipped) /\
  (Shipping.i_status shippingInfo = Some ship_delivered ->
   status o = shipped -> status o' = delivered) /\
  (~ (Shipping.i_status shippingInfo = Some ship_shipped /\
      status o = processing) ->
   ~ (Shipping.i_status shippingInfo = Some ship_delivered /\
      status o = shipped) ->
   status o' = status o /\ adminNotes o' = adminNotes o /\
   shipping o' = mergeShipping (shipping o) shippingInfo).
Proof.
  cbv zeta. unfold updateShipping. simpl status. split; [|split].
  - intros -> ->. apply updateStatus_status.
  - intros -> ->. apply updateStatus_status.
  - intros H1 H2.
    destruct (Shipping.i_status shippingInfo) as [[]|] eqn:Ei;
      destruct (status o) eqn:Es; simpl; rewrite ?Es;
      try (repeat split; reflexivity); exfalso; tauto.
Qed.

Lemma updateShipping_status_witness :
  ~ (Some ship_delivered = Some ship_shipped /\
     status Samples.orderProcessing = processing) /\
  status (updateShipping Samples.iso Samples.orderProcessing
            (Shipping.mkInfo None None None None (Some ship_delivered) None None)
            9)
  = processing.
Proof.
  assert (H1 : ~ (Some ship_delivered = Some ship_shipped /\
                  status Samples.orderProcessing = processing))
    by (intros [H _]; discriminate H).
  assert (H2 : ~ (Some ship_delivered = Some ship_delivered /\
                  status Samples.orderProcessing = shipped))
    by (intros [_ H]; discriminate H).
  split; [exact H1|].
  exact (proj1 (proj2 (proj2 (updateShipping_status Samples.iso
                                Samples.orderProcessing
                                (Shipping.mkInfo None None None None
                                   (Some ship_delivered) None None) 9))
                  H1 H2)).
Defined.

End OrderMore.

(** ** Order controllers, continued *)

Module ControllerMore.
Import Js OrderController ControllerFacts.

Lemma statusOfName_name s : statusOfName (M.statusName s) = Some s.
Proof. destruct s; reflexivity. Qed.

Lemma statusOfName_Some str s : statusOfName str = Some s -> M.statusName s = str.
Proof.
  unfold statusOfName. intros H. apply find_some in H as [_ H].
  apply String.eqb_eq in H. exact H.
Qed.

Lemma updateStatus_userId toISO o s notes now :
  M.userId (M.updateStatus toISO o s notes now) = M.userId o.
Proof.
  destruct (OrderMore.updateStatus_unfold toISO o s notes now) as (n & -> & _).
  destruct o as [? ? ? ? ? ? ? ? ? pay ship ? ? completedAt0 cancelledAt0].
  destruct pay as [? ? ? ? paidAt0], ship as [? ? ? ? ? shippedAt0 deliveredAt0].
  unfold M.stamp. simpl.
  destruct s, completedAt0, cancelledAt0, shippedAt0, deliveredAt0, paidAt0;
    reflexivity.
Qed.

(** X23. [updateOrderStatus] has no transition table.  A status string that
    is not one of the eleven names is refused, and so is every caller who
    is not an admin; an admin can put an order into any status from any
    status.  The [order.status_updated] event is built after the change and
    so reports the new status as the previous one too; it is followed by
    [order.paid] or [order.cancelled], with the order's lines, exactly when
    that is the new status - whether or not the order was in that status
    already. *)
Theorem updateOrderStatus_spec (toISOString : Z -> string) (st : Orders)
  (user : User) (orderId : string) (order : M.Order) (status : string)
  (notes : option string) (now : Z) :
  st !! orderId = Some order ->
  let r := updateOrderStatus toISOString st user orderId status notes now in
  ((forall s, M.statusName s <> status) -> untouched st r) /\
  (isAdmin user = false -> untouched st r) /\
  (forall s, M.statusName s = status -> isAdmin user = true ->
     exists order',
       response r = Json 200 order' /\
       orders r = <[orderId := order']> st /\
       M.status order' = s /\
       published r =
       mkEvent "order.status_updated" orderId (M.userId order)
         (PStatus status status)
       :: match s with
          | M.paid => [mkEvent "order.paid" orderId (M.userId order)
                         (PItems (itemLines order'))]
          | M.cancelled => [mkEvent "order.cancelled" orderId (M.userId order)
                              (PItems (itemLines order'))]
          | _ => []
          end).
Proof.
  intros Hl. cbv zeta. unfold updateOrderStatus. split; [|split].
  - intros Hbad.
    destruct (statusOfName status) as [s|] eqn:E; [|apply reject_untouched].
    exfalso. exact (Hbad s (statusOfName_Some _ _ E)).
  - intros Ha. destruct (statusOfName status); [|apply reject_untouched].
    rewrite Hl, Ha. simpl. apply reject_untouched.
  - intros s <- Ha. rewrite statusOfName_name, Hl, Ha. simpl negb. cbv iota.
    eexists. split; [reflexivity|]. split; [reflexivity|].
    split; [apply OrderMore.updateStatus_status|].
    simpl published. rewrite OrderMore.updateStatus_status, updateStatus_userId.
    reflexivity.
Qed.

Lemma updateOrderStatus_spec_witness :
  ({["o1" := Samples.orderDelivered]} : Orders) !! "o1"
    = Some Samples.orderDelivered /\
  M.statusName M.pending = "pending" /\ isAdmin Samples.admin = true /\
  exists order',
    response (updateOrderStatus Samples.iso {["o1" := Samples.orderDelivered]}
                Samples.admin "o1" "pending" None 3) = Json 200 order' /\
    M.status order' = M.pending.
Proof.
  assert (Hl : ({["o1" := Samples.orderDelivered]} : Orders) !! "o1"
               = Some Samples.orderDelivered) by apply lookup_singleton_eq.
  split; [exact Hl|]. split; [reflexivity|]. split; [reflexivity|].
  destruct (updateOrderStatus_spec Samples.iso _ Samples.admin "o1" _ "pending"
              None 3 Hl) as (_ & _ & H).
  destruct (H M.pending eq_refl eq_refl) as (order' & Hr & _ & Hs & _).
  exists order'. split; [exact Hr | exact Hs].
Defined.

Lemma calculateTotals_userId o : M.userId (M.calculateTotals o) = M.userId o.
Proof. reflexivity. Qed.

Lemma removeItem_userId o pid : M.userId (M.removeItem o pid) = M.userId o.
Proof.
  unfold M.removeItem. destruct (0 <=? _); reflexivity.
Qed.

Lemma addItem_userId o item : M.userId (M.addItem o item) = M.userId o.
Proof.
  unfold M.addItem. destruct (0 <=? _); reflexivity.
Qed.

Lemma not_locked order :
  ~ In (M.status order) lockedStatuses ->
  M.includes lockedStatuses (M.status order) = false.
Proof. apply includes_not_In. Qed.

(** X24. [removeOrderItem] on an order that is not locked: a caller who is
    neither admin nor owner is refused; a product the order does not hold
    gives a 404 and changes nothing; otherwise the order is stored with
    the first line of that product removed, and one [order.item.removed]
    event is published that carries the quantity of exactly that line. *)
Theorem removeOrderItem_spec (st : Orders) (user : User) (orderId : string)
  (order : M.Order) (productId : string) :
  st !! orderId = Some order ->
  ~ In (M.status order) lockedStatuses ->
  let r := removeOrderItem st user orderId productId in
  (isAdmin user = false -> isOwner user order = false -> untouched st r) /\
  (isAdmin user = true \/ isOwner user order = true ->
     (List.find (M.hasProductId productId) (M.items order) = None ->
        untouched st r /\
        response r = Next (mkExn (AppError 404)
                             "Producto no encontrado en la orden")) /\
     (forall item,
        List.find (M.hasProductId productId) (M.items order) = Some item ->
        response r = Json 200 (M.removeItem order productId) /\
        orders r = <[orderId := M.removeItem order productId]> st /\
        S (length (M.items (M.removeItem order productId)))
        = length (M.items order) /\
        published r =
        [mkEvent "order.item.removed" orderId (M.userId order)
           (PItem productId (M.Item.quantity item))])).
Proof.
  intros Hl Hn. apply not_locked in Hn. cbv zeta. unfold removeOrderItem.
  rewrite Hl, Hn. split.
  - intros -> ->. simpl. apply reject_untouched.
  - intros Hwho.
    assert (Hp : negb (isAdmin user) && negb (isOwner user order) = false).
    { destruct Hwho as [-> | ->]; [reflexivity|].
      destruct (isAdmin user); reflexivity. }
    rewrite Hp. split.
    + intros ->. split; [apply reject_untouched | reflexivity].
    + intros item Hf. rewrite Hf.
      rewrite <- (removeItem_userId order productId).
      split; [reflexivity|]. split; [reflexivity|]. split; [|reflexivity].
      exact (proj1 (OrderMore.removeItem_present_aux order productId item Hf)).
Qed.

Lemma removeOrderItem_spec_witness :
  ({["o1" := Samples.order1]} : Orders) !! "o1" = Some Samples.order1 /\
  ~ In (M.status Samples.order1) lockedStatuses /\
  isOwner Samples.owner Samples.order1 = true /\
  List.find (M.hasProductId "p9") (M.items Samples.order1) = None /\
  untouched {["o1" := Samples.order1]}
    (removeOrderItem {["o1" := Samples.order1]} Samples.owner "o1" "p9").
Proof.
  assert (Hl : ({["o1" := Samples.order1]} : Orders) !! "o1"
               = Some Samples.order1) by apply lookup_singleton_eq.
  assert (Hn : ~ In (M.status Samples.order1) lockedStatuses).
  { simpl. intros [H|[H|[H|[H|[H|[]]]]]]; discriminate H. }
  split; [exact Hl|]. split; [exact Hn|]. split; [reflexivity|].
  split; [reflexivity|].
  destruct (removeOrderItem_spec _ Samples.owner "o1" _ "p9" Hl Hn) as (_ & H).
  destruct (H (or_intror eq_refl)) as (Hnone & _).
  exact (proj1 (Hnone eq_refl)).
Defined.

(** X25. [addOrderItem] on an order that is not locked, for a caller who is
    admin or owner and a body with a product id and a positive quantity:
    if the product lookup fails, the error is passed on, nothing is stored
    and no event is published; otherwise the order is stored with the
    requested units added to that product and consistent totals, and one
    [order.item.added] event carries the requested quantity.  A missing or
    empty product id, or a missing, zero or negative quantity, is refused
    before the order is read. *)
Theorem addOrderItem_spec (getProductInfo : string -> Result ProductInfo)
  (st : Orders) (user : User) (orderId : string) (order : M.Order)
  (productId : string) (quantity : Z) :
  st !! orderId = Some order ->
  ~ In (M.status order) lockedStatuses ->
  isAdmin user = true \/ isOwner user order = true ->
  let r := addOrderItem getProductInfo st user orderId (Some productId)
             (Some quantity) in
  (productId = "" \/ quantity <= 0 -> untouched st r) /\
  (untouched st (addOrderItem getProductInfo st user orderId None (Some quantity)) /\
   untouched st (addOrderItem getProductInfo st user orderId (Some productId) None)) /\
  (productId <> "" -> 0 < quantity ->
     (forall error, getProductInfo productId = inl error ->
        response r = Next error /\ orders r = st /\ published r = []) /\
     (forall p, getProductInfo productId = inr p ->
        exists order',
          response r = Json 200 order' /\
          orders r = <[orderId := order']> st /\
          M.totalsConsistent order' /\
          OrderExtra.unitsOf productId (M.items order')
          = OrderExtra.unitsOf productId (M.items order) + quantity /\
          published r =
          [mkEvent "order.item.added" orderId (M.userId order)
             (PItem productId quantity)])).
Proof.
  intros Hl Hn Hwho. apply not_locked in Hn. cbv zeta.
  assert (Hp : negb (isAdmin user) && negb (isOwner user order) = false).
  { destruct Hwho as [-> | ->]; [reflexivity|].
    destruct (isAdmin user); reflexivity. }
  unfold addOrderItem. split; [|split].
  - intros [-> | Hq]; [apply reject_untouched|].
    apply Z.leb_le in Hq. rewrite Hq, orb_true_r. apply reject_untouched.
  - split; apply reject_untouched.
  - intros Hpid Hq.
    assert (Hv : negb (M.truthy productId) || (quantity <=? 0) = false).
    { unfold M.truthy. apply String.eqb_neq in Hpid. rewrite Hpid. simpl.
      apply Z.leb_gt. exact Hq. }
    rewrite Hv, Hl, Hn, Hp. split.
    + intros error ->. repeat split.
    + intros p ->. eexists. split; [reflexivity|]. split; [reflexivity|].
      split; [unfold M.addItem; apply OrderFacts.calculateTotals_consistent|].
      split.
      * rewrite (proj1 (OrderMore.addItem_units_aux order
                          (itemOfProduct productId quantity p)) productId).
        simpl. rewrite String.eqb_refl. reflexivity.
      * rewrite <- (addItem_userId order (itemOfProduct productId quantity p)).
        reflexivity.
Qed.

Lemma addOrderItem_spec_witness :
  ({["o1" := Samples.order1]} : Orders) !! "o1" = Some Samples.order1 /\
  ~ In (M.status Samples.order1) lockedStatuses /\
  "p1" <> "" /\ 0 < 2 /\
  orders (addOrderItem Samples.noProduct {["o1" := Samples.order1]}
            Samples.owner "o1" (Some "p1") (Some 2))
  = {["o1" := Samples.order1]}.
Proof.
  assert (Hl : ({["o1" := Samples.order1]} : Orders) !! "o1"
               = Some Samples.order1) by apply lookup_singleton_eq.
  assert (Hn : ~ In (M.status Samples.order1) lockedStatuses).
  { simpl. intros [H|[H|[H|[H|[H|[]]]]]]; discriminate H. }
  assert (Hp : "p1" <> "") by discriminate.
  split; [exact Hl|]. split; [exact Hn|]. split; [exact Hp|]. split; [lia|].
  destruct (addOrderItem_spec Samples.noProduct _ Samples.owner "o1" _ "p1" 2
              Hl Hn (or_intror eq_refl)) as (_ & _ & H).
  destruct (H Hp ltac:(lia)) as (Herr & _).
  exact (proj1 (proj2 (Herr _ eq_refl))).
Defined.

(** X26. The discount controller ignores which code it is given: every
    accepted request adds ten percent of the current subtotal to
    [discountAmount], and nothing keeps the same code from being used
    again.  After two requests the order carries two discounts and twenty
    percent of its subtotal as [discountAmount]; no event is published. *)
Theorem applyDiscount_accumulates (st : Orders) (user : User)
  (orderId : string) (order : M.Order) (code1 code2 : string) :
  st !! orderId = Some order ->
  ~ In (M.status order) lockedStatuses ->
  isAdmin user = true \/ isOwner user order = true ->
  code1 <> "" -> code2 <> "" ->
  let r1 := applyDiscount st user orderId (Some code1) in
  let r2 := applyDiscount (orders r1) user orderId (Some code2) in
  exists o1 o2,
    response r1 = Json 200 o1 /\ response r2 = Json 200 o2 /\
    orders r2 !! orderId = Some o2 /\
    (M.discountAmount o1
     == M.discountAmount order + M.subtotal order * 10 / 100)%Q /\
    (M.discountAmount o2
     == M.discountAmount order + 2 * (M.subtotal order * 10 / 100))%Q /\
    length (M.discounts o2) = S (S (length (M.discounts order))) /\
    published r1 = [] /\ published r2 = [].
Proof.
  intros Hl Hn Hwho Hc1 Hc2. apply not_locked in Hn. cbv zeta.
  assert (Hp : negb (isAdmin user) && negb (isOwner user order) = false).
  { destruct Hwho as [-> | ->]; [reflexivity|].
    destruct (isAdmin user); reflexivity. }
  assert (Ht : forall c, c <> "" -> negb (M.truthy c) = false).
  { intros c Hc. unfold M.truthy. apply String.eqb_neq in Hc. rewrite Hc.
    reflexivity. }
  set (d1 := M.mkDiscount code1 (Some M.percentage) 10%Q "Descuento del 10%").
  set (d2 := M.mkDiscount code2 (Some M.percentage) 10%Q "Descuento del 10%").
  set (o1 := M.applyDiscount order d1).
  set (o2 := M.applyDiscount o1 d2).
  assert (E1 : applyDiscount st user orderId (Some code1)
               = mkOutcome (<[orderId := o1]> st) (Json 200 o1) []).
  { unfold applyDiscount. rewrite (Ht _ Hc1), Hl, Hn, Hp. reflexivity. }
  assert (E2 : applyDiscount (<[orderId := o1]> st) user orderId (Some code2)
               = mkOutcome (<[orderId := o2]> (<[orderId := o1]> st))
                   (Json 200 o2) []).
  { unfold applyDiscount. rewrite (Ht _ Hc2), lookup_insert_eq.
    change (M.status o1) with (M.status order).
    change (isOwner user o1) with (isOwner user order).
    rewrite Hn, Hp. reflexivity. }
  rewrite E1. cbn [orders]. rewrite E2. cbn [orders response published].
  exists o1, o2. split; [reflexivity|]. split; [reflexivity|].
  split; [apply lookup_insert_eq|].
  subst o2 o1 d1 d2. unfold M.applyDiscount. simpl.
  split; [reflexivity|]. split; [field|].
  split; [rewrite !length_app; simpl; lia|]. split; reflexivity.
Qed.

Lemma applyDiscount_accumulates_witness :
  ({["o1" := Samples.order1]} : Orders) !! "o1" = Some Samples.order1 /\
  "SAVE10" <> "" /\
  exists o2,
    response (applyDiscount
                (orders (applyDiscount {["o1" := Samples.order1]} Samples.owner
                           "o1" (Some "SAVE10")))
                Samples.owner "o1" (Some "SAVE10")) = Json 200 o2 /\
    (M.discountAmount o2 == 6)%Q.
Proof.
  assert (Hl : ({["o1" := Samples.order1]} : Orders) !! "o1"
               = Some Samples.order1) by apply lookup_singleton_eq.
  assert (Hn : ~ In (M.status Samples.order1) lockedStatuses).
  { simpl. intros [H|[H|[H|[H|[H|[]]]]]]; discriminate H. }
  assert (Hc : "SAVE10" <> "") by discriminate.
  split; [exact Hl|]. split; [exact Hc|].
  destruct (applyDiscount_accumulates _ Samples.owner "o1" _ "SAVE10" "SAVE10"
              Hl Hn (or_intror eq_refl) Hc Hc)
    as (o1 & o2 & _ & Hr2 & _ & _ & Hd & _).
  exists o2. split; [exact Hr2|]. rewrite Hd. reflexivity.
Defined.

End ControllerMore.

(** ** Order creation, payment update, and the events they publish *)

Module EndpointFacts.
Import Js OrderController OrderEndpoints ControllerFacts.

Lemma validateOrderItems_ok getProductInfo l :
  (forall it, In it l -> exists p, getProductInfo (r_productId it) = inr p) ->
  exists v, validateOrderItems getProductInfo l = inr v /\
    map (fun item => (M.Item.productId item, M.Item.quantity item)) v
    = map (fun it => (r_productId it, r_quantity it)) l.
Proof.
  induction l as [|it l IH]; intros H; simpl.
  - exists []. split; reflexivity.
  - destruct (H it (or_introl eq_refl)) as [p ->].
    destruct IH as (v & -> & Hv); [intros i Hi; apply H; right; exact Hi|].
    eexists. split; [reflexivity|]. simpl. rewrite Hv. reflexivity.
Qed.

Lemma validateOrderItems_fail getProductInfo l :
  (exists it, In it l /\ exists e, getProductInfo (r_productId it) = inl e) ->
  exists msg, validateOrderItems getProductInfo l
              = inl (mkExn (AppError 400) msg).
Proof.
  induction l as [|it l IH]; intros (x & Hin & e & He); [destruct Hin|].
  simpl. destruct (getProductInfo (r_productId it)) as [e'|p] eqn:E.
  - eexists. reflexivity.
  - destruct Hin as [->|Hin]; [rewrite E in He; discriminate|].
    destruct IH as (msg & ->); [exists x; eauto|]. eexists. reflexivity.
Qed.

Lemma itemLines_retotal l :
  map (fun item => (M.Item.productId item, M.Item.quantity item))
    (map M.retotal l)
  = map (fun item => (M.Item.productId item, M.Item.quantity item)) l.
Proof.
  rewrite map_map. apply map_ext. intros item. destruct item. reflexivity.
Qed.

Lemma preSave_fields ts rnd o :
  M.items (preSave ts rnd o) = M.items o /\
  M.status (preSave ts rnd o) = M.status o /\
  M.userId (preSave ts rnd o) = M.userId o /\
  M.payment (preSave ts rnd o) = M.payment o /\
  M.discountAmount (preSave ts rnd o) = M.discountAmount o /\
  M.total (preSave ts rnd o) = M.total o /\
  M.subtotal (preSave ts rnd o) = M.subtotal o /\
  M.taxAmount (preSave ts rnd o) = M.taxAmount o /\
  M.shippingAmount (preSave ts rnd o) = M.shippingAmount o.
Proof.
  unfold preSave. destruct (M.orderNumber o) as [n|]; [destruct (M.truthy n)|];
    repeat split.
Qed.

(** What [createOrder] stores for a request that passes its checks. *)
Lemma createOrder_ok getProductInfo st user l addr payment shipping
  newId ts rnd :
  l <> [] ->
  (forall it, In it l -> exists p, getProductInfo (r_productId it) = inr p) ->
  exists order,
    createOrder getProductInfo st user (Some l) (Some addr) payment shipping
      newId ts rnd
    = mkOutcome (<[newId := order]> st) (Json 201 order)
        [mkEvent "order.created" newId (id user)
           (PItems (map (fun it => (r_productId it, r_quantity it)) l))] /\
    itemLines order = map (fun it => (r_productId it, r_quantity it)) l /\
    M.userId order = id user /\
    M.status order =
    match payment with
    | Some p => if String.eqb (M.Payment.method p) "credit_card"
                then M.payment_pending else M.pending
    | None => M.pending
    end /\
    M.totalsConsistent order /\
    M.discountAmount order = 0%Q /\
    M.Payment.amount (M.payment order) = M.total order /\
    M.orderNumber order = Some (orderNumberOf ts rnd) /\
    M.cancelledAt order = None /\ M.adminNotes order = None.
Proof.
  intros Hne Hall.
  destruct (validateOrderItems_ok getProductInfo l Hall) as (v & Hv & Hlines).
  unfold createOrder. destruct l as [|it0 l0]; [contradiction|].
  rewrite Hv. cbv zeta.
  set (order0 := M.mkOrder None (id user) M.pending v _ _ _ _ _ _ _ _ _ _ _).
  set (order2 := M.set_payment _ (M.calculateTotals order0)).
  set (initialStatus := match payment with Some _ => _ | None => _ end).
  assert (Hlines' : itemLines (preSave ts rnd (M.set_status initialStatus order2))
                    = map (fun it => (r_productId it, r_quantity it)) (it0 :: l0)).
  { unfold itemLines. rewrite (proj1 (preSave_fields ts rnd _)).
    subst order2 order0. unfold M.calculateTotals. simpl M.items.
    rewrite <- Hlines. apply itemLines_retotal. }
  eexists. split.
  { rewrite Hlines', (proj1 (proj2 (proj2 (preSave_fields ts rnd _)))).
    reflexivity. }
  split; [exact Hlines'|].
  split; [rewrite (proj1 (proj2 (proj2 (preSave_fields ts rnd _)))); reflexivity|].
  split; [rewrite (proj1 (proj2 (preSave_fields ts rnd _))); reflexivity|].
  split.
  { unfold M.totalsConsistent.
    destruct (preSave_fields ts rnd (M.set_status initialStatus order2))
      as (_ & _ & _ & _ & -> & -> & -> & -> & ->).
    exact (OrderFacts.calculateTotals_consistent order0). }
  split; [rewrite (proj1 (proj2 (proj2 (proj2 (proj2 (preSave_fields ts rnd _))))));
          reflexivity|].
  split.
  { destruct (preSave_fields ts rnd (M.set_status initialStatus order2))
      as (_ & _ & _ & -> & _ & -> & _). reflexivity. }
  split; [reflexivity|]. split; reflexivity.
Qed.

(** X27. [createOrder]: a request without items, with an empty item list
    or without a shipping address is refused with a 400, and so is one
    naming any product the product service cannot deliver; nothing is
    stored or published then.  For a request that passes, with a payment
    object, the stored order holds one line per requested item, with the
    requested product and quantity in the requested order (a product
    named twice gives two lines), has consistent totals, no discount,
    [payment.amount] equal to the total, a generated order number, and
    status [payment_pending] for a credit-card payment and [pending]
    otherwise; one [order.created] event carries the same lines. *)
Theorem createOrder_spec (getProductInfo : string -> Result ProductInfo)
  (st : Orders) (user : User) (items : option (list ItemRequest))
  (shippingAddress : option Address) (payment : option M.Payment.t)
  (shipping : option M.Shipping.t) (newId timestamp randomStr : string) :
  let r := createOrder getProductInfo st user items shippingAddress payment
             shipping newId timestamp randomStr in
  (items = None \/ items = Some [] -> untouched st r) /\
  (shippingAddress = None -> untouched st r) /\
  (forall l, items = Some l ->
     (exists it, In it l /\ exists e, getProductInfo (r_productId it) = inl e) ->
     untouched st r) /\
  (forall l addr p, items = Some l -> l <> [] -> shippingAddress = Some addr ->
     payment = Some p ->
     (forall it, In it l -> exists pr, getProductInfo (r_productId it) = inr pr) ->
     exists order,
       response r = Json 201 order /\
       orders r = <[newId := order]> st /\
       itemLines order = map (fun it => (r_productId it, r_quantity it)) l /\
       M.totalsConsistent order /\
       M.discountAmount order = 0%Q /\
       M.Payment.amount (M.payment order) = M.total order /\
       M.orderNumber order = Some (orderNumberOf timestamp randomStr) /\
       M.status order =
       (if String.eqb (M.Payment.method p) "credit_card"
        then M.payment_pending else M.pending) /\
       published r =
       [mkEvent "order.created" newId (id user)
          (PItems (map (fun it => (r_productId it, r_quantity it)) l))]).
Proof.
  cbv zeta. split; [|split; [|split]].
  - intros [-> | ->]; apply reject_untouched.
  - intros ->. unfold createOrder.
    destruct items as [[|it l]|]; apply reject_untouched.
  - intros l -> Hbad. unfold createOrder.
    destruct l as [|it l]; [apply reject_untouched|].
    destruct shippingAddress; [|apply reject_untouched].
    destruct (validateOrderItems_fail getProductInfo (it :: l) Hbad) as (msg & ->).
    repeat split.
  - intros l addr p -> Hne -> -> Hall.
    destruct (createOrder_ok getProductInfo st user l addr (Some p) shipping
                newId timestamp randomStr Hne Hall)
      as (order & -> & Hlines & _ & Hs & Hc & Hd & Ha & Hn & _).
    exists order. repeat split; assumption.
Qed.

Lemma createOrder_spec_witness :
  [mkItemRequest "p1" 3] <> [] /\
  (forall it, In it [mkItemRequest "p1" 3] ->
     exists pr, Samples.catalog (r_productId it) = inr pr) /\
  exists order,
    response (createOrder Samples.catalog ∅ Samples.owner
                (Some [mkItemRequest "p1" 3]) (Some Samples.home)
                (Some Samples.byCard) None "o9" "T" "R") = Json 201 order /\
    M.status order = M.payment_pending.
Proof.
  assert (Hne : [mkItemRequest "p1" 3] <> []) by discriminate.
  assert (Hall : forall it, In it [mkItemRequest "p1" 3] ->
                   exists pr, Samples.catalog (r_productId it) = inr pr).
  { intros it [<-|[]]. eexists. reflexivity. }
  split; [exact Hne|]. split; [exact Hall|].
  destruct (createOrder_spec Samples.catalog ∅ Samples.owner
              (Some [mkItemRequest "p1" 3]) (Some Samples.home)
              (Some Samples.byCard) None "o9" "T" "R") as (_ & _ & _ & H).
  destruct (H _ _ _ eq_refl Hne eq_refl eq_refl Hall)
    as (order & Hr & _ & _ & _ & _ & _ & _ & Hs & _).
  exists order. split; [exact Hr | exact Hs].
Defined.

Lemma updateStatus_items toISO o s notes now :
  M.items (M.updateStatus toISO o s notes now) = M.items o.
Proof.
  destruct (OrderMore.updateStatus_unfold toISO o s notes now) as (n & -> & _).
  destruct o as [? ? ? ? ? ? ? ? ? pay ship ? ? completedAt0 cancelledAt0].
  destruct pay as [? ? ? ? paidAt0], ship as [? ? ? ? ? shippedAt0 deliveredAt0].
  unfold M.stamp. simpl.
  destruct s, completedAt0, cancelledAt0, shippedAt0, deliveredAt0, paidAt0;
    reflexivity.
Qed.

Lemma updatePayment_items toISO o info now :
  M.items (M.updatePayment toISO o info now) = M.items o /\
  M.userId (M.updatePayment toISO o info now) = M.userId o.
Proof.
  unfold M.updatePayment.
  destruct (M.Payment.i_status info) as [[]|]; try (split; reflexivity).
  destruct (M.status (M.set_payment _ o)); try (split; reflexivity).
  rewrite updateStatus_items, ControllerMore.updateStatus_userId.
  split; reflexivity.
Qed.

Lemma cancelOrder_ok toISO (st : Orders) user orderId order reason now :
  st !! orderId = Some order ->
  M.status order = M.pending \/ M.status order = M.payment_pending ->
  isAdmin user = true \/ isOwner user order = true ->
  exists notes,
    cancelOrder toISO st user orderId reason now
    = mkOutcome
        (<[orderId := M.updateStatus toISO order M.cancelled notes now]> st)
        (Json 200 (M.updateStatus toISO order M.cancelled notes now))
        [mkEvent "order.cancelled" orderId (M.userId order)
           (PItems (itemLines order))].
Proof.
  intros Hl Hs Hwho. unfold cancelOrder. rewrite Hl.
  assert (Hu : M.includes uncancellable (M.status order) = false)
    by (destruct Hs as [-> | ->]; reflexivity).
  assert (Ho : M.includes ownerCancellable (M.status order) = true)
    by (destruct Hs as [-> | ->]; reflexivity).
  rewrite Hu, Ho.
  assert (Hp : negb (isAdmin user) && negb (isOwner user order) = false).
  { destruct Hwho as [-> | ->]; [reflexivity|].
    destruct (isAdmin user); reflexivity. }
  rewrite Hp, andb_false_r. eexists.
  unfold itemLines. rewrite updateStatus_items, ControllerMore.updateStatus_userId.
  reflexivity.
Qed.

Lemma deliver_created now inv orderId userId lines :
  Wire.deliver now inv [mkEvent "order.created" orderId userId (PItems lines)]
  = fold_left ProductConsumer.reserveItem
      (map (fun line => ProductConsumer.mkItem (fst line) (snd line)) lines) inv.
Proof. reflexivity. Qed.

Lemma deliver_cancelled now inv orderId userId lines :
  Wire.deliver now inv [mkEvent "order.cancelled" orderId userId (PItems lines)]
  = fold_left ProductConsumer.releaseItem
      (map (fun line => ProductConsumer.mkItem (fst line) (snd line)) lines) inv.
Proof. reflexivity. Qed.

Lemma deliver_paid now inv orderId userId lines :
  Wire.deliver now inv [mkEvent "order.paid" orderId userId (PItems lines)]
  = fold_left ProductConsumer.payItem
      (map (fun line => ProductConsumer.mkItem (fst line) (snd line)) lines) inv.
Proof. reflexivity. Qed.

(** X28. Checkout and cancellation, end to end.  A caller creates an order
    whose lines have positive quantities that fit into the available
    stock, the product service handles the [order.created] event, the
    caller cancels the order (a fresh order is [pending] or
    [payment_pending], so its owner may), and the product service handles
    the [order.cancelled] event: the cancellation is accepted and every
    inventory row has the [quantity] and [reservedQuantity] it had before
    the checkout. *)
Theorem checkout_then_cancel_restores_stock
  (toISOString : Z -> string) (getProductInfo : string -> Result ProductInfo)
  (st : Orders) (inv : gmap string Inventory.t) (user : User)
  (l : list ItemRequest) (addr : Address) (payment : option M.Payment.t)
  (shipping : option M.Shipping.t) (newId timestamp randomStr : string)
  (reason : option string) (t1 t2 t3 : Z) :
  l <> [] ->
  (forall it, In it l -> exists p, getProductInfo (r_productId it) = inr p) ->
  Forall (fun it => 0 < r_quantity it) l ->
  (forall pid row, inv !! pid = Some row ->
     0 <= Inventory.reservedQuantity row /\
     Ledger.sumZ
       (Ledger.quantitiesFor pid
          (map (fun it => ProductConsumer.mkItem (r_productId it) (r_quantity it)) l))
     <= Inventory.getAvailableStock row) ->
  let r1 := createOrder getProductInfo st user (Some l) (Some addr) payment
              shipping newId timestamp randomStr in
  let inv1 := Wire.deliver t1 inv (published r1) in
  let r2 := cancelOrder toISOString (orders r1) user newId reason t2 in
  let inv2 := Wire.deliver t3 inv1 (published r2) in
  rejected r2 = false /\
  (exists order, orders r2 !! newId = Some order /\
                 M.status order = M.cancelled) /\
  forall pid,
    match inv !! pid with
    | None => inv2 !! pid = None
    | Some row =>
        exists row2, inv2 !! pid = Some row2 /\
          Inventory.quantity row2 = Inventory.quantity row /\
          Inventory.reservedQuantity row2 = Inventory.reservedQuantity row
    end.
Proof.
  intros Hne Hall Hpos Hfit. cbv zeta.
  destruct (createOrder_ok getProductInfo st user l addr payment shipping
              newId timestamp randomStr Hne Hall)
    as (order & -> & Hlines & Hu & Hs & _).
  cbn [orders published].
  assert (Hst : M.status order = M.pending \/ M.status order = M.payment_pending).
  { rewrite Hs. destruct payment as [p|]; [|left; reflexivity].
    destruct (String.eqb (M.Payment.method p) "credit_card"); auto. }
  assert (Hown : isAdmin user = true \/ isOwner user order = true).
  { right. unfold isOwner. rewrite Hu. apply String.eqb_refl. }
  destruct (cancelOrder_ok toISOString (<[newId := order]> st) user newId order
              reason t2 (lookup_insert_eq _ _ _) Hst Hown) as (notes & ->).
  cbn [orders published rejected response].
  split; [reflexivity|]. split.
  { eexists. split; [apply lookup_insert_eq|].
    apply OrderMore.updateStatus_status. }
  rewrite Hlines, deliver_created, deliver_cancelled, map_map. cbn [fst snd].
  set (items := map (fun it => ProductConsumer.mkItem (r_productId it) (r_quantity it)) l)
    in *.
  destruct (ConsumerMore.created_then_cancelled_restores_aux inv
              (ProductConsumer.mkData (Some items) "" 0) items eq_refl)
    as (st1 & st2 & E1 & E2 & H).
  - subst items. apply Forall_map. exact Hpos.
  - exact Hfit.
  - unfold ProductConsumer.handleOrderCreated, ProductConsumer.handleOrderCancelled,
      ProductConsumer.forItems, ret in E1, E2.
    simpl in E1, E2. injection E1 as <-. injection E2 as <-. exact H.
Qed.

Lemma checkout_then_cancel_restores_stock_witness :
  [mkItemRequest "p1" 3] <> [] /\
  Forall (fun it => 0 < r_quantity it) [mkItemRequest "p1" 3] /\
  rejected
    (cancelOrder Samples.iso
       (orders (createOrder Samples.catalog ∅ Samples.owner
                  (Some [mkItemRequest "p1" 3]) (Some Samples.home)
                  (Some Samples.byCard) None "o9" "T" "R"))
       Samples.owner "o9" None 2) = false.
Proof.
  assert (Hne : [mkItemRequest "p1" 3] <> []) by discriminate.
  assert (Hall : forall it, In it [mkItemRequest "p1" 3] ->
                   exists pr, Samples.catalog (r_productId it) = inr pr).
  { intros it [<-|[]]. eexists. reflexivity. }
  assert (Hpos : Forall (fun it => 0 < r_quantity it) [mkItemRequest "p1" 3]).
  { repeat constructor. }
  assert (Hfit : forall pid row, Samples.store10 !! pid = Some row ->
            0 <= Inventory.reservedQuantity row /\
            Ledger.sumZ
              (Ledger.quantitiesFor pid
                 (map (fun it => ProductConsumer.mkItem (r_productId it)
                                   (r_quantity it)) [mkItemRequest "p1" 3]))
            <= Inventory.getAvailableStock row).
  { intros pid row Hl. unfold Samples.store10 in Hl.
    apply lookup_singleton_Some in Hl as [<- <-]. split; [simpl; lia|].
    vm_compute. discriminate. }
  split; [exact Hne|]. split; [exact Hpos|].
  exact (proj1 (checkout_then_cancel_restores_stock Samples.iso Samples.catalog
                  ∅ Samples.store10 Samples.owner [mkItemRequest "p1" 3]
                  Samples.home (Some Samples.byCard) None "o9" "T" "R" None
                  1 2 3 Hne Hall Hpos Hfit)).
Defined.

(** X29. [updatePayment] of the order controller publishes [order.paid],
    with the order's lines, for every accepted request whose payment
    status is [completed] - whatever the status of the order, so also for
    an order that is already paid or is cancelled - and for no other
    request.  Sending the same request again publishes the same event
    again, and the product service then runs the [order.paid] handling a
    second time on the same lines. *)
Theorem updatePayment_publishes (toISOString : Z -> string) (st : Orders)
  (user : User) (orderId : string) (order : M.Order)
  (paymentInfo : M.Payment.info) (t1 t2 t3 : Z)
  (inv : gmap string Inventory.t) :
  st !! orderId = Some order ->
  let r1 := updatePayment toISOString st user orderId paymentInfo t1 in
  let r2 := updatePayment toISOString (orders r1) user orderId paymentInfo t2 in
  let paid := [mkEvent "order.paid" orderId (M.userId order)
                 (PItems (itemLines order))] in
  let lines := map (fun line => ProductConsumer.mkItem (fst line) (snd line))
                 (itemLines order) in
  (isAdmin user = false -> isOwner user order = false -> untouched st r1) /\
  (isAdmin user = true \/ isOwner user order = true ->
     (M.Payment.i_status paymentInfo <> Some M.pay_completed ->
        published r1 = []) /\
     (M.Payment.i_status paymentInfo = Some M.pay_completed ->
        published r1 = paid /\ published r2 = paid /\
        Wire.deliver t3 inv (published r1 ++ published r2)
        = fold_left ProductConsumer.payItem lines
            (fold_left ProductConsumer.payItem lines inv))).
Proof.
  intros Hl. cbv zeta. split.
  - intros Ha Ho. unfold updatePayment. rewrite Hl, Ha, Ho.
    apply reject_untouched.
  - intros Hwho.
    assert (Hp : negb (isAdmin user) && negb (isOwner user order) = false).
    { destruct Hwho as [-> | ->]; [reflexivity|].
      destruct (isAdmin user); reflexivity. }
    destruct (updatePayment_items toISOString order paymentInfo t1) as [Hi Hu].
    set (o1 := M.updatePayment toISOString order paymentInfo t1) in *.
    destruct (updatePayment_items toISOString o1 paymentInfo t2) as [Hi2 Hu2].
    assert (E1 : updatePayment toISOString st user orderId paymentInfo t1
                 = mkOutcome (<[orderId := o1]> st) (Json 200 o1)
                     match M.Payment.i_status paymentInfo with
                     | Some M.pay_completed =>
                         [mkEvent "order.paid" orderId (M.userId order)
                            (PItems (itemLines order))]
                     | _ => []
                     end).
    { unfold updatePayment. rewrite Hl, Hp. fold o1.
      unfold itemLines. rewrite Hi, Hu. reflexivity. }
    assert (E2 : published
                   (updatePayment toISOString (<[orderId := o1]> st) user
                      orderId paymentInfo t2)
                 = match M.Payment.i_status paymentInfo with
                   | Some M.pay_completed =>
                       [mkEvent "order.paid" orderId (M.userId order)
                          (PItems (itemLines order))]
                   | _ => []
                   end).
    { unfold updatePayment. rewrite lookup_insert_eq.
      unfold isOwner in *. rewrite Hu, Hp. cbn [published].
      unfold itemLines. rewrite Hi2, Hu2, Hi, Hu. reflexivity. }
    rewrite E1. cbn [published orders]. rewrite E2. split.
    + intros Hn. destruct (M.Payment.i_status paymentInfo) as [[]|];
        try reflexivity. exfalso. apply Hn. reflexivity.
    + intros ->. split; [reflexivity|]. split; reflexivity.
Qed.

Lemma updatePayment_publishes_witness :
  ({["o1" := Samples.order1]} : Orders) !! "o1" = Some Samples.order1 /\
  isOwner Samples.owner Samples.order1 = true /\
  published
    (updatePayment Samples.iso {["o1" := Samples.order1]} Samples.owner "o1"
       (M.Payment.mkInfo None None None (Some M.pay_completed) None) 1)
  = [mkEvent "order.paid" "o1" "u1" (PItems [("p1", 2)])].
Proof.
  assert (Hl : ({["o1" := Samples.order1]} : Orders) !! "o1"
               = Some Samples.order1) by apply lookup_singleton_eq.
  split; [exact Hl|]. split; [reflexivity|].
  destruct (updatePayment_publishes Samples.iso _ Samples.owner "o1" _
              (M.Payment.mkInfo None None None (Some M.pay_completed) None)
              1 2 3 Samples.store10 Hl) as (_ & H).
  destruct (H (or_intror eq_refl)) as (_ & Hc).
  exact (proj1 (Hc eq_refl)).
Defined.

End EndpointFacts.


Module BreakerMore.
Import Js Breaker BreakerExtra.

Lemma gate_fallback cb now cb1 :
  gate cb now = Some cb1 ->
  fallbackFn cb1 = fallbackFn cb /\ isFailure cb1 = isFailure cb.
Proof.
  unfold gate. destruct (state cb).
  - intros [= <-]. auto.
  - destruct (lastFailureTime cb) as [t|]; [|discriminate].
    destruct (negb (t =? 0) && (resetTimeout cb <? now - t)); [|discriminate].
    intros [= <-]. auto.
  - intros [= <-]. auto.
Qed.

Lemma fire_sound cb env :
  sound cb -> isFailure cb None = false ->
  sound (breaker (fire cb env)) /\
  isFailure (breaker (fire cb env)) = isFailure cb.
Proof.
  destruct cb as [st ft fc rt lft sth sc to fb nm isf].
  destruct env as [nw se fa oa].
  unfold sound, fire, gate; simpl. intros Hs Hn.
  destruct st; simpl in *.
  - destruct se as [v|[e|]]; simpl.
    + split; [|reflexivity]. unfold sound; simpl. intuition lia.
    + unfold _handleFailure; simpl. destruct (isf (Some e)); simpl.
      * destruct (Z.leb_spec ft (fc + 1)); simpl; split; try reflexivity;
          unfold sound; simpl; [eauto | intuition lia].
      * split; [|reflexivity]. unfold sound; simpl. exact Hs.
    + unfold _handleFailure; simpl. rewrite Hn. simpl.
      split; [|reflexivity]. unfold sound; simpl. exact Hs.
  - destruct lft as [t|]; simpl.
    + destruct (negb (t =? 0) && (rt <? nw - t)); simpl.
      * destruct se as [v|[e|]]; simpl.
        -- unfold _handleSuccess; simpl.
           destruct (Z.leb_spec sth (0 + 1)); simpl; split; try reflexivity;
             unfold sound; simpl; intuition lia.
        -- unfold _handleFailure; simpl. destruct (isf (Some e)); simpl;
             split; try reflexivity; unfold sound; simpl; [eauto | intuition lia].
        -- unfold _handleFailure; simpl. rewrite Hn. simpl.
           split; [|reflexivity]. unfold sound; simpl. intuition lia.
      * split; [|reflexivity]. unfold sound; simpl. exact Hs.
    + split; [|reflexivity]. unfold sound; simpl. exact Hs.
  - destruct se as [v|[e|]]; simpl.
    + unfold _handleSuccess; simpl.
      destruct (Z.leb_spec sth (sc + 1)); simpl; split; try reflexivity;
        unfold sound; simpl; intuition lia.
    + unfold _handleFailure; simpl. destruct (isf (Some e)); simpl;
        split; try reflexivity; unfold sound; simpl; [eauto | exact Hs].
    + unfold _handleFailure; simpl. rewrite Hn. simpl.
      split; [|reflexivity]. unfold sound; simpl. exact Hs.
Qed.

Lemma fires_sound envs :
  forall cb, sound cb -> isFailure cb None = false -> sound (fires cb envs).
Proof.
  unfold fires. induction envs as [|env envs IH]; intros cb Hs Hn; simpl.
  - exact Hs.
  - destruct (fire_sound cb env Hs Hn) as [Hs' Hi]. apply IH; [exact Hs'|].
    rewrite Hi. exact Hn.
Qed.

Lemma fire_open_failing cb env :
  state cb = OPEN -> failing cb env ->
  state (breaker (fire cb env)) = OPEN /\
  sameConfig cb (breaker (fire cb env)).
Proof.
  intros Hs (e & He & Hf). unfold fire, gate. rewrite Hs.
  destruct (lastFailureTime cb) as [t|]; simpl.
  - destruct (negb (t =? 0) && (resetTimeout cb <? now env - t)); simpl.
    + rewrite He. unfold _handleFailure. simpl. rewrite Hf. simpl.
      repeat split; reflexivity.
    + repeat split; auto.
  - repeat split; auto.
Qed.

Lemma fires_open_failing envs :
  forall cb, state cb = OPEN -> Forall (failing cb) envs ->
    state (fires cb envs) = OPEN.
Proof.
  unfold fires. induction envs as [|env envs IH]; intros cb Hs Hall; simpl.
  - exact Hs.
  - inversion Hall as [|? ? Hf Hrest]; subst.
    destruct (fire_open_failing cb env Hs Hf) as [Hs' Hc].
    apply IH; [exact Hs'|]. eapply Forall_impl; [exact Hrest|].
    intros a. apply BreakerFacts.failing_config, Hc.
Qed.

Lemma fires_reach_threshold envs :
  forall cb, state cb = CLOSED -> Forall (failing cb) envs ->
    failureCount cb < failureThreshold cb ->
    failureThreshold cb <= failureCount cb + Z.of_nat (length envs) ->
    state (fires cb envs) = OPEN.
Proof.
  induction envs as [|env envs IH]; intros cb Hs Hall Hlt Hge.
  - simpl in Hge. lia.
  - inversion Hall as [|? ? Hf Hrest]; subst.
    destruct (BreakerFacts.fire_closed_failing cb env Hs Hf)
      as (_ & Hc & Hbelow & Habove).
    assert (Hrest' : Forall (failing (breaker (fire cb env))) envs).
    { eapply Forall_impl; [exact Hrest|].
      intros a. apply BreakerFacts.failing_config, Hc. }
    change (fires cb (env :: envs)) with (fires (breaker (fire cb env)) envs).
    destruct (Z.lt_ge_cases (failureCount cb + 1) (failureThreshold cb)) as [Hb|Ha].
    + destruct (Hbelow Hb) as [Hs1 Hn1]. apply IH; auto.
      * destruct Hc as (-> & _). lia.
      * destruct Hc as (-> & _). rewrite Hn1.
        change (length (env :: envs)) with (S (length envs)) in Hge. lia.
    + destruct (Habove Ha) as [Hs1 _]. apply fires_open_failing; auto.
Qed.

(** X. The counters of a breaker stay in step with its state: starting
    from the constructor, with a classifier that does not count a [null]
    rejection (the default one does not), after any sequence of calls of
    [fire] a closed breaker has no successes counted and fewer counted
    failures than its threshold, an open one has both counters at zero
    and a time of last failure, and a half-open one has no failure
    counted and fewer successes than its threshold. *)
Theorem reachable_breakers_sound (options : Options) (envs : list Env) :
  skipsNull options -> sound (fires (new options) envs).
Proof.
  intros Hskip. apply fires_sound.
  - unfold sound, new; simpl. intuition lia.
  - unfold new; simpl. destruct (o_isFailure options) as [f|] eqn:E.
    + exact (Hskip f E).
    + reflexivity.
Qed.

Lemma reachable_breakers_sound_witness :
  sound (fires Samples.breaker3
           [Samples.failAt 1; Samples.failAt 2; Samples.failAt 3;
            Samples.okAt 40000]).
Proof.
  apply (reachable_breakers_sound
           (mkOptions (Some 3) None None None None None None)).
  intros f Hf. discriminate Hf.
Defined.

(** X. Failures open a closed breaker only when they come in a row: a
    run of counted failures shorter than what is left to the threshold,
    one success, and another run shorter than the threshold leave the
    breaker closed, with only the second run counted; the same failures
    without the success in between open it once they reach the
    threshold. *)
Theorem failures_must_be_consecutive (cb : CircuitBreaker)
  (envs1 envs2 : list Env) (env : Env) :
  state cb = CLOSED ->
  Forall (failing cb) envs1 -> succeeding env -> Forall (failing cb) envs2 ->
  failureCount cb + Z.of_nat (length envs1) < failureThreshold cb ->
  Z.of_nat (length envs2) < failureThreshold cb ->
  (state (fires cb (envs1 ++ env :: envs2)) = CLOSED /\
   failureCount (fires cb (envs1 ++ env :: envs2)) = Z.of_nat (length envs2)) /\
  (failureThreshold cb <= failureCount cb + Z.of_nat (length (envs1 ++ envs2)) ->
   state (fires cb (envs1 ++ envs2)) = OPEN).
Proof.
  intros Hs H1 (v & Hv) H2 Hlt1 Hlt2. split.
  - rewrite BreakerFacts.fires_app.
    destruct (BreakerFacts.fires_closed_failing envs1 cb Hs H1 Hlt1)
      as (Hs1 & Hc1 & Hn1).
    set (cb1 := fires cb envs1) in *.
    change (fires cb1 (env :: envs2))
      with (fires (breaker (fire cb1 env)) envs2).
    assert (E : breaker (fire cb1 env) = set_failureCount 0 cb1).
    { unfold fire, gate. rewrite Hs1, Hv. unfold _handleSuccess.
      rewrite Hs1. reflexivity. }
    rewrite E.
    assert (H2' : Forall (failing (set_failureCount 0 cb1)) envs2).
    { eapply Forall_impl; [exact H2|]. intros a (e & He & Hf). exists e.
      split; [exact He|]. simpl. destruct Hc1 as (_ & _ & _ & -> & _).
      exact Hf. }
    destruct (BreakerFacts.fires_closed_failing envs2 (set_failureCount 0 cb1))
      as (Hs2 & _ & Hn2); auto.
    simpl. destruct Hc1 as (-> & _). lia.
  - intros Hge. apply fires_reach_threshold; auto.
    + apply Forall_app. split; assumption.
    + lia.
Qed.

Lemma failures_must_be_consecutive_witness :
  state (fires Samples.breaker3
           ([Samples.failAt 1; Samples.failAt 2] ++
            Samples.okAt 3 :: [Samples.failAt 4; Samples.failAt 5])) = CLOSED /\
  state (fires Samples.breaker3
           ([Samples.failAt 1; Samples.failAt 2] ++
            [Samples.failAt 4; Samples.failAt 5])) = OPEN.
Proof.
  assert (F : forall t, failing Samples.breaker3 (Samples.failAt t)).
  { intros t. exists Samples.timedOut. split; reflexivity. }
  destruct (failures_must_be_consecutive Samples.breaker3
              [Samples.failAt 1; Samples.failAt 2]
              [Samples.failAt 4; Samples.failAt 5] (Samples.okAt 3))
    as [[Hc _] Ho].
  - reflexivity.
  - repeat constructor; apply F.
  - exists "ok". reflexivity.
  - repeat constructor; apply F.
  - vm_compute. reflexivity.
  - vm_compute. reflexivity.
  - split; [exact Hc|]. apply Ho; vm_compute; discriminate.
Defined.

(** X. With a fallback installed and a classifier that does not count a
    [null] rejection, [fire] never throws: a blocked call answers with the
    fallback applied to the open-circuit error, a rejected request with
    the fallback applied to the rejection, a resolved one with its value.
    A classifier that counts a [null] rejection breaks this: the log line
    of [_handleFailure] reads [error.message], so [fire] throws a
    [TypeError] past the fallback, and the failure is counted without
    the breaker opening, whatever the threshold. *)
Theorem fallback_always_answers (cb : CircuitBreaker) (env : Env)
  (f : Thrown -> Value) :
  fallbackFn cb = Some f ->
  (isFailure cb None = false ->
   settled (fire cb env) =
     match gate cb (now env) with
     | None => inr (f (Some (openCircuitError cb)))
     | Some _ =>
         match settlement env with
         | Resolved v => inr v
         | Rejected error => inr (f error)
         end
     end) /\
  (isFailure cb None = true -> settlement env = Rejected None ->
   state cb <> OPEN ->
   settled (fire cb env) = inl (Some errLoggedNull) /\
   state (breaker (fire cb env)) = state cb /\
   failureCount (breaker (fire cb env)) = failureCount cb + 1).
Proof.
  intros Hfb. split.
  - intros Hn. unfold fire. destruct (gate cb (now env)) as [cb1|] eqn:Eg.
    + destruct (gate_fallback cb (now env) cb1 Eg) as [Hf1 Hi1].
      destruct (settlement env) as [v|error]; [reflexivity|].
      unfold _handleFailure.
      destruct (isFailure cb1 error) eqn:Ei.
      * destruct error as [e|]; [|congruence]. simpl.
        destruct (state cb1); simpl;
          [destruct (failureThreshold cb1 <=? failureCount cb1 + 1)| |];
          unfold fallbackOrThrow; simpl; rewrite Hf1, Hfb; reflexivity.
      * simpl. unfold fallbackOrThrow. rewrite Hf1, Hfb. reflexivity.
    + simpl. unfold _handleOpenCircuit, fallbackOrThrow. rewrite Hfb.
      reflexivity.
  - intros Hn He Hs. unfold fire, gate.
    destruct (state cb) eqn:Es; [|congruence|];
      rewrite He; unfold _handleFailure; rewrite Hn; simpl;
      rewrite ?Es; auto.
Qed.

Lemma fallback_always_answers_witness :
  settled (fire Samples.nullCounting Samples.rejectedNull)
    = inl (Some errLoggedNull) /\
  state (breaker (fire Samples.nullCounting Samples.rejectedNull)) = CLOSED.
Proof.
  destruct (fallback_always_answers Samples.nullCounting Samples.rejectedNull
              (fun _ => "cached") eq_refl) as [_ H].
  destruct H as (Hr & Hs & _); [reflexivity | reflexivity | discriminate |].
  split; [exact Hr | exact Hs].
Defined.

End BreakerMore.


Module PaymentFacts.
Import Js PaymentController.

Lemma updateStatus_payment toISO o s notes now :
  M.payment (M.updateStatus toISO o s notes now) =
  match s, M.Payment.paidAt (M.payment o) with
  | M.paid, None => M.Payment.set_paidAt (Some now) (M.payment o)
  | _, _ => M.payment o
  end.
Proof.
  destruct (OrderMore.updateStatus_unfold toISO o s notes now) as (n & -> & _).
  destruct o as [? ? ? ? ? ? ? ? ? pay ship ? ? completedAt0 cancelledAt0].
  destruct pay as [? ? ? ? paidAt0], ship as [? ? ? ? ? shippedAt0 deliveredAt0].
  destruct s, completedAt0, cancelledAt0, shippedAt0, deliveredAt0, paidAt0;
    reflexivity.
Qed.

Lemma updateStatus_total toISO o s notes now :
  M.total (M.updateStatus toISO o s notes now) = M.total o.
Proof.
  destruct (OrderMore.updateStatus_unfold toISO o s notes now) as (n & -> & _).
  destruct o as [? ? ? ? ? ? ? ? ? pay ship ? ? completedAt0 cancelledAt0].
  destruct pay as [? ? ? ? paidAt0], ship as [? ? ? ? ? shippedAt0 deliveredAt0].
  destruct s, completedAt0, cancelledAt0, shippedAt0, deliveredAt0, paidAt0;
    reflexivity.
Qed.

Lemma updatePayment_payment toISO o i now :
  M.payment (M.updatePayment toISO o i now) =
  match M.Payment.i_status i, M.status o,
        M.Payment.paidAt (M.mergePayment (M.payment o) i) with
  | Some M.pay_completed, M.payment_pending, None =>
      M.Payment.set_paidAt (Some now) (M.mergePayment (M.payment o) i)
  | _, _, _ => M.mergePayment (M.payment o) i
  end.
Proof.
  unfold M.updatePayment. cbv zeta.
  change (M.status (M.set_payment (M.mergePayment (M.payment o) i) o))
    with (M.status o).
  destruct (M.Payment.i_status i) as [[]|], (M.status o);
    try (destruct (M.Payment.paidAt (M.mergePayment (M.payment o) i));
         reflexivity).
  rewrite updateStatus_payment. reflexivity.
Qed.

Lemma updatePayment_status_cases toISO o i now :
  M.status (M.updatePayment toISO o i now) =
  match M.Payment.i_status i, M.status o with
  | Some M.pay_completed, M.payment_pending => M.paid
  | _, _ => M.status o
  end.
Proof.
  unfold M.updatePayment. cbv zeta.
  change (M.status (M.set_payment (M.mergePayment (M.payment o) i) o))
    with (M.status o).
  destruct (M.Payment.i_status i) as [[]|], (M.status o) eqn:Es;
    rewrite ?OrderMore.updateStatus_status; simpl; auto.
Qed.

Lemma allowed_user user order :
  C.isOwner user order = true \/ C.isAdmin user = true ->
  negb (C.isOwner user order) && negb (C.isAdmin user) = false.
Proof. intros [-> | ->]; simpl; [reflexivity | apply andb_false_r]. Qed.

Lemma not_completed s : s <> M.pay_completed -> isCompleted s = false.
Proof. intros H. destruct s; simpl; congruence. Qed.

Lemma not_cancelled s : s <> M.cancelled -> M.status_eqb s M.cancelled = false.
Proof. intros H. destruct s; try reflexivity. congruence. Qed.

Lemma appendNote_fields line o :
  M.status (appendNote line o) = M.status o /\
  M.payment (appendNote line o) = M.payment o /\
  M.items (appendNote line o) = M.items o /\
  M.userId (appendNote line o) = M.userId o /\
  M.total (appendNote line o) = M.total o.
Proof.
  unfold appendNote. destruct (M.adminNotes o) as [old|];
    [destruct (M.truthy old)|]; repeat split; reflexivity.
Qed.

Section Facts.

Variable toISOString : Z -> string.
Variable showNumber : Q -> string.

(** X. [processPayment] on an existing order, asked by its owner or an
    admin: an order whose payment is completed is never charged again and
    a cancelled order is never paid (both are refused with nothing saved
    or published); otherwise a card or PayPal payment leaves the order
    [paid], its payment [completed] for the order's total and dated now,
    and publishes one [order.paid] carrying the order's lines; a bank
    transfer or cash payment leaves the order [payment_pending], its
    payment [pending] and without a date (an earlier [paidAt] is wiped),
    and publishes nothing; any other method is refused. *)
Theorem processPayment_spec (st : gmap string M.Order) (user : C.User)
  (orderId method hex : string) (now : Z) (order : M.Order) :
  st !! orderId = Some order ->
  C.isOwner user order = true \/ C.isAdmin user = true ->
  let r := processPayment toISOString st user orderId method hex now in
  (M.Payment.status (M.payment order) = M.pay_completed \/
   M.status order = M.cancelled -> untouched st r) /\
  (M.Payment.status (M.payment order) <> M.pay_completed ->
   M.status order <> M.cancelled ->
   (forall prefix,
      method = "credit_card" /\ prefix = "cc_" \/
      method = "paypal" /\ prefix = "pp_" ->
      exists o', orders r = <[orderId := o']> st /\
        response r = C.Json 200 o' /\
        M.status o' = M.paid /\
        M.payment o' = M.Payment.mk method (Some (prefix +:+ hex))
                         (M.total order) M.pay_completed (Some now) /\
        published r = [mkPublished "order.paid" orderId (M.userId order)
                         (Some (C.itemLines order))]) /\
   (forall prefix,
      method = "bank_transfer" /\ prefix = "bt_" \/
      method = "cash" /\ prefix = "cash_" ->
      exists o', orders r = <[orderId := o']> st /\
        response r = C.Json 200 o' /\
        M.status o' = M.payment_pending /\
        M.payment o' = M.Payment.mk method (Some (prefix +:+ hex))
                         (M.total order) M.pay_pending None /\
        published r = []) /\
   (method <> "credit_card" -> method <> "paypal" ->
    method <> "bank_transfer" -> method <> "cash" -> untouched st r)).
Proof.
  intros Hl Hu r. subst r. unfold processPayment. rewrite Hl.
  rewrite (allowed_user _ _ Hu). split.
  - intros [Hc | Hc].
    + rewrite Hc. simpl. unfold untouched, reject; simpl. eauto.
    + destruct (isCompleted _); [unfold untouched, reject; simpl; eauto|].
      rewrite Hc. simpl. unfold untouched, reject; simpl. eauto.
  - intros Hnc Hns. rewrite (not_completed _ Hnc), (not_cancelled _ Hns).
    split; [|split].
    + intros prefix [[-> ->] | [-> ->]]; cbv zeta;
        cbn [processPaymentByMethod String.eqb Ascii.eqb Bool.eqb ret
             status transactionId isCompleted];
        (eexists; split; [reflexivity|]; split; [reflexivity|];
         split; [apply OrderMore.updateStatus_status|]; split;
         [ rewrite updateStatus_payment, updatePayment_payment; simpl;
           destruct (M.status order); reflexivity
         | unfold lines, C.itemLines;
           rewrite ControllerMore.updateStatus_userId,
             EndpointFacts.updateStatus_items;
           rewrite (proj1 (EndpointFacts.updatePayment_items _ _ _ _)),
             (proj2 (EndpointFacts.updatePayment_items _ _ _ _));
           reflexivity ]).
    + intros prefix [[-> ->] | [-> ->]]; cbv zeta;
        cbn [processPaymentByMethod String.eqb Ascii.eqb Bool.eqb ret
             status transactionId isCompleted];
        (eexists; split; [reflexivity|]; split; [reflexivity|];
         split; [apply OrderMore.updateStatus_status|]; split;
         [ rewrite updateStatus_payment; cbn [M.payment M.set_payment];
           rewrite updatePayment_payment; reflexivity
         | reflexivity ]).
    + intros H1 H2 H3 H4. unfold processPaymentByMethod.
      apply String.eqb_neq in H1, H2, H3, H4. rewrite H1, H2, H3, H4.
      unfold untouched; simpl. eauto.
Qed.

Lemma set_paymentStatus_fields s o :
  M.status (set_paymentStatus s o) = M.status o /\
  M.items (set_paymentStatus s o) = M.items o /\
  M.userId (set_paymentStatus s o) = M.userId o /\
  M.total (set_paymentStatus s o) = M.total o /\
  M.Payment.status (M.payment (set_paymentStatus s o)) = s.
Proof. repeat split; reflexivity. Qed.

Lemma webhook_event_requeued (JSON_parse : string -> option ProductConsumer.Parsed)
  st type data now e content inv t :
  In e (snd (processWebhook toISOString showNumber st type data now)) ->
  JSON_parse content = Some (ProductConsumer.PObject (contentOf e)) ->
  ProductConsumer.handleMessage JSON_parse t inv (Some content)
  = (inv, [ProductConsumer.Nack false true]).
Proof.
  intros Hin Hp. unfold ProductConsumer.handleMessage, ProductConsumer.process.
  rewrite Hp. revert Hin. unfold processWebhook.
  destruct (String.eqb type "payment_intent.succeeded");
    [|destruct (String.eqb type "payment_intent.failed");
      [|destruct (String.eqb type "payment_intent.refunded")]].
  - unfold handlePaymentSuccess. destruct (st !! w_orderId data); simpl;
      [intros [<- | []]; reflexivity | intros []].
  - unfold handlePaymentFailure. destruct (st !! w_orderId data); simpl;
      intros [].
  - unfold handlePaymentRefund. destruct (st !! w_orderId data); simpl;
      [intros [<- | []]; reflexivity | intros []].
  - simpl. intros [].
Qed.

(** X. The payment webhook and the product service do not fit together.
    A [payment_intent.succeeded] call marks the order [paid] and its
    payment [completed], dated now, whatever the order's status was
    (a cancelled order included), and publishes one [order.paid] whose
    data has no [items].  Every event a webhook call publishes makes
    [handleMessage] of the product service throw before its loop: the
    message is rejected with requeue and the inventory stays as it was,
    so no reservation is ever settled by a webhook payment. *)
Theorem webhook_events_requeued (st : gmap string M.Order) (data : WebhookData)
  (now : Z) (order : M.Order) :
  st !! w_orderId data = Some order ->
  let out := processWebhook toISOString showNumber st
               "payment_intent.succeeded" data now in
  (exists o', fst out = <[w_orderId data := o']> st /\
     M.status o' = M.paid /\
     M.payment o' = M.Payment.mk (M.Payment.method (M.payment order))
                      (Some (w_transactionId data))
                      (M.Payment.amount (M.payment order)) M.pay_completed
                      (Some now)) /\
  snd out = [mkPublished "order.paid" (w_orderId data) (M.userId order) None] /\
  forall (JSON_parse : string -> option ProductConsumer.Parsed) type e content
         inv t,
    In e (snd (processWebhook toISOString showNumber st type data now)) ->
    JSON_parse content = Some (ProductConsumer.PObject (contentOf e)) ->
    ProductConsumer.handleMessage JSON_parse t inv (Some content)
    = (inv, [ProductConsumer.Nack false true]).
Proof.
  intros Hl out. split; [|split].
  - subst out. unfold processWebhook. cbn [String.eqb Ascii.eqb Bool.eqb].
    unfold handlePaymentSuccess. rewrite Hl. cbn [fst].
    eexists. split; [reflexivity|]. split.
    + apply OrderMore.updateStatus_status.
    + rewrite updateStatus_payment, updatePayment_payment.
      destruct (M.status order); reflexivity.
  - subst out. unfold processWebhook. cbn [String.eqb Ascii.eqb Bool.eqb].
    unfold handlePaymentSuccess. rewrite Hl. cbn [snd].
    rewrite ControllerMore.updateStatus_userId,
      (proj2 (EndpointFacts.updatePayment_items _ _ _ _)).
    reflexivity.
  - intros JSON_parse type e content inv t.
    apply webhook_event_requeued.
Qed.

(** X. [processRefund] on the order found for a transaction id: a
    payment that is not [completed] is refused with nothing saved or
    published; otherwise the payment becomes [refunded], the order
    becomes [refunded] exactly when the amount (the payment's amount when
    the body gives none, or zero) reaches the order's total and keeps its
    status otherwise, and one [order.refunded] is published with all the
    lines of the order, so that the product service puts every unit of
    the order back in stock, for a partial refund too. *)
Theorem processRefund_spec (st : gmap string M.Order) (paymentId : string)
  (amount : option Q) (reason : option string) (now : Z) (orderId : string)
  (order : M.Order) :
  findByTransaction st paymentId = Some (orderId, order) ->
  let r := processRefund toISOString showNumber st paymentId amount reason
             now in
  let refundAmount :=
    match amount with
    | Some a => if Qeq_bool a 0 then M.Payment.amount (M.payment order) else a
    | None => M.Payment.amount (M.payment order)
    end in
  (M.Payment.status (M.payment order) <> M.pay_completed -> untouched st r) /\
  (M.Payment.status (M.payment order) = M.pay_completed ->
   exists o', orders r = <[orderId := o']> st /\
     M.Payment.status (M.payment o') = M.pay_refunded /\
     M.status o' = (if Qle_bool (M.total order) refundAmount
                    then M.refunded else M.status order) /\
     M.items o' = M.items order /\
     published r = [mkPublished "order.refunded" orderId (M.userId order)
                      (Some (C.itemLines order))] /\
     forall t inv e, In e (published r) ->
       ProductConsumer.dispatch t inv (contentOf e)
       = inr (fold_left (ProductConsumer.restockItem t)
                (map (fun line => ProductConsumer.mkItem (fst line) (snd line))
                   (C.itemLines order)) inv)).
Proof.
  intros Hf r refundAmount. subst r. unfold processRefund. rewrite Hf. split.
  - intros Hn. rewrite (not_completed _ Hn). simpl.
    unfold untouched, reject; simpl. eauto.
  - intros Hc. rewrite Hc. cbn [isCompleted negb].
    fold refundAmount.
    change (M.total (set_paymentStatus M.pay_refunded order))
      with (M.total order).
    set (o' := if Qle_bool (M.total order) refundAmount then _ else _).
    assert (Ho : M.Payment.status (M.payment o') = M.pay_refunded /\
                 M.status o' = (if Qle_bool (M.total order) refundAmount
                                then M.refunded else M.status order) /\
                 M.items o' = M.items order /\
                 M.userId o' = M.userId order).
    { subst o'. destruct (Qle_bool (M.total order) refundAmount).
      - rewrite updateStatus_payment, OrderMore.updateStatus_status,
          EndpointFacts.updateStatus_items,
          ControllerMore.updateStatus_userId.
        repeat split; reflexivity.
      - destruct (appendNote_fields
                    (toISOString now +:+ " - Reembolso parcial: " +:+
                     showNumber refundAmount +:+ ". Motivo: " +:+
                     orText reason "No especificado")
                    (set_paymentStatus M.pay_refunded order))
          as (-> & -> & -> & -> & _).
        repeat split; reflexivity. }
    destruct Ho as (Hp & Hs & Hi & Hu).
    exists o'. cbn [orders published].
    assert (Hev : mkPublished "order.refunded" orderId (M.userId o') (lines o')
                  = mkPublished "order.refunded" orderId (M.userId order)
                      (Some (C.itemLines order))).
    { unfold lines, C.itemLines. rewrite Hu, Hi. reflexivity. }
    rewrite Hev. repeat split; auto.
    intros t inv e [<- | []]. reflexivity.
Qed.

End Facts.

Lemma processPayment_spec_witness :
  exists o',
    orders (processPayment Samples.iso {["o1" := Samples.order1]}
              Samples.owner "o1" "credit_card" "ab" 7)
    = <["o1" := o']> {["o1" := Samples.order1]} /\
    M.status o' = M.paid.
Proof.
  destruct (processPayment_spec Samples.iso {["o1" := Samples.order1]}
              Samples.owner "o1" "credit_card" "ab" 7 Samples.order1)
    as [_ H].
  - vm_compute. reflexivity.
  - left. reflexivity.
  - destruct H as (Hcard & _); [vm_compute; discriminate ..|].
    destruct (Hcard "cc_") as (o' & Ho & _ & Hs & _);
      [left; split; reflexivity|].
    exists o'. split; [exact Ho | exact Hs].
Defined.

Lemma webhook_events_requeued_witness :
  snd (processWebhook Samples.iso Samples.showQ {["o1" := Samples.order1]}
         "payment_intent.succeeded" Samples.hook 7)
  = [mkPublished "order.paid" "o1" "u1" None].
Proof.
  destruct (webhook_events_requeued Samples.iso Samples.showQ
              {["o1" := Samples.order1]} Samples.hook 7 Samples.order1)
    as (_ & He & _).
  - vm_compute. reflexivity.
  - exact He.
Defined.

Lemma processRefund_spec_witness :
  exists o',
    orders (processRefund Samples.iso Samples.showQ
              {["o1" := Samples.paidOrder]} "cc_ab12" (Some 5%Q) None 9)
    = <["o1" := o']> {["o1" := Samples.paidOrder]} /\
    M.Payment.status (M.payment o') = M.pay_refunded /\
    M.status o' = M.paid.
Proof.
  destruct (processRefund_spec Samples.iso Samples.showQ
              {["o1" := Samples.paidOrder]} "cc_ab12" (Some 5%Q) None 9 "o1"
              Samples.paidOrder) as [_ H].
  - vm_compute. reflexivity.
  - destruct H as (o' & Ho & Hp & Hs & _); [reflexivity|].
    exists o'. split; [exact Ho|]. split; [exact Hp | exact Hs].
Defined.

End PaymentFacts.


Module OrderConsumerFacts.
Import Js OrderConsumer OrderExtra.

Lemma retag_fields pid name price i :
  M.hasProductId pid (retag pid name price i) = M.hasProductId pid i /\
  M.Item.productId (retag pid name price i) = M.Item.productId i /\
  M.Item.quantity (retag pid name price i) = M.Item.quantity i.
Proof.
  unfold retag, M.hasProductId.
  destruct (String.eqb (M.Item.productId i) pid) eqn:E;
    [|rewrite E; repeat split; reflexivity].
  destruct name as [n|]; [destruct (M.truthy n)|];
    (destruct price as [p|]; [destruct (truthyNumber p)|]);
    simpl; rewrite ?E; repeat split; reflexivity.
Qed.

Lemma unitsOf_retag q pid name price l :
  unitsOf q (map (retag pid name price) l) = unitsOf q l.
Proof.
  unfold unitsOf. induction l as [|i l IH]; [reflexivity|].
  cbn [map fold_right]. rewrite IH.
  destruct (retag_fields pid name price i) as (_ & Hp & Hq).
  unfold M.hasProductId. rewrite Hp, Hq. reflexivity.
Qed.

Lemma retag_price pid name p i :
  M.hasProductId pid i = true -> truthyNumber p = true ->
  M.Item.price (retag pid name (Some p) i) = p /\
  M.Item.salePrice (retag pid name (Some p) i) = M.Item.salePrice i.
Proof.
  intros Hh Hp. unfold retag. rewrite Hh, Hp.
  destruct name as [n|]; [destruct (M.truthy n)|]; split; reflexivity.
Qed.

(** X. [handleProductUpdated], the repricing of open orders: every
    stored order keeps its key and its status; an order that is not
    [pending], [processing] or [payment_pending], or has no line of the
    product, is left exactly as it was; in an order that is touched by a
    non-zero price, every line of the product carries the new price and a
    subtotal recomputed from it (from the line's sale price when that is
    positive, so the new price then changes nothing in the amounts), the
    order totals are consistent again, and no line changes product or
    quantity. *)
Theorem handleProductUpdated_spec (st : gmap string M.Order)
  (productId : string) (name : option string) (price : option Q)
  (id : string) (o : M.Order) :
  st !! id = Some o ->
  exists o',
    handleProductUpdated st productId name price !! id = Some o' /\
    M.status o' = M.status o /\
    (affected productId o = false -> o' = o) /\
    (affected productId o = true ->
     forall p, price = Some p -> truthyNumber p = true ->
       Forall
         (fun i =>
            M.hasProductId productId i = true ->
            M.Item.price i = p /\
            M.Item.subtotal i
            = (match M.Item.salePrice i with
               | Some s => if M.Qgtb s 0 then s else p
               | None => p
               end * inject_Z (M.Item.quantity i))%Q)
         (M.items o') /\
       M.totalsConsistent o' /\
       forall q, unitsOf q (M.items o') = unitsOf q (M.items o)).
Proof.
  intros Hl. unfold handleProductUpdated.
  destruct (_ || _) eqn:Ec.
  - rewrite lookup_fmap, Hl. cbn [fmap option_fmap option_map].
    destruct (affected productId o) eqn:Ea.
    + eexists. split; [reflexivity|]. split; [reflexivity|].
      split; [discriminate|]. intros _ p -> Hp. split; [|split].
      * change (M.items (M.calculateTotals
                  (M.set_items (map (retag productId name (Some p)) (M.items o)) o)))
          with (map M.retotal (map (retag productId name (Some p)) (M.items o))).
        apply Forall_map, Forall_map, Forall_forall. intros i _ Hh.
        rewrite OrderMore.hasProductId_retotal in Hh.
        rewrite (proj1 (retag_fields _ _ _ _)) in Hh.
        destruct (retag_price productId name p i Hh Hp) as [Hpr Hsp].
        destruct (retag productId name (Some p) i) as [? ? ? pr sp ? ? ? ? ? ? ?].
        simpl in *. subst pr sp. split; [reflexivity|].
        unfold M.effectivePrice. simpl. reflexivity.
      * apply OrderFacts.calculateTotals_consistent.
      * intros q.
        change (M.items (M.calculateTotals
                  (M.set_items (map (retag productId name (Some p)) (M.items o)) o)))
          with (map M.retotal (map (retag productId name (Some p)) (M.items o))).
        rewrite OrderMore.unitsOf_retotal. apply unitsOf_retag.
    + exists o. split; [reflexivity|]. split; [reflexivity|].
      split; [reflexivity | discriminate].
  - exists o. split; [exact Hl|]. split; [reflexivity|]. split; [reflexivity|].
    intros _ p -> Hp. rewrite Hp, orb_true_r in Ec. discriminate.
Qed.

Lemma handleProductUpdated_spec_witness :
  exists o',
    handleProductUpdated {["o1" := Samples.order1]} "p1" None (Some 25%Q)
      !! "o1" = Some o' /\
    M.totalsConsistent o'.
Proof.
  destruct (handleProductUpdated_spec {["o1" := Samples.order1]} "p1" None
              (Some 25%Q) "o1" Samples.order1) as (o' & Ho & _ & _ & H).
  - vm_compute. reflexivity.
  - destruct (H eq_refl 25%Q eq_refl eq_refl) as (_ & Hc & _).
    exists o'. split; [exact Ho | exact Hc].
Defined.

End OrderConsumerFacts.
